(** * wikipedia_scraper.py: a shallow embedding and its properties

    The development follows [src/wikipedia_scraper.py]:
    - [PyStr]: the string operations of the Python runtime the scraper
      calls ([str.strip], [str.lower], [str.replace], [str.startswith],
      [in], slicing, [re.sub] with a character class);
    - [PyPath]: [os.path.split];
    - [PyDict]: insertion-ordered dictionaries with string keys;
    - [Soup]: the parsed document tree and the selector queries the scraper
      issues against it;
    - [Scraper]: [WikipediaScraper.search_wikipedia],
      [WikipediaScraper.get_article_content] and
      [WikipediaScraper.scrape_keywords] over an explicit state (network,
      clock, file system, log file, event trace) with exceptions;
    - [Spec]: the notions the properties are stated with;
    - [Demo]: a small site on which the scraper is run.

    Strings are sequences of code points U+0000..U+00FF: a character of
    the standard 8-bit type is read as the Latin-1 code point of the same
    number. *)

From Stdlib Require Import ZArith Ascii DecimalString.
From stdpp Require Import base option list gmap strings.

#[local] Set Warnings "-clear-no-such-hyp".


(* ===================================================================== *)
(** * Part I: definitions *)
(* ===================================================================== *)

(** ** Python strings *)

Module PyStr.

Definition code (c : ascii) : N := N_of_ascii c.

Definition in_range (lo hi : N) (c : ascii) : bool :=
  ((lo <=? code c) && (code c <=? hi))%N.

(** [str.isspace] on one character; also the class [\s] of [re] on [str]
    patterns.  TAB..CR, FS..US, SPACE, NEL, NBSP. *)
Definition is_space (c : ascii) : bool :=
  in_range 9 13 c || in_range 28 32 c || (code c =? 133)%N || (code c =? 160)%N.

(** [str.isalnum] on one character: digits, letters, and in the upper half
    the letters and numeric characters of Latin-1. *)
Definition is_alnum (c : ascii) : bool :=
  in_range 48 57 c || in_range 65 90 c || in_range 97 122 c
  || (code c =? 170)%N || in_range 178 179 c || (code c =? 181)%N
  || in_range 185 186 c || in_range 188 190 c
  || in_range 192 214 c || in_range 216 246 c || in_range 248 255 c.

(** The class [\w] of [re] on [str] patterns: alphanumerics and the underscore. *)
Definition is_word (c : ascii) : bool := is_alnum c || (code c =? 95)%N.

(** [str.lower] on one character: A..Z and the upper-case letters of
    Latin-1 (all of U+00C0..U+00DE but the multiplication sign). *)
Definition lower_char (c : ascii) : ascii :=
  if in_range 65 90 c || in_range 192 214 c || in_range 216 222 c
  then ascii_of_N (code c + 32) else c.

Fixpoint smap (f : ascii → ascii) (s : string) : string :=
  match s with
  | "" => ""
  | String c s' => String (f c) (smap f s')
  end.

Fixpoint sfilter (p : ascii → bool) (s : string) : string :=
  match s with
  | "" => ""
  | String c s' => if p c then String c (sfilter p s') else sfilter p s'
  end.

(** [s.lower()].  On the code points up to U+00FF the lower-case form of a
    character is one character of the same range, so the string is mapped
    character by character and keeps its length; beyond that range
    [str.lower] is no such map (U+0130 becomes two characters). *)
Definition lower (s : string) : string := smap lower_char s.

(** [len(s)] *)
Definition len (s : string) : nat := String.length s.

(** [s[:n]] for [n >= 0] *)
Fixpoint slice_to (n : nat) (s : string) : string :=
  match n, s with
  | S n', String c s' => String c (slice_to n' s')
  | _, _ => ""
  end.

Fixpoint skip (n : nat) (s : string) : string :=
  match n, s with
  | S n', String _ s' => skip n' s'
  | _, _ => s
  end.

(** [s.startswith(p)] *)
Fixpoint startswith (s p : string) {struct p} : bool :=
  match p, s with
  | "", _ => true
  | String a p', String b s' => if decide (a = b) then startswith s' p' else false
  | String _ _, "" => false
  end.

(** [sub in s] *)
Fixpoint contains (sub s : string) : bool :=
  startswith s sub ||
  match s with
  | "" => false
  | String _ s' => contains sub s'
  end.

(** [s.lstrip()], [s.rstrip()], [s.strip()]: white space off both ends. *)
Fixpoint lstrip (s : string) : string :=
  match s with
  | "" => ""
  | String c s' => if is_space c then lstrip s' else s
  end.

Fixpoint rstrip (s : string) : string :=
  match s with
  | "" => ""
  | String c s' =>
      match rstrip s' with
      | "" => if is_space c then "" else String c ""
      | r => String c r
      end
  end.

Definition strip (s : string) : string := rstrip (lstrip s).

(** [s.replace(old, new)]: every non-overlapping occurrence of [old],
    scanning from the left.  [pending] counts the characters of an
    occurrence already replaced that are still to be passed over. *)
Fixpoint replace_from (old new : string) (pending : nat) (s : string) : string :=
  match s with
  | "" => ""
  | String c s' =>
      match pending with
      | S k => replace_from old new k s'
      | O =>
          if startswith s old
          then new +:+ replace_from old new (len old - 1) s'
          else String c (replace_from old new 0 s')
      end
  end.

Fixpoint intersperse (new : string) (s : string) : string :=
  match s with
  | "" => ""
  | String c s' => String c (new +:+ intersperse new s')
  end.

Definition replace (old new s : string) : string :=
  match old with
  | "" => new +:+ intersperse new s
  | _ => replace_from old new 0 s
  end.

(** [re.sub(cls, repl, s)] for a pattern that is one character class:
    every character of the class is a match and is replaced by [repl]. *)
Fixpoint re_sub_class (cls : ascii → bool) (repl : string) (s : string) : string :=
  match s with
  | "" => ""
  | String c s' =>
      if cls c then repl +:+ re_sub_class cls repl s'
      else String c (re_sub_class cls repl s')
  end.

(** The class [[^\w\s]]. *)
Definition not_word_not_space (c : ascii) : bool := negb (is_word c || is_space c).

(** [bool(s)]: a string is true when it is not empty. *)
Definition truthy (s : string) : bool :=
  match s with "" => false | _ => true end.

(** [str(n)] for an integer. *)
Definition of_int (n : Z) : string := NilEmpty.string_of_int (Z.to_int n).

(** Maximal runs of characters that are not white space ([\S+]). *)
Fixpoint fields_go (cur : string) (s : string) : list string :=
  match s with
  | "" => if truthy cur then [cur] else []
  | String c s' =>
      if is_space c
      then (if truthy cur then [cur] else []) ++ fields_go "" s'
      else fields_go (cur +:+ String c "") s'
  end.

Definition fields (s : string) : list string := fields_go "" s.

End PyStr.

(** ** Paths ([posixpath])

    A path is the string the program hands to the operating system. *)

Module PyPath.

(** [p[:i], p[i:]] for [i = p.rfind('/') + 1]: the path up to and with its
    last slash, and what follows that slash. *)
Fixpoint cut (p : string) : string * string :=
  match p with
  | "" => ("", "")
  | String c p' =>
      let '(head, tail) := cut p' in
      if PyStr.truthy head then (String c head, tail)
      else if decide (c = "/"%char) then ("/", tail)
      else ("", String c tail)
  end.

(** [s == '/' * len(s)] *)
Fixpoint only_slashes (s : string) : bool :=
  match s with
  | "" => true
  | String c s' => bool_decide (c = "/"%char) && only_slashes s'
  end.

(** [s.rstrip('/')] *)
Fixpoint rstrip_slashes (s : string) : string :=
  match s with
  | "" => ""
  | String c s' =>
      match rstrip_slashes s' with
      | "" => if decide (c = "/"%char) then "" else String c ""
      | r => String c r
      end
  end.

(** [os.path.split(p)]: the head loses its trailing slashes unless it is
    made of slashes only. *)
Definition split (p : string) : string * string :=
  let '(head, tail) := cut p in
  (if PyStr.truthy head && negb (only_slashes head) then rstrip_slashes head else head,
   tail).

End PyPath.


(** ** Python dictionaries with string keys

    A [dict] keeps its keys in insertion order; assigning to a key that is
    present replaces the value in place. *)

Module PyDict.

Definition dict (V : Type) : Type := list (string * V).

(** [d.get(k)] *)
Fixpoint getitem {V} (d : dict V) (k : string) : option V :=
  match d with
  | [] => None
  | (k', v) :: d' => if decide (k' = k) then Some v else getitem d' k
  end.

(** [d[k] = v] *)
Fixpoint setitem {V} (d : dict V) (k : string) (v : V) : dict V :=
  match d with
  | [] => [(k, v)]
  | (k', v') :: d' =>
      if decide (k' = k) then (k', v) :: d' else (k', v') :: setitem d' k v
  end.

Definition keys {V} (d : dict V) : list string := d.*1.

End PyDict.

(** ** The parsed document (BeautifulSoup with html.parser)

    A document is the list of its top-level nodes.  A node is a run of
    text or a tag with its attribute dictionary and its contents.  An
    attribute without a value has the empty string as its value. *)

Module Soup.

Definition attrs : Type := PyDict.dict string.

#[warnings="-register-all"]
Inductive node : Type :=
| Text (s : string)
| Elem (name : string) (a : attrs) (contents : list node).

(** A tag seen from below: its name and attributes. *)
Definition frame : Type := string * attrs.

(** [tag.get(k)] and [tag.get(k, default)] *)
Definition get (a : attrs) (k : string) : option string := PyDict.getitem a k.
Definition get_default (a : attrs) (k : string) (dflt : string) : string :=
  default dflt (get a k).

(** The [class] attribute is a list of names, split at white space. *)
Definition classes (a : attrs) : list string :=
  match get a "class" with
  | Some v => PyStr.fields v
  | None => []
  end.

(** [tag.text]: the text runs below the tag, in document order. *)
Fixpoint text (n : node) : string :=
  match n with
  | Text s => s
  | Elem _ _ contents => foldr (λ c acc, text c +:+ acc) "" contents
  end.

(** *** Selectors *)

Inductive simple : Type :=
| ByName (n : string)      (* [p] *)
| ById (i : string)        (* [#firstHeading] *)
| ByClass (c : string).    (* [.infobox] *)

Inductive selector : Type :=
| Simple (s : simple)                       (* [s] *)
| Descendant (a : selector) (s : simple)    (* [a s] *)
| Child (p : selector) (s : simple).        (* [p > s] *)

Definition matches_simple (s : simple) (f : frame) : bool :=
  match s with
  | ByName n => bool_decide (f.1 = n)
  | ById i => bool_decide (get f.2 "id" = Some i)
  | ByClass c => bool_decide (c ∈ classes f.2)
  end.

(** [anc] lists the ancestors of the tag, the parent first. *)
Fixpoint matches (sel : selector) (anc : list frame) (f : frame) : bool :=
  match sel with
  | Simple s => matches_simple s f
  | Child p s =>
      matches_simple s f &&
      match anc with
      | parent :: anc' => matches p anc' parent
      | [] => false
      end
  | Descendant a s =>
      matches_simple s f &&
      (fix above (l : list frame) : bool :=
         match l with
         | [] => false
         | g :: l' => matches a l' g || above l'
         end) anc
  end.

Definition matches_any (sels : list selector) (anc : list frame) (f : frame) : bool :=
  existsb (λ sel, matches sel anc f) sels.

(** The tags at and below a node in document order, each with its ancestors. *)
Fixpoint walk (anc : list frame) (n : node) : list (list frame * node) :=
  match n with
  | Text _ => []
  | Elem name a contents => (anc, n) :: flat_map (walk ((name, a) :: anc)) contents
  end.

Definition selected (sels : list selector) (x : list frame * node) : bool :=
  match x.2 with
  | Elem name a _ => matches_any sels x.1 (name, a)
  | Text _ => false
  end.

(** [soup.select(sels)] on the document. *)
Definition select (sels : list selector) (doc : list node) : list node :=
  (filter (λ x, selected sels x = true) (flat_map (walk []) doc)).*2.

(** [soup.select_one(sels)] *)
Definition select_one (sels : list selector) (doc : list node) : option node :=
  head (select sels doc).

(** [tag.select(sels)] and [tag.select_one(sels)]: the matches strictly
    below the tag.  The scraper only scopes simple selectors to a tag, so
    the ancestors above the tag play no part. *)
Definition select_in (sels : list selector) (el : node) : list node :=
  match el with
  | Elem name a contents =>
      (filter (λ x, selected sels x = true) (flat_map (walk [(name, a)]) contents)).*2
  | Text _ => []
  end.

Definition select_one_in (sels : list selector) (el : node) : option node :=
  head (select_in sels el).

(** [tag.find(name)]: the first tag of that name below the tag. *)
Definition find (name : string) (el : node) : option node :=
  select_one_in [Simple (ByName name)] el.

(** [for x in tag.select(s): x.decompose()] for a simple selector: the tag
    without the matches below it. *)
Fixpoint without (s : simple) (n : node) : node :=
  match n with
  | Text t => Text t
  | Elem name a contents =>
      Elem name a
        (flat_map (λ c,
           match c with
           | Elem cn ca _ => if matches_simple s (cn, ca) then [] else [without s c]
           | Text _ => [c]
           end) contents)
  end.

(** The document after the same removal inside every tag that [sels]
    selects and whose name is one of [names]. *)
Fixpoint without_inside (sels : list selector) (names : list string) (s : simple)
    (anc : list frame) (n : node) : node :=
  match n with
  | Text t => Text t
  | Elem name a contents =>
      if matches_any sels anc (name, a) && bool_decide (name ∈ names)
      then without s n
      else Elem name a (map (without_inside sels names s ((name, a) :: anc)) contents)
  end.

End Soup.

(** ** The scraper *)

Module Scraper.

Import PyDict.

(** *** Records *)

Record link : Type := { link_text : string; link_url : string }.

Record image : Type := { img_src : string; img_alt : string }.

(** The dictionary [article_data] built by [get_article_content]. *)
Record article_data : Type := {
  title : string;
  url : string;
  summary : string;
  infobox : dict string;
  sections : dict string;
  references : list string;
  links : list link;
  images : list image
}.

(** [article_data] once [scrape_keywords] has set its ['keyword'] entry. *)
Record result_item : Type := { keyword : string; article : article_data }.

(** What [requests] hands back: the final address, the status and the
    body, the latter as the tree the HTML parser builds from it. *)
Record response : Type := {
  resp_url : string;
  status_code : Z;
  resp_soup : list Soup.node
}.

Inductive exn : Type :=
| AttributeError       (* attribute access on [None] *)
| KeyError             (* a dictionary read at a missing key *)
| RequestException     (* the request itself failed *)
| FileNotFoundError    (* [os.mkdir] of the empty path *)
| FileExistsError.     (* [os.mkdir] of a path that exists *)

#[global] Instance exn_eq_dec : EqDecision exn.
Proof. solve_decision. Defined.

Inductive outcome (A : Type) : Type :=
| Ok (a : A)
| Raise (e : exn).
Arguments Ok {A} a.
Arguments Raise {A} e.

(** *** Selectors of the scraper *)

Definition sel_first_heading : list Soup.selector :=
  [Soup.Simple (Soup.ById "firstHeading")].

Definition sel_content_paragraphs : list Soup.selector :=
  [Soup.Descendant (Soup.Simple (Soup.ById "mw-content-text")) (Soup.ByName "p")].

Definition sel_infobox : list Soup.selector :=
  [Soup.Simple (Soup.ByClass "infobox")].

Definition content_div : Soup.selector :=
  Soup.Child (Soup.Simple (Soup.ById "mw-content-text")) (Soup.ByName "div").

Definition sel_section_elements : list Soup.selector :=
  [Soup.Child content_div (Soup.ByName "h2");
   Soup.Child content_div (Soup.ByName "h3");
   Soup.Child content_div (Soup.ByName "p")].

Definition sel_reference_text : list Soup.selector :=
  [Soup.Simple (Soup.ByClass "reference-text")].

Definition sel_content_links : list Soup.selector :=
  [Soup.Descendant (Soup.Simple (Soup.ById "mw-content-text")) (Soup.ByName "a")].

Definition sel_images : list Soup.selector :=
  [Soup.Descendant (Soup.Simple (Soup.ByClass "image")) (Soup.ByName "img")].

Definition sel_search_results : list Soup.selector :=
  [Soup.Descendant (Soup.Simple (Soup.ByClass "mw-search-result-heading")) (Soup.ByName "a")].

Definition editsection : Soup.simple := Soup.ByClass "mw-editsection".

(** *** get_article_content: the fields (lines 76-140) *)

(** [x.text.strip()] *)
Definition stripped_text (n : Soup.node) : string := PyStr.strip (Soup.text n).

(** Line 77.  [select_one] yields [None] when nothing matches, and [.text]
    on [None] raises. *)
Definition extract_title (soup : list Soup.node) : outcome string :=
  match Soup.select_one sel_first_heading soup with
  | Some h => Ok (stripped_text h)
  | None => Raise AttributeError
  end.

(** Line 84: [p.text.strip() and not p.find('img')].  A tag is always true. *)
Definition summary_candidate (p : Soup.node) : bool :=
  PyStr.truthy (stripped_text p) && negb (bool_decide (is_Some (Soup.find "img" p))).

(** Lines 81-86: the loop with its [break]. *)
Fixpoint summary_loop (paragraphs : list Soup.node) : string :=
  match paragraphs with
  | [] => ""
  | p :: rest => if summary_candidate p then stripped_text p else summary_loop rest
  end.

Definition extract_summary (soup : list Soup.node) : string :=
  summary_loop (Soup.select sel_content_paragraphs soup).

(** Lines 94-96: the first header cell and the first data cell of a row. *)
Definition row_cells (row : Soup.node) : option (Soup.node * Soup.node) :=
  match Soup.select_one_in [Soup.Simple (Soup.ByName "th")] row,
        Soup.select_one_in [Soup.Simple (Soup.ByName "td")] row with
  | Some header, Some data => Some (header, data)
  | _, _ => None
  end.

(** Lines 93-99. *)
Fixpoint infobox_loop (rows : list Soup.node) (infobox_data : dict string) : dict string :=
  match rows with
  | [] => infobox_data
  | row :: rest =>
      match row_cells row with
      | Some (header, data) =>
          infobox_loop rest (setitem infobox_data (stripped_text header) (stripped_text data))
      | None => infobox_loop rest infobox_data
      end
  end.

(** Lines 89-99. *)
Definition extract_infobox (soup : list Soup.node) : dict string :=
  match Soup.select_one sel_infobox soup with
  | Some infobox => infobox_loop (Soup.select_in [Soup.Simple (Soup.ByName "tr")] infobox) []
  | None => []
  end.

(** Line 106: [element.name in ['h2', 'h3']] *)
Definition is_heading (element : Soup.node) : bool :=
  match element with
  | Soup.Elem name _ _ => bool_decide (name ∈ ["h2"; "h3"])
  | Soup.Text _ => false
  end.

Definition is_paragraph (element : Soup.node) : bool :=
  match element with
  | Soup.Elem name _ _ => bool_decide (name = "p")
  | Soup.Text _ => false
  end.

(** Lines 108-110: the heading's text once its edit markers are gone. *)
Definition heading_text (element : Soup.node) : string :=
  stripped_text (Soup.without editsection element).

(** [bool(current_section)]: [None] and the empty string are false. *)
Definition section_open (current_section : option string) : bool :=
  match current_section with
  | Some name => PyStr.truthy name
  | None => false
  end.

(** Lines 105-113.  [sections[k] += x] reads [sections[k]] first, which
    raises when the key is missing. *)
Fixpoint sections_loop (elements : list Soup.node) (sections : dict string)
    (current_section : option string) : outcome (dict string) :=
  match elements with
  | [] => Ok sections
  | element :: rest =>
      if is_heading element then
        let name := heading_text element in
        sections_loop rest (setitem sections name "") (Some name)
      else if is_paragraph element && section_open current_section then
        match current_section with
        | Some name =>
            match getitem sections name with
            | Some v =>
                sections_loop rest
                  (setitem sections name (v +:+ (stripped_text element +:+ " ")))
                  current_section
            | None => Raise KeyError
            end
        | None => sections_loop rest sections current_section
        end
      else sections_loop rest sections current_section
  end.

(** Lines 102-113.  The selector lists the elements once, before the loop.
    In a document whose ids are unique the listed elements are the
    children of the children of one tag: none of them lies inside another,
    so the removal of one heading's edit markers leaves the others as
    listed, and the loop meets them as [select] gives them.  Only where the
    id mw-content-text occurs again inside an edit marker can a listed
    element lie in a marker that goes; the parser library then leaves it
    without a name and the loop passes over it.  [sections_loop] is the loop
    on the elements it does meet. *)
Definition extract_sections (soup : list Soup.node) : outcome (dict string) :=
  sections_loop (Soup.select sel_section_elements soup) [] None.

(** The document as the section loop leaves it: the headings it visited
    have lost their edit markers. *)
Definition after_sections (soup : list Soup.node) : list Soup.node :=
  map (Soup.without_inside sel_section_elements ["h2"; "h3"] editsection []) soup.

(** Lines 116-119. *)
Definition extract_references (soup : list Soup.node) : list string :=
  map stripped_text (Soup.select sel_reference_text soup).

Definition node_attrs (n : Soup.node) : Soup.attrs :=
  match n with
  | Soup.Elem _ a _ => a
  | Soup.Text _ => []
  end.

(** Lines 124-129. *)
Definition link_of (a : Soup.node) : option link :=
  let href := Soup.get_default (node_attrs a) "href" "" in
  if PyStr.startswith href "/wiki/" && negb (PyStr.contains ":" href)
  then Some {| link_text := stripped_text a; link_url := "https://en.wikipedia.org" +:+ href |}
  else None.

(** Lines 122-129. *)
Definition extract_links (soup : list Soup.node) : list link :=
  omap link_of (Soup.select sel_content_links soup).

(** Lines 134-136. *)
Definition normalize_src (src : string) : string :=
  if negb (PyStr.startswith src "http") then "https:" +:+ src else src.

(** Lines 134-140. *)
Definition image_of (img : Soup.node) : image :=
  {| img_src := normalize_src (Soup.get_default (node_attrs img) "src" "");
     img_alt := Soup.get_default (node_attrs img) "alt" "" |}.

(** Lines 132-140. *)
Definition extract_images (soup : list Soup.node) : list image :=
  map image_of (Soup.select sel_images soup).

(** Lines 74-153: everything after the status check. *)
Definition extract_article (address : string) (soup : list Soup.node) : outcome article_data :=
  match extract_title soup with
  | Raise e => Raise e
  | Ok the_title =>
      let the_summary := extract_summary soup in
      let infobox_data := extract_infobox soup in
      match extract_sections soup with
      | Raise e => Raise e
      | Ok the_sections =>
          let soup' := after_sections soup in
          Ok {| title := the_title;
                url := address;
                summary := the_summary;
                infobox := infobox_data;
                sections := the_sections;
                references := extract_references soup';
                links := extract_links soup';
                images := extract_images soup' |}
      end
  end.

(** *** scrape_keywords: names and summary rows (lines 173, 189-194) *)

(** Line 173: [re.sub(r'[^\w\s]', '', keyword).replace(' ', '_').lower()] *)
Definition safe_filename (keyword : string) : string :=
  PyStr.lower (PyStr.replace " " "_" (PyStr.re_sub_class PyStr.not_word_not_space "" keyword)).

(** Line 175 *)
Definition json_path (output_dir keyword : string) : string :=
  output_dir +:+ "/" +:+ safe_filename keyword +:+ ".json".

(** Line 198 *)
Definition csv_path (output_dir timestamp : string) : string :=
  output_dir +:+ "/wikipedia_summary_" +:+ timestamp +:+ ".csv".

(** Line 193: the conditional expression binds weaker than [+]. *)
Definition truncated_summary (s : string) : string :=
  if decide (200 < PyStr.len s) then PyStr.slice_to 200 s +:+ "..." else s.

Record summary_row : Type := {
  row_keyword : string;
  row_title : string;
  row_url : string;
  row_summary : string
}.

(** Lines 189-194 *)
Definition summary_row_of (item : result_item) : summary_row :=
  {| row_keyword := keyword item;
     row_title := title (article item);
     row_url := url (article item);
     row_summary := truncated_summary (summary (article item)) |}.

(** Lines 187-194 *)
Definition summary_data (results : list result_item) : list summary_row :=
  map summary_row_of results.

(** *** Files *)

(** A file as the table or the records it holds. *)
Inductive file : Type :=
| JsonLines (records : list result_item)
| Csv (header : list string) (rows : list (list string)).

Definition summary_columns : list string := ["keyword"; "title"; "url"; "summary"].

Definition cells (r : summary_row) : list string :=
  [row_keyword r; row_title r; row_url r; row_summary r].

(** [DataFrame(rows).to_csv(path, index=...)]: a header row of column
    names, then the rows; with the index, a first column that numbers them. *)
Definition to_csv (rows : list summary_row) (index : bool) : file :=
  if index
  then Csv ("" :: summary_columns)
           (imap (λ i r, PyStr.of_int (Z.of_nat i) :: cells r) rows)
  else Csv summary_columns (map cells rows).

(** [DataFrame([item]).to_json(path, orient='records', lines=True)] *)
Definition to_json (item : result_item) : file := JsonLines [item].

(** *** The world, the state and the monad *)

Inductive level : Type := INFO | WARNING | ERROR.

Inductive event : Type :=
| Log (l : level) (msg : string)
| Request (address : string)
| MakeDirs (path : string)
| WriteFile (path : string) (f : file)
| Sleep (seconds : nat).

(** What lies outside the program: the site and the clock. *)
Class Env : Type := {
  World : Type;
  (** [session.get(address)] *)
  http_get : string → World → outcome response * World;
  (** [datetime.now().strftime("%Y%m%d_%H%M%S")] *)
  now : World → string;
  (** [time.sleep(seconds)] *)
  pass : nat → World → World
}.

Section WithEnv.
Context `{Env}.

(** [files] holds what the scraper saves, by path; [dirs] the paths that
    are directories; [log_file] the records appended so far to the file
    wikipedia_scraper.log that the handler of line 15 opens when the module
    is loaded, each without its time stamp and logger name; [trace] what the
    program has done, in order. *)
Record state : Type := {
  world : World;
  files : gmap string file;
  dirs : gset string;
  log_file : list (level * string);
  trace : list event
}.

Definition M (A : Type) : Type := state → outcome A * state.

#[global] Instance M_ret : MRet M := λ A a s, (Ok a, s).

#[global] Instance M_bind : MBind M := λ A B f m s,
  match m s with
  | (Ok a, s') => f a s'
  | (Raise e, s') => (Raise e, s')
  end.

Definition emit (e : event) (s : state) : state :=
  {| world := world s; files := files s; dirs := dirs s; log_file := log_file s;
     trace := trace s ++ [e] |}.

(** [logger.info(msg)], [logger.warning(msg)], [logger.error(msg)]: the
    record goes to both handlers of lines 14-17, so it is appended to the
    log file and shown on the console; the event stands for the call. *)
Definition log (l : level) (msg : string) : M unit :=
  λ s, (Ok (), emit (Log l msg)
                {| world := world s; files := files s; dirs := dirs s;
                   log_file := log_file s ++ [(l, msg)]; trace := trace s |}).

Definition session_get (address : string) : M response :=
  λ s, let '(r, w) := http_get address (world s) in
       (r, emit (Request address)
             {| world := w; files := files s; dirs := dirs s; log_file := log_file s;
                trace := trace s |}).

Definition lift {A} (r : outcome A) : M A := λ s, (r, s).

(** Line 15 *)
Definition log_path : string := "wikipedia_scraper.log".

(** The first lines of [os.makedirs(name)]:
    [head, tail = path.split(name)], and once more on the head when the
    path ends in a slash. *)
Definition head_tail (name : string) : string * string :=
  let '(head, tail) := PyPath.split name in
  if PyStr.truthy tail then (head, tail) else PyPath.split head.

(** Something is at the path: a directory, a saved file or the log file.
    Nothing is at the empty path. *)
Definition exists_at (path : string) (s : state) : bool :=
  bool_decide (path ≠ ""
               ∧ (path ∈ dirs s ∨ is_Some (files s !! path) ∨ path = log_path)).

(** [os.path.exists(path)] *)
Definition path_exists (path : string) : M bool :=
  λ s, (Ok (exists_at path s), s).

(** [os.mkdir(path)]: the empty path cannot be made, nor can what exists
    be made again.  What lies above the path is not looked at:
    [os.makedirs] has seen to it, and a file standing in the way is not
    told apart from a directory. *)
Definition mkdir (path : string) : M unit :=
  λ s, if decide (path = "") then (Raise FileNotFoundError, s)
       else if exists_at path s then (Raise FileExistsError, s)
       else (Ok (), {| world := world s; files := files s;
                       dirs := {[path]} ∪ dirs s; log_file := log_file s;
                       trace := trace s |}).

(** [try: m except e: pass] *)
Definition except_pass (e : exn) (m : M unit) : M unit :=
  λ s, match m s with
       | (Raise e', s') => if decide (e' = e) then (Ok (), s') else (Raise e', s')
       | r => r
       end.

(** The body of [os.makedirs(name)]: when the path has a head and a last
    part and nothing is at the head, the head is made first, by the same
    steps; then the path itself is made, unless its last part is the dot.
    The head is shorter than the path, so [fuel] need not exceed the length
    of [name]. *)
Fixpoint makedirs_from (fuel : nat) (name : string) : M unit :=
  let '(head, tail) := head_tail name in
  match fuel with
  | S fuel' =>
      if PyStr.truthy head && PyStr.truthy tail then
        present ← path_exists head;
        if negb present then
          except_pass FileExistsError (makedirs_from fuel' head);;
          if decide (tail = ".") then mret () else mkdir name
        else mkdir name
      else mkdir name
  | O => mkdir name
  end.

(** [os.makedirs(path)] *)
Definition makedirs (path : string) : M unit :=
  λ s, makedirs_from (PyStr.len path) path (emit (MakeDirs path) s).

(** Writing a file creates it or replaces what the path held. *)
Definition write_file (path : string) (f : file) : M unit :=
  λ s, (Ok (), emit (WriteFile path f)
                {| world := world s; files := <[path := f]> (files s);
                   dirs := dirs s; log_file := log_file s; trace := trace s |}).

Definition sleep (seconds : nat) : M unit :=
  λ s, (Ok (), emit (Sleep seconds)
                {| world := pass seconds (world s); files := files s;
                   dirs := dirs s; log_file := log_file s; trace := trace s |}).

Definition timestamp : M string := λ s, (Ok (now (world s)), s).

(** *** search_wikipedia (lines 34-61) *)

Definition search_url : string := "https://en.wikipedia.org/w/index.php?search=".

(** [f"{x}"] for a value that may be [None]. *)
Definition format_opt (x : option string) : string := default "None" x.

Definition search_wikipedia (keyword : string) : M (option string) :=
  log INFO ("Searching for: " +:+ keyword);;
  let search_term := PyStr.replace " " "+" keyword in
  search_response ← session_get (search_url +:+ search_term);
  if PyStr.contains "/wiki/" (resp_url search_response)
     && negb (PyStr.contains "index.php?search=" (resp_url search_response))
  then
    log INFO ("Direct match found: " +:+ resp_url search_response);;
    mret (Some (resp_url search_response))
  else
    match Soup.select sel_search_results (resp_soup search_response) with
    | first :: _ =>
        let first_result := Soup.get (node_attrs first) "href" in
        let full_url := "https://en.wikipedia.org" +:+ format_opt first_result in
        log INFO ("Best match found: " +:+ full_url);;
        mret (Some full_url)
    | [] =>
        log WARNING ("No results found for: " +:+ keyword);;
        mret None
    end.

(** *** get_article_content (lines 63-153) *)

Definition get_article_content (address : string) : M (option article_data) :=
  log INFO ("Fetching content from: " +:+ address);;
  response ← session_get address;
  if decide (status_code response ≠ 200%Z) then
    log ERROR ("Failed to retrieve article: " +:+ PyStr.of_int (status_code response));;
    mret None
  else
    article ← lift (extract_article address (resp_soup response));
    mret (Some article).

(** *** scrape_keywords (lines 155-201) *)

(** Lines 166-179: one keyword, once its address is known. *)
Definition scrape_one (output_dir keyword : string) (address : option string)
    (results : list result_item) : M (list result_item) :=
  match address with
  | Some u =>
      if PyStr.truthy u then
        article ← get_article_content u;
        match article with
        | Some a =>
            let item := {| keyword := keyword; article := a |} in
            write_file (json_path output_dir keyword) (to_json item);;
            log INFO ("Saved data for '" +:+ keyword +:+ "' to "
                      +:+ safe_filename keyword +:+ ".json");;
            mret (results ++ [item])
        | None => mret results
        end
      else mret results
  | None => mret results
  end.

(** Lines 164-183: the loop over the keywords. *)
Fixpoint scrape_loop (output_dir : string) (keywords : list string)
    (results : list result_item) : M (list result_item) :=
  match keywords with
  | [] => mret results
  | keyword :: rest =>
      address ← search_wikipedia keyword;
      results' ← scrape_one output_dir keyword address results;
      sleep 1;;
      scrape_loop output_dir rest results'
  end.

(** Lines 185-199. *)
Definition write_summary (output_dir : string) (results : list result_item) : M unit :=
  match results with
  | [] => mret ()
  | _ :: _ =>
      stamp ← timestamp;
      write_file (csv_path output_dir stamp) (to_csv (summary_data results) false);;
      log INFO ("Saved summary to wikipedia_summary_" +:+ stamp +:+ ".csv")
  end.

(** Lines 159-160. *)
Definition ensure_dir (output_dir : string) : M unit :=
  present ← path_exists output_dir;
  if negb present then makedirs output_dir else mret ().

Definition scrape_keywords (keywords : list string) (output_dir : string)
    : M (list result_item) :=
  ensure_dir output_dir;;
  results ← scrape_loop output_dir keywords [];
  write_summary output_dir results;;
  mret results.

(** *** main (lines 203-213)

    The arguments as the parser hands them over: the keywords and the
    output directory.  The result is the line the program prints. *)
Definition main (keywords : list string) (output : string) : M string :=
  results ← scrape_keywords keywords output;
  mret ("Scraped " +:+ PyStr.of_int (Z.of_nat (length results))
        +:+ " articles successfully!").

End WithEnv.

End Scraper.

(** ** Notions the properties are stated with *)

Module Spec.

Import PyDict Scraper.

(** [sep.join(parts)] *)
Fixpoint join (sep : string) (parts : list string) : string :=
  match parts with
  | [] => ""
  | [x] => x
  | x :: rest => x +:+ sep +:+ join sep rest
  end.

(** The text one paragraph adds to its section (line 113). *)
Definition chunk (p : Soup.node) : string := stripped_text p +:+ " ".

Fixpoint concat_all (parts : list string) : string :=
  match parts with
  | [] => ""
  | x :: rest => x +:+ concat_all rest
  end.

(** The section mapping as the specification words it: a key for every
    heading met, and under a heading's text the texts of the paragraphs up
    to the next heading, joined by single spaces. *)
Definition one_key_per_heading (elements : list Soup.node) (d : dict string) : Prop :=
  length (keys d) = length (filter (λ e, is_heading e = true) elements).

Definition values_space_joined (elements : list Soup.node) (d : dict string) : Prop :=
  ∀ before h paragraphs after,
    elements = before ++ h :: paragraphs ++ after →
    is_heading h = true →
    Forall (λ e, is_paragraph e = true) paragraphs →
    (after = [] ∨ ∃ h' after', after = h' :: after' ∧ is_heading h' = true) →
    getitem d (heading_text h) = Some (join " " (map stripped_text paragraphs)).

Definition sections_as_specified (elements : list Soup.node) (d : dict string) : Prop :=
  one_key_per_heading elements d ∧ values_space_joined elements d.

(** The name under which paragraphs are being collected is a key. *)
Definition open_key_present (d : dict string) (current : option string) : Prop :=
  ∀ k, current = Some k → is_Some (getitem d k).

(** The entry a row of the infobox contributes, if any. *)
Definition row_entry (row : Soup.node) : option (string * string) :=
  match row_cells row with
  | Some (header, data) => Some (stripped_text header, stripped_text data)
  | None => None
  end.

(** The value of the last row that contributes an entry for [k]. *)
Fixpoint last_entry (rows : list Soup.node) (k : string) : option string :=
  match rows with
  | [] => None
  | row :: rest =>
      match last_entry rest k with
      | Some v => Some v
      | None =>
          match row_entry row with
          | Some (k', v) => if decide (k' = k) then Some v else None
          | None => None
          end
      end
  end.

(** The node is a tag of the given name. *)
Definition named (name : string) (n : Soup.node) : bool :=
  match n with
  | Soup.Elem cn _ _ => bool_decide (cn = name)
  | Soup.Text _ => false
  end.

(** A tag of the given name lies somewhere below the node. *)
Fixpoint contains_tag (name : string) (n : Soup.node) : bool :=
  match n with
  | Soup.Text _ => false
  | Soup.Elem _ _ contents => existsb (λ c, named name c || contains_tag name c) contents
  end.

(** An address is absolute when it starts with a scheme: a letter, then
    letters, digits, [+], [-] or [.], then a colon. *)
Definition is_letter (c : ascii) : bool :=
  PyStr.in_range 65 90 c || PyStr.in_range 97 122 c.

Definition is_scheme_char (c : ascii) : bool :=
  is_letter c || PyStr.in_range 48 57 c
  || (PyStr.code c =? 43)%N || (PyStr.code c =? 45)%N || (PyStr.code c =? 46)%N.

Fixpoint scheme_rest (s : string) : bool :=
  match s with
  | "" => false
  | String c s' =>
      if (PyStr.code c =? 58)%N then true
      else if is_scheme_char c then scheme_rest s' else false
  end.

Definition is_absolute (s : string) : bool :=
  match s with
  | "" => false
  | String c s' => is_letter c && scheme_rest s'
  end.

(** The summary tables and the record files a trace shows being written. *)
Definition csv_write (e : event) : option (string * file) :=
  match e with
  | WriteFile path (Csv header rows) => Some (path, Csv header rows)
  | _ => None
  end.

Definition record_write (e : event) : option (string * list result_item) :=
  match e with
  | WriteFile path (JsonLines records) => Some (path, records)
  | _ => None
  end.

Definition csv_writes (tr : list event) : list (string * file) := omap csv_write tr.

Definition record_writes (tr : list event) : list (string * list result_item) :=
  omap record_write tr.

(** Between two states nothing was saved and no directory made. *)
Definition no_file_written `{Env} (s s' : state) : Prop :=
  files s' = files s ∧ dirs s' = dirs s
  ∧ csv_writes (trace s') = csv_writes (trace s)
  ∧ record_writes (trace s') = record_writes (trace s).

(** The record file of one result, and the files after a list of results
    has been saved in order. *)
Definition record_file (output_dir : string) (item : result_item)
    : string * list result_item :=
  (json_path output_dir (keyword item), [item]).

Definition save_all (output_dir : string) (fs : gmap string file)
    (items : list result_item) : gmap string file :=
  foldl (λ fs item, <[json_path output_dir (keyword item) := to_json item]> fs) fs items.

(** The characters of a string, in order. *)
Fixpoint chars (s : string) : list ascii :=
  match s with
  | "" => []
  | String c s' => c :: chars s'
  end.

(** A string without white space at either end. *)
Definition trimmed (s : string) : Prop := PyStr.strip s = s.

(** The names of a list, each kept where it first occurs. *)
Fixpoint first_occurrences (l : list string) : list string :=
  match l with
  | [] => []
  | x :: l' => x :: filter (λ y, y ≠ x) (first_occurrences l')
  end.

(** The requests, the pauses and the directories made that a trace shows. *)
Definition request_of (e : event) : option string :=
  match e with
  | Request address => Some address
  | _ => None
  end.

Definition sleep_of (e : event) : option nat :=
  match e with
  | Sleep seconds => Some seconds
  | _ => None
  end.

Definition makedirs_of (e : event) : option string :=
  match e with
  | MakeDirs path => Some path
  | _ => None
  end.

Definition requests (tr : list event) : list string := omap request_of tr.
Definition sleeps (tr : list event) : list nat := omap sleep_of tr.
Definition made_dirs (tr : list event) : list string := omap makedirs_of tr.

Definition is_log (e : event) : bool :=
  match e with
  | Log _ _ => true
  | _ => false
  end.

(** The address [search_wikipedia] asks for. *)
Definition search_address (keyword : string) : string :=
  search_url +:+ PyStr.smap (λ c, if decide (c = " "%char) then "+"%char else c) keyword.

(** The final address of a search response is that of an article (line 45). *)
Definition direct_match (resp : response) : bool :=
  PyStr.contains "/wiki/" (resp_url resp)
  && negb (PyStr.contains "index.php?search=" (resp_url resp)).

(** An anchor the link loop keeps (line 125). *)
Definition internal_link (a : Soup.node) : bool :=
  let href := Soup.get_default (node_attrs a) "href" "" in
  PyStr.startswith href "/wiki/" && negb (PyStr.contains ":" href).

(** Between two states the program made the requests [asked], in that
    order, and otherwise only wrote to the log: no file, no directory, no
    pause. *)
Definition only_requests `{Env} (s s' : state) (asked : list string) : Prop :=
  no_file_written s s'
  ∧ requests (trace s') = requests (trace s) ++ asked
  ∧ sleeps (trace s') = sleeps (trace s)
  ∧ made_dirs (trace s') = made_dirs (trace s).

(** The requests one keyword causes: the search and, when it yields an
    address, the fetch of that address. *)
Definition requests_for (keyword : string) (address : option string) : list string :=
  search_address keyword :: match address with Some u => [u] | None => [] end.

(** A node that the simple selector does not match. *)
Definition unmarked (s : Soup.simple) (n : Soup.node) : Prop :=
  match n with
  | Soup.Elem name a _ => Soup.matches_simple s (name, a) = false
  | Soup.Text _ => True
  end.

(** A status of the class 2xx. *)
Definition success (status : Z) : bool := (200 <=? status)%Z && (status <? 300)%Z.

(** The title fault as one may expect it: whenever a page arrives with a
    status of the class 2xx and holds no main heading, the extractor raises. *)
Definition title_fault_on_success `{Env} : Prop :=
  ∀ (address : string) (s : state) (resp : response) (w : World),
    http_get address (world s) = (Ok resp, w) →
    success (status_code resp) = true →
    Soup.select_one sel_first_heading (resp_soup resp) = None →
    ∃ s', get_article_content address s = (Raise AttributeError, s').

(** The records that the log calls of a trace append to the log file. *)
Definition log_of (e : event) : option (level * string) :=
  match e with
  | Log l msg => Some (l, msg)
  | _ => None
  end.

Definition log_lines (tr : list event) : list (level * string) := omap log_of tr.

(** Between two states the program went on from where it was, and the log
    file kept what it held and grew by the records of the log calls made,
    in their order. *)
Definition log_appended `{Env} (s s' : state) : Prop :=
  ∃ new, trace s' = trace s ++ new ∧ log_file s' = log_file s ++ log_lines new.

(** No keyword of the list resolves when the keywords are searched one
    after the other from the world [w], a pause of one second after each:
    every search is answered, is not redirected to an article and shows no
    result link. *)
Fixpoint searches_fail `{Env} (keywords : list string) (w : World) : Prop :=
  match keywords with
  | [] => True
  | k :: rest =>
      ∃ resp w', http_get (search_address k) w = (Ok resp, w')
        ∧ direct_match resp = false
        ∧ Soup.select sel_search_results (resp_soup resp) = []
        ∧ searches_fail rest (pass 1 w')
  end.

(** Between two states only directories were made, each on the way to the
    path: a beginning of it, and not the empty path. *)
Definition made_on_the_way `{Env} (name : string) (s s' : state) : Prop :=
  world s' = world s ∧ files s' = files s ∧ log_file s' = log_file s
  ∧ trace s' = trace s
  ∧ dirs s ⊆ dirs s'
  ∧ ∀ d, d ∈ dirs s' → d ∈ dirs s ∨ (d ≠ "" ∧ ∃ rest, name = d +:+ rest).

(** The last character of a string. *)
Fixpoint last_char (s : string) : option ascii :=
  match s with
  | "" => None
  | String c s' => match last_char s' with Some l => Some l | None => Some c end
  end.

End Spec.

(** ** A small site to run the scraper on *)

Module Demo.

Import Soup Scraper.

Definition span_edit : node :=
  Elem "span" [("class", "mw-editsection")] [Text "[edit]"].

Definition h2 (t : string) : node := Elem "h2" [] [Text t; span_edit].
Definition h3 (t : string) : node := Elem "h3" [] [Text (" " +:+ t); span_edit].
Definition para (t : string) : node := Elem "p" [] [Text (t +:+ " ")].

Definition row (h d : string) : node :=
  Elem "tr" [] [Elem "th" [] [Text h]; Elem "td" [] [Text (" " +:+ d)]].

Definition infobox_table : node :=
  Elem "table" [("class", "infobox vcard")]
    [row "Born" "1912"; Elem "tr" [] [Elem "td" [] [Text "caption"]];
     row "Fields" "Logic"; row "Born" "23 June 1912"].

Definition body : list node :=
  [ infobox_table;
    Elem "p" [] [Text "  "];
    Elem "p" [] [Elem "span" [("class", "image")]
                   [Elem "img" [("src", "//upload.example.org/a.png"); ("alt", "A")] []];
                 Text "caption"];
    para "First.";
    h2 "History";
    para "Alpha";
    Elem "p" [] [Text "Beta"; Elem "a" [("href", "/wiki/Beta")] [Text " beta "];
                 Elem "a" [("href", "/wiki/File:B.png")] [Text "file"]];
    h3 "Works";
    para "Gamma";
    Elem "div" [("class", "image")] [Elem "img" [("src", "httpbin-logo.png")] []];
    h2 "History";
    Elem "ol" [] [Elem "li" [] [Elem "span" [("class", "reference-text")] [Text " Ref 1 "]]] ].

Definition page (heading : option string) (content : list node) : list node :=
  [ Elem "html" []
      [ Elem "body" []
          (default [] ((λ h, [Elem "h1" [("id", "firstHeading")] [Text h]]) <$> heading)
           ++ [Elem "div" [("id", "mw-content-text")]
                 [Elem "div" [("class", "mw-parser-output")] content]]) ] ].

Definition wiki : string := "https://en.wikipedia.org/wiki/".

Definition results_page : list node :=
  [ Elem "div" [("class", "mw-search-result-heading")]
      [Elem "a" [("href", "/wiki/Alan_Turing")] [Text "Alan Turing"]] ].

Definition site (address : string) : response :=
  if decide (address = search_url +:+ "AI") then
    {| resp_url := wiki +:+ "AI"; status_code := 200; resp_soup := page (Some "AI") body |}
  else if decide (address = search_url +:+ "A.I.") then
    {| resp_url := wiki +:+ "A.I."; status_code := 200; resp_soup := page (Some "A.I.") [] |}
  else if decide (address = search_url +:+ "Turing+machine+man") then
    {| resp_url := address; status_code := 200; resp_soup := results_page |}
  else if decide (address = search_url +:+ "Gone") then
    {| resp_url := wiki +:+ "Gone"; status_code := 200; resp_soup := [] |}
  else if decide (address = search_url +:+ "Bare") then
    {| resp_url := wiki +:+ "Bare"; status_code := 200; resp_soup := [] |}
  else if decide (address = wiki +:+ "AI") then
    {| resp_url := address; status_code := 200; resp_soup := page (Some " AI ") body |}
  else if decide (address = wiki +:+ "A.I.") then
    {| resp_url := address; status_code := 200; resp_soup := page (Some "A.I.") [para "Film."] |}
  else if decide (address = wiki +:+ "Alan_Turing") then
    {| resp_url := address; status_code := 200; resp_soup := page (Some "Alan Turing") body |}
  else if decide (address = wiki +:+ "Gone") then
    {| resp_url := address; status_code := 404; resp_soup := page (Some "Not found") [] |}
  else if decide (address = wiki +:+ "Bare") then
    {| resp_url := address; status_code := 200; resp_soup := page None body |}
  else if decide (address = search_url +:+ "Made") then
    {| resp_url := wiki +:+ "Made"; status_code := 200; resp_soup := [] |}
  else if decide (address = wiki +:+ "Made") then
    {| resp_url := address; status_code := 201; resp_soup := page None body |}
  else
    {| resp_url := address; status_code := 200; resp_soup := [] |}.

#[local] Instance env : Env := {|
  World := unit;
  http_get := λ address w, (Ok (site address), w);
  now := λ _, "20240101_120000";
  pass := λ _ w, w
|}.

Definition start : state :=
  {| world := (); files := ∅; dirs := ∅; log_file := []; trace := [] |}.

(** Headings and paragraphs as the section loop may meet them. *)
Definition headings_and_paragraphs : list node :=
  [para "Lead"; h2 "History"; para "Alpha"; h2 "Works"; para "Beta"; para "Gamma";
   h3 "History"].

(** A summary of 210 characters and a result that carries it. *)
Definition long_summary : string :=
  PyStr.replace "a" "0123456789" "aaaaaaaaaaaaaaaaaaaaa".

Definition long_item : result_item :=
  {| keyword := "Long";
     article := {| title := "Long"; url := wiki +:+ "Long"; summary := long_summary;
                   infobox := []; sections := []; references := [];
                   links := []; images := [] |} |}.

Definition short_item : result_item :=
  {| keyword := "Short";
     article := {| title := "Short"; url := wiki +:+ "Short"; summary := "Brief.";
                   infobox := []; sections := []; references := [];
                   links := []; images := [] |} |}.

End Demo.

(* ===================================================================== *)
(** * Part II: properties *)
(* ===================================================================== *)

Import PyDict Soup Scraper Spec.

(** ** Strings *)

Lemma app_cons (c : ascii) (s t : string) : String c s +:+ t = String c (s +:+ t).
Proof. reflexivity. Qed.

Lemma app_empty_l (s : string) : "" +:+ s = s.
Proof. reflexivity. Qed.

Lemma app_empty_r (s : string) : s +:+ "" = s.
Proof. induction s as [|c s IH]; [done|]. by rewrite app_cons, IH. Qed.

Lemma app_assoc_str (s t u : string) : (s +:+ t) +:+ u = s +:+ (t +:+ u).
Proof. induction s as [|c s IH]; [done|]. by rewrite !app_cons, IH. Qed.

Lemma len_app (s t : string) : PyStr.len (s +:+ t) = PyStr.len s + PyStr.len t.
Proof. induction s as [|c s IH]; [done|]. rewrite app_cons. simpl. by rewrite IH. Qed.



Lemma startswith_split (s p : string) :
  PyStr.startswith s p = true → ∃ rest, s = p +:+ rest.
Proof.
  revert s. induction p as [|c p IH]; intros s Hs.
  - by exists s.
  - destruct s as [|d s]; [done|]. simpl in Hs.
    destruct (decide (c = d)) as [->|]; [|done].
    destruct (IH _ Hs) as [rest ->]. by exists rest.
Qed.

(** Removing a class with [re.sub] keeps the other characters in order. *)
Lemma re_sub_class_empty (cls : ascii → bool) (s : string) :
  PyStr.re_sub_class cls "" s = PyStr.sfilter (λ c, negb (cls c)) s.
Proof.
  induction s as [|c s IH]; [done|]. simpl.
  destruct (cls c); simpl; [by rewrite app_empty_l | by rewrite IH].
Qed.

(** Replacing one character by one character is a map. *)
Lemma replace_char (a b : ascii) (s : string) :
  PyStr.replace (String a "") (String b "") s
  = PyStr.smap (λ c, if decide (c = a) then b else c) s.
Proof.
  unfold PyStr.replace.
  induction s as [|c s IH]; [done|].
  cbn [PyStr.replace_from PyStr.startswith PyStr.smap].
  destruct (decide (a = c)) as [->|Hne].
  - rewrite decide_True by done. simpl. by rewrite app_cons, app_empty_l, IH.
  - rewrite decide_False by congruence. by rewrite IH.
Qed.

Lemma smap_smap (f g : ascii → ascii) (s : string) :
  PyStr.smap f (PyStr.smap g s) = PyStr.smap (λ c, f (g c)) s.
Proof. induction s as [|c s IH]; [done|]. simpl. by rewrite IH. Qed.

Lemma sfilter_ext (p q : ascii → bool) (s : string) :
  (∀ c, p c = q c) → PyStr.sfilter p s = PyStr.sfilter q s.
Proof. intros E. induction s as [|c s IH]; [done|]. simpl. by rewrite E, IH. Qed.

Lemma slice_to_split (n : nat) (s : string) :
  n ≤ PyStr.len s →
  PyStr.len (PyStr.slice_to n s) = n ∧ s = PyStr.slice_to n s +:+ PyStr.skip n s.
Proof.
  revert s. induction n as [|n IH]; intros s Hn.
  - by destruct s.
  - destruct s as [|c s]; simpl in *; [lia|].
    destruct (IH s) as [H1 H2]; [lia|]. split; [by rewrite H1|].
    by rewrite app_cons, <- H2.
Qed.

(** ** The model at work *)

Example strip_both_ends : PyStr.strip "  About  Python 	" = "About  Python".
Proof. reflexivity. Qed.

Example replace_leftmost_first : PyStr.replace "aa" "X" "aaaaa" = "XXa".
Proof. reflexivity. Qed.

Example spaces_are_not_collapsed : safe_filename "New  York (city)" = "new__york_city".
Proof. reflexivity. Qed.

Example underscore_is_kept : safe_filename "snake_case: a Tale" = "snake_case_a_tale".
Proof. reflexivity. Qed.

Example classes_are_split : classes [("class", " infobox  vcard ")] = ["infobox"; "vcard"].
Proof. reflexivity. Qed.

Example demo_article :
  extract_article "https://en.wikipedia.org/wiki/AI" (Demo.page (Some " AI ") Demo.body)
  = Ok {| title := "AI";
          url := "https://en.wikipedia.org/wiki/AI";
          summary := "First.";
          infobox := [("Born", "23 June 1912"); ("Fields", "Logic")];
          sections := [("History", ""); ("Works", "Gamma ")];
          references := ["Ref 1"];
          links := [{| link_text := "beta"; link_url := "https://en.wikipedia.org/wiki/Beta" |}];
          images := [{| img_src := "https://upload.example.org/a.png"; img_alt := "A" |};
                     {| img_src := "httpbin-logo.png"; img_alt := "" |}] |}.
Proof. vm_compute. reflexivity. Qed.

(** ** C1: the name of the record file *)

(** C1, as the specification gives the example: the record file of the
    keyword "C++ Programming!" is not called cpp_programming.json. *)
Lemma C1_cpp_counterexample :
  safe_filename "C++ Programming!" +:+ ".json" ≠ "cpp_programming.json".
Proof. vm_compute. discriminate. Qed.

(** C1, amended: the derived name is the keyword without the characters
    that are neither word characters (letters, digits, underscore) nor white
    space, with every space turned into one underscore, in lower case; the
    record file of "C++ Programming!" is c_programming.json. *)
Theorem C1_safe_filename :
  (∀ keyword : string,
     safe_filename keyword
     = PyStr.smap (λ c, PyStr.lower_char (if decide (c = " "%char) then "_"%char else c))
         (PyStr.sfilter (λ c, PyStr.is_word c || PyStr.is_space c) keyword))
  ∧ safe_filename "C++ Programming!" = "c_programming"
  ∧ json_path "output" "C++ Programming!" = "output/c_programming.json".
Proof.
  split; [|split; reflexivity].
  intros keyword. unfold safe_filename, PyStr.lower.
  change " " with (String " "%char "") at 1.
  change "_" with (String "_"%char "").
  rewrite replace_char, re_sub_class_empty, smap_smap.
  f_equal. apply sfilter_ext. intros c. unfold PyStr.not_word_not_space.
  by rewrite negb_involutive.
Qed.

(** ** C3: summaries in the run summary table *)

(** C3: the row of every result carries the keyword, title and address; a
    summary longer than 200 characters appears as its first 200
    characters followed by "...", a summary of at most 200 characters
    appears as it is. *)
Theorem C3_summary_truncation (results : list result_item) (i : nat) (item : result_item) :
  results !! i = Some item →
  ∃ shown : string,
    summary_data results !! i
      = Some {| row_keyword := keyword item; row_title := title (article item);
                row_url := url (article item); row_summary := shown |}
    ∧ (∃ header rows, to_csv (summary_data results) false = Csv header rows
         ∧ rows !! i = Some [keyword item; title (article item); url (article item); shown])
    ∧ (200 < PyStr.len (summary (article item)) →
         ∃ first rest, summary (article item) = first +:+ rest
           ∧ PyStr.len first = 200 ∧ shown = first +:+ "...")
    ∧ (PyStr.len (summary (article item)) ≤ 200 → shown = summary (article item)).
Proof.
  intros Hi. exists (truncated_summary (summary (article item))).
  assert (Hrow : summary_data results !! i = Some (summary_row_of item)).
  { unfold summary_data. by rewrite list_lookup_fmap, Hi. }
  split; [exact Hrow|]. split; [|split].
  - eexists _, _. split; [reflexivity|].
    by rewrite list_lookup_fmap, Hrow.
  - intros Hlong. unfold truncated_summary. rewrite decide_True by done.
    destruct (slice_to_split 200 (summary (article item))) as [Hlen Hsplit]; [lia|].
    eauto.
  - intros Hshort. unfold truncated_summary. by rewrite decide_False by lia.
Qed.

(** C3 on two results, the second with a summary of 210 characters. *)
Lemma C3_summary_truncation_witness :
  let results := [Demo.short_item; Demo.long_item] in
  let item := Demo.long_item in
  results !! 1 = Some item
  ∧ ∃ shown : string,
      summary_data results !! 1
        = Some {| row_keyword := keyword item; row_title := title (article item);
                  row_url := url (article item); row_summary := shown |}
      ∧ (∃ header rows, to_csv (summary_data results) false = Csv header rows
           ∧ rows !! 1 = Some [keyword item; title (article item); url (article item); shown])
      ∧ (200 < PyStr.len (summary (article item)) →
           ∃ first rest, summary (article item) = first +:+ rest
             ∧ PyStr.len first = 200 ∧ shown = first +:+ "...")
      ∧ (PyStr.len (summary (article item)) ≤ 200 → shown = summary (article item)).
Proof.
  intros results item. split; [reflexivity|].
  exact (C3_summary_truncation results 1 item eq_refl).
Defined.

(** ** C6: image addresses *)

Lemma startswith_slashes_not_http (src : string) :
  PyStr.startswith src "//" = true → PyStr.startswith src "http" = false.
Proof. intros [rest ->]%startswith_split. reflexivity. Qed.

Lemma select_lookup_image (doc : list node) (i : nat) (img : node) :
  select sel_images doc !! i = Some img →
  extract_images doc !! i = Some (image_of img).
Proof. intros Hi. unfold extract_images. by rewrite list_lookup_fmap, Hi. Qed.

(** C6, as stated: an image whose reference is the relative path
    "httpbin-logo.png" is emitted with that same reference, which is not an
    absolute address. *)
Lemma C6_relative_src_counterexample :
  let img := Elem "img" [("src", "httpbin-logo.png")] [] in
  let doc := [Elem "div" [("class", "image")] [img]] in
  extract_images doc = [{| img_src := "httpbin-logo.png"; img_alt := "" |}]
  ∧ is_absolute "httpbin-logo.png" = false.
Proof. split; reflexivity. Qed.

(** C6, amended: every image inside an "image"-classed container is
    emitted, in document order, with its alt text unchanged (empty when
    absent) and with its reference (empty when absent) unchanged when that
    starts with "http" and prefixed by "https:" otherwise; a
    protocol-relative reference "//..." so becomes the absolute address
    "https://...". *)
Theorem C6_image_src (doc : list node) (i : nat) (img : node) :
  select sel_images doc !! i = Some img →
  let src := get_default (node_attrs img) "src" "" in
  let alt := get_default (node_attrs img) "alt" "" in
  ∃ emitted : image,
    extract_images doc !! i = Some emitted
    ∧ length (extract_images doc) = length (select sel_images doc)
    ∧ img_alt emitted = alt
    ∧ (PyStr.startswith src "http" = true → img_src emitted = src)
    ∧ (PyStr.startswith src "http" = false → img_src emitted = "https:" +:+ src)
    ∧ (PyStr.startswith src "//" = true →
         img_src emitted = "https:" +:+ src
         ∧ PyStr.startswith (img_src emitted) "https://" = true
         ∧ is_absolute (img_src emitted) = true).
Proof.
  intros Hi src alt. exists (image_of img).
  split; [by apply select_lookup_image|].
  split; [unfold extract_images; by rewrite length_fmap|].
  split; [reflexivity|].
  unfold image_of, normalize_src. cbn [img_src]. fold src.
  split; [by intros ->|]. split; [by intros ->|].
  intros Hrel. rewrite (startswith_slashes_not_http _ Hrel). cbn [negb].
  split; [reflexivity|].
  apply startswith_split in Hrel as [rest ->]. split; reflexivity.
Qed.

(** C6 on the first image of the demo page. *)
Lemma C6_image_src_witness :
  let doc := Demo.page (Some "T") Demo.body in
  let img := Elem "img" [("src", "//upload.example.org/a.png"); ("alt", "A")] [] in
  select sel_images doc !! 0 = Some img
  ∧ ∃ emitted : image,
      extract_images doc !! 0 = Some emitted
      ∧ length (extract_images doc) = length (select sel_images doc)
      ∧ img_alt emitted = "A"
      ∧ (PyStr.startswith "//upload.example.org/a.png" "http" = true →
           img_src emitted = "//upload.example.org/a.png")
      ∧ (PyStr.startswith "//upload.example.org/a.png" "http" = false →
           img_src emitted = "https://upload.example.org/a.png")
      ∧ (PyStr.startswith "//upload.example.org/a.png" "//" = true →
           img_src emitted = "https://upload.example.org/a.png"
           ∧ PyStr.startswith (img_src emitted) "https://" = true
           ∧ is_absolute (img_src emitted) = true).
Proof.
  intros doc img. split; [reflexivity|].
  apply (C6_image_src doc 0 img). reflexivity.
Defined.

(** ** Dictionaries *)

Section Dict.
Context {V : Type}.
Implicit Types (d : dict V) (k : string) (v : V).

Lemma getitem_setitem_eq d k v : getitem (setitem d k v) k = Some v.
Proof.
  induction d as [|[k' v'] d IH]; simpl.
  - by rewrite decide_True.
  - destruct (decide (k' = k)) as [->|Hne]; simpl.
    + by rewrite decide_True.
    + by rewrite decide_False.
Qed.

Lemma getitem_setitem_ne d k k' v : k ≠ k' → getitem (setitem d k v) k' = getitem d k'.
Proof.
  intros Hne. induction d as [|[k0 v0] d IH]; simpl.
  - by rewrite decide_False.
  - destruct (decide (k0 = k)) as [->|Hk0]; simpl.
    + by rewrite !decide_False.
    + by rewrite IH.
Qed.

Lemma elem_of_keys_setitem d k k' v :
  k' ∈ keys (setitem d k v) ↔ k' = k ∨ k' ∈ keys d.
Proof.
  unfold keys. induction d as [|[k0 v0] d IH]; simpl.
  - set_solver.
  - destruct (decide (k0 = k)) as [->|Hk0]; simpl; set_solver.
Qed.

Lemma NoDup_keys_setitem d k v : NoDup (keys d) → NoDup (keys (setitem d k v)).
Proof.
  unfold keys. induction d as [|[k0 v0] d IH]; simpl; intros Hnd.
  - apply NoDup_singleton.
  - apply NoDup_cons in Hnd as [Hk0 Hnd].
    destruct (decide (k0 = k)) as [->|Hne]; simpl.
    + by apply NoDup_cons.
    + apply NoDup_cons. split; [|by apply IH].
      intros Hin. apply (elem_of_keys_setitem d k k0 v) in Hin as [->|Hin]; done.
Qed.

Lemma getitem_is_Some d k : is_Some (getitem d k) ↔ k ∈ keys d.
Proof.
  unfold keys. induction d as [|[k0 v0] d IH]; simpl.
  - split; [by intros [? ?]|by intros ?%elem_of_nil].
  - destruct (decide (k0 = k)) as [->|Hne].
    + split; [set_solver|eauto].
    + rewrite IH. set_solver.
Qed.

Lemma setitem_id d k v : getitem d k = Some v → setitem d k v = d.
Proof.
  induction d as [|[k0 v0] d IH]; simpl; [done|].
  destruct (decide (k0 = k)) as [->|Hne].
  - by intros [= ->].
  - intros Hd. by rewrite IH.
Qed.

Lemma setitem_setitem d k v v' : setitem (setitem d k v) k v' = setitem d k v'.
Proof.
  induction d as [|[k0 v0] d IH]; simpl.
  - by rewrite decide_True.
  - destruct (decide (k0 = k)) as [->|Hne]; simpl.
    + by rewrite decide_True.
    + by rewrite decide_False, IH.
Qed.

End Dict.

(** ** The fields of an extracted record *)

Lemma extract_article_Ok (address : string) (doc : list node) (a : article_data) :
  extract_article address doc = Ok a →
  extract_title doc = Ok (title a)
  ∧ url a = address
  ∧ summary a = extract_summary doc
  ∧ infobox a = extract_infobox doc
  ∧ extract_sections doc = Ok (sections a)
  ∧ references a = extract_references (after_sections doc)
  ∧ links a = extract_links (after_sections doc)
  ∧ images a = extract_images (after_sections doc).
Proof.
  unfold extract_article. destruct (extract_title doc) as [t|]; [|done].
  destruct (extract_sections doc) as [sec|]; [|done]. by intros [= <-].
Qed.

(** ** C4: the infobox *)

Lemma row_cells_Some (row header data : node) :
  row_cells row = Some (header, data)
  ↔ select_one_in [Simple (ByName "th")] row = Some header
    ∧ select_one_in [Simple (ByName "td")] row = Some data.
Proof.
  unfold row_cells.
  destruct (select_one_in [Simple (ByName "th")] row) as [h|],
           (select_one_in [Simple (ByName "td")] row) as [c|];
    naive_solver.
Qed.

Lemma row_entry_Some (row : node) (k v : string) :
  row_entry row = Some (k, v)
  ↔ ∃ header data, row_cells row = Some (header, data)
      ∧ stripped_text header = k ∧ stripped_text data = v.
Proof.
  unfold row_entry. destruct (row_cells row) as [[header data]|]; naive_solver.
Qed.

Lemma infobox_loop_keys (rows : list node) (d : dict string) :
  NoDup (keys d) → NoDup (keys (infobox_loop rows d)).
Proof.
  revert d. induction rows as [|row rows IH]; intros d Hd; simpl; [done|].
  destruct (row_cells row) as [[header data]|]; [|by apply IH].
  apply IH. by apply NoDup_keys_setitem.
Qed.

Lemma infobox_loop_getitem (rows : list node) (d : dict string) (k : string) :
  getitem (infobox_loop rows d) k
  = match last_entry rows k with
    | Some v => Some v
    | None => getitem d k
    end.
Proof.
  revert d. induction rows as [|row rows IH]; intros d; simpl; [done|].
  unfold row_entry.
  destruct (row_cells row) as [[header data]|]; rewrite IH;
    destruct (last_entry rows k); try done.
  destruct (decide (stripped_text header = k)) as [<-|Hne].
  - apply getitem_setitem_eq.
  - by apply getitem_setitem_ne.
Qed.

Lemma last_entry_None (rows : list node) (k : string) :
  last_entry rows k = None
  ↔ ∀ row v, row ∈ rows → row_entry row ≠ Some (k, v).
Proof.
  induction rows as [|row rows IH]; simpl.
  - split; [by intros _ ? ? ?%elem_of_nil|done].
  - destruct (last_entry rows k) as [v|] eqn:Hlast.
    + split; [done|]. intros Hall.
      assert (Hnone : Some v = None); [|done].
      apply IH. intros row' v' Hin. apply Hall. by right.
    + destruct IH as [IH _]. specialize (IH eq_refl).
      destruct (row_entry row) as [[k' v']|] eqn:Hrow.
      * destruct (decide (k' = k)) as [->|Hne].
        -- split; [done|]. intros Hall. exfalso. eapply Hall; [by left|done].
        -- split; [|done]. intros _ row' v0 [->|Hin]%elem_of_cons; [congruence|by eapply IH].
      * split; [|done]. intros _ row' v0 [->|Hin]%elem_of_cons; [congruence|by eapply IH].
Qed.

Lemma last_entry_Some (rows : list node) (k v : string) :
  last_entry rows k = Some v
  ↔ ∃ rows1 row rows2, rows = rows1 ++ row :: rows2
      ∧ row_entry row = Some (k, v)
      ∧ ∀ row' v', row' ∈ rows2 → row_entry row' ≠ Some (k, v').
Proof.
  revert v. induction rows as [|row rows IH]; intros v; simpl.
  - split; [done|]. intros (rows1 & ? & ? & Hnil & _). by destruct rows1.
  - destruct (last_entry rows k) as [v0|] eqn:Hlast.
    + split.
      * intros [= <-]. destruct (IH v0) as [(rows1 & r & rows2 & -> & Hr & Hno) _]; [done|].
        exists (row :: rows1), r, rows2. done.
      * intros (rows1 & r & rows2 & Heq & Hr & Hno).
        destruct rows1 as [|r1 rows1]; simplify_eq/=.
        -- apply last_entry_None in Hno. congruence.
        -- f_equal. symmetry. assert (Some v0 = Some v); [|congruence].
           apply IH. eauto 10.
    + assert (Hnone := Hlast). rewrite last_entry_None in Hnone.
      split.
      * intros Hv. exists [], row, rows. split; [done|]. split; [|done].
        destruct (row_entry row) as [[k' v']|]; [|done].
        destruct (decide (k' = k)) as [->|]; [|done]. congruence.
      * intros (rows1 & r & rows2 & Heq & Hr & Hno).
        destruct rows1 as [|r1 rows1]; simplify_eq/=.
        -- rewrite Hr. by rewrite decide_True.
        -- exfalso. eapply (Hnone r v); [|done]. set_solver.
Qed.

(** C4: for the rows [tr] of the infobox, the extracted mapping has no key
    twice, and it maps [k] to [v] exactly when some row with both a header
    cell and a data cell has trimmed header text [k] and trimmed data text
    [v] and no later such row has header text [k]; rows that lack a header
    cell or a data cell play no part. *)
Theorem C4_infobox_entries (doc : list node) (table : node) :
  select_one sel_infobox doc = Some table →
  let rows := select_in [Simple (ByName "tr")] table in
  let both row header data :=
    select_one_in [Simple (ByName "th")] row = Some header
    ∧ select_one_in [Simple (ByName "td")] row = Some data in
  NoDup (keys (extract_infobox doc))
  ∧ (∀ k v,
       getitem (extract_infobox doc) k = Some v
       ↔ ∃ rows1 row rows2 header data,
           rows = rows1 ++ row :: rows2
           ∧ both row header data
           ∧ stripped_text header = k ∧ stripped_text data = v
           ∧ ∀ row' header' data', row' ∈ rows2 → both row' header' data' →
               stripped_text header' ≠ k)
  ∧ (∀ k, k ∈ keys (extract_infobox doc)
       ↔ ∃ row header data, row ∈ rows ∧ both row header data ∧ stripped_text header = k)
  ∧ (∀ address a, extract_article address doc = Ok a → infobox a = extract_infobox doc).
Proof.
  intros Htable rows both.
  assert (Hrecord : ∀ address a,
    extract_article address doc = Ok a → infobox a = extract_infobox doc).
  { by intros address a (_ & _ & _ & -> & _)%extract_article_Ok. }
  revert Hrecord. unfold extract_infobox. rewrite Htable. fold rows. intros Hrecord.
  assert (Hget : ∀ k v,
    getitem (infobox_loop rows []) k = Some v
    ↔ ∃ rows1 row rows2 header data,
        rows = rows1 ++ row :: rows2
        ∧ both row header data
        ∧ stripped_text header = k ∧ stripped_text data = v
        ∧ ∀ row' header' data', row' ∈ rows2 → both row' header' data' →
            stripped_text header' ≠ k).
  { intros k v. rewrite infobox_loop_getitem.
    transitivity (last_entry rows k = Some v).
    { destruct (last_entry rows k); naive_solver. }
    rewrite last_entry_Some. unfold both. split.
    - intros (rows1 & row & rows2 & Heq & Hrow & Hno).
      apply row_entry_Some in Hrow as (header & data & Hcells & Hk & Hv).
      exists rows1, row, rows2, header, data.
      split; [done|]. split; [by apply row_cells_Some|]. split; [done|]. split; [done|].
      intros row' header' data' Hin Hboth Hk'.
      apply (Hno row' (stripped_text data') Hin).
      apply row_entry_Some. exists header', data'. by rewrite row_cells_Some.
    - intros (rows1 & row & rows2 & header & data & Heq & Hboth & Hk & Hv & Hno).
      exists rows1, row, rows2. split; [done|]. split.
      + apply row_entry_Some. exists header, data. by rewrite row_cells_Some.
      + intros row' v' Hin (header' & data' & Hcells & Hk' & _)%row_entry_Some.
        apply row_cells_Some in Hcells. by eapply Hno. }
  split; [apply infobox_loop_keys, NoDup_nil_2|]. split; [exact Hget|].
  split; [|exact Hrecord].
  intros k. rewrite <- getitem_is_Some. split.
  - intros [v Hv]. apply Hget in Hv as (rows1 & row & rows2 & header & data & -> & Hb & Hk & _).
    exists row, header, data. split; [set_solver|done].
  - intros (row & header & data & Hin & Hboth & Hk).
    destruct (last_entry rows k) as [v|] eqn:Hlast.
    + exists v. by rewrite infobox_loop_getitem, Hlast.
    + exfalso. rewrite last_entry_None in Hlast.
      apply (Hlast row (stripped_text data) Hin).
      apply row_entry_Some. exists header, data. by rewrite row_cells_Some.
Qed.

(** C4 on the infobox of the demo page. *)
Lemma C4_infobox_entries_witness :
  let doc := Demo.page (Some "T") Demo.body in
  let table := Demo.infobox_table in
  select_one sel_infobox doc = Some table
  ∧ let rows := select_in [Simple (ByName "tr")] table in
    let both row header data :=
      select_one_in [Simple (ByName "th")] row = Some header
      ∧ select_one_in [Simple (ByName "td")] row = Some data in
    NoDup (keys (extract_infobox doc))
    ∧ (∀ k v,
         getitem (extract_infobox doc) k = Some v
         ↔ ∃ rows1 row rows2 header data,
             rows = rows1 ++ row :: rows2
             ∧ both row header data
             ∧ stripped_text header = k ∧ stripped_text data = v
             ∧ ∀ row' header' data', row' ∈ rows2 → both row' header' data' →
                 stripped_text header' ≠ k)
    ∧ (∀ k, k ∈ keys (extract_infobox doc)
         ↔ ∃ row header data, row ∈ rows ∧ both row header data ∧ stripped_text header = k)
    ∧ (∀ address a, extract_article address doc = Ok a → infobox a = extract_infobox doc).
Proof.
  intros doc table. split; [reflexivity|].
  exact (C4_infobox_entries doc table eq_refl).
Defined.

(** ** C2: the sections *)

Lemma open_key_heading (d : dict string) (k : string) :
  open_key_present (setitem d k "") (Some k).
Proof. intros ? [= <-]. rewrite getitem_setitem_eq. eauto. Qed.

Lemma open_key_paragraph (d : dict string) (k v : string) :
  open_key_present (setitem d k v) (Some k).
Proof. intros ? [= <-]. rewrite getitem_setitem_eq. eauto. Qed.

Lemma section_open_Some (current : option string) :
  section_open current = true → ∃ k, current = Some k ∧ PyStr.truthy k = true.
Proof. destruct current as [k|]; [eauto|done]. Qed.

(** The loop never reads a missing key: it returns a mapping whose keys
    are the old ones and the heading texts met. *)
Lemma sections_loop_total (elements : list node) (d : dict string) (current : option string) :
  open_key_present d current → NoDup (keys d) →
  ∃ d', sections_loop elements d current = Ok d'
    ∧ NoDup (keys d')
    ∧ ∀ k, k ∈ keys d'
        ↔ k ∈ keys d ∨ ∃ h, h ∈ elements ∧ is_heading h = true ∧ heading_text h = k.
Proof.
  revert d current. induction elements as [|e elements IH]; intros d current Hopen Hnd.
  - exists d. split; [done|]. split; [done|]. set_solver.
  - simpl. destruct (is_heading e) eqn:He.
    + destruct (IH (setitem d (heading_text e) "") (Some (heading_text e)))
        as (d' & -> & Hnd' & Hkeys);
        [apply open_key_heading|by apply NoDup_keys_setitem|].
      exists d'. split; [done|]. split; [done|]. intros k. rewrite Hkeys.
      rewrite elem_of_keys_setitem. set_solver.
    + destruct (is_paragraph e && section_open current) eqn:Hp.
      * apply andb_true_iff in Hp as [_ (name & -> & _)%section_open_Some].
        destruct (Hopen name eq_refl) as [v ->].
        destruct (IH (setitem d name (v +:+ (stripped_text e +:+ " "))) (Some name))
          as (d' & -> & Hnd' & Hkeys);
          [apply open_key_paragraph|by apply NoDup_keys_setitem|].
        exists d'. split; [done|]. split; [done|]. intros k. rewrite Hkeys.
        rewrite elem_of_keys_setitem.
        assert (name ∈ keys d) by (apply getitem_is_Some; eauto).
        split; [intros [[->|?]|(h & ? & ? & ?)]|intros [?|(h & [->|?]%elem_of_cons & ? & ?)]];
          try congruence; eauto 10 using list_elem_of_further.
      * destruct (IH d current Hopen Hnd) as (d' & -> & Hnd' & Hkeys).
        exists d'. split; [done|]. split; [done|]. intros k. rewrite Hkeys.
        split; [intros [?|(h & ? & ? & ?)]|intros [?|(h & [->|?]%elem_of_cons & ? & ?)]];
          try congruence; eauto 10 using list_elem_of_further.
Qed.

(** What came before leaves the loop in some state that keeps the invariant. *)
Lemma sections_loop_prefix (before : list node) (d : dict string) (current : option string) :
  open_key_present d current →
  ∃ d1 current1, open_key_present d1 current1
    ∧ ∀ rest, sections_loop (before ++ rest) d current = sections_loop rest d1 current1.
Proof.
  revert d current. induction before as [|e before IH]; intros d current Hopen.
  - by exists d, current.
  - destruct (is_heading e) eqn:He.
    + destruct (IH (setitem d (heading_text e) "") (Some (heading_text e)))
        as (d1 & c1 & Hopen1 & Heq); [apply open_key_heading|].
      exists d1, c1. split; [done|]. intros rest. simpl. by rewrite He, Heq.
    + destruct (is_paragraph e && section_open current) eqn:Hp.
      * apply andb_true_iff in Hp as [Hpar (name & -> & Hname)%section_open_Some].
        destruct (Hopen name eq_refl) as [v Hv].
        destruct (IH (setitem d name (v +:+ (stripped_text e +:+ " "))) (Some name))
          as (d1 & c1 & Hopen1 & Heq); [apply open_key_paragraph|].
        exists d1, c1. split; [done|]. intros rest. simpl.
        by rewrite He, Hpar, Hv, <- Heq; simpl; rewrite Hname.
      * destruct (IH d current Hopen) as (d1 & c1 & Hopen1 & Heq).
        exists d1, c1. split; [done|]. intros rest. simpl. by rewrite He, Hp, Heq.
Qed.

(** Paragraphs under an open section all go to its entry. *)
Lemma sections_loop_paragraphs (paragraphs rest : list node) (d : dict string) (k v : string) :
  Forall (λ e, is_heading e = false) paragraphs →
  PyStr.truthy k = true → getitem d k = Some v →
  sections_loop (paragraphs ++ rest) d (Some k)
  = sections_loop rest
      (setitem d k (v +:+ concat_all (map chunk (filter (λ e, is_paragraph e = true) paragraphs))))
      (Some k).
Proof.
  intros Hall Hk. revert d v. induction Hall as [|e paragraphs He _ IH]; intros d v Hv.
  - simpl. by rewrite app_empty_r, setitem_id.
  - simpl. rewrite He. cbn [section_open]. rewrite Hk, andb_true_r.
    destruct (is_paragraph e) eqn:Hp.
    + rewrite Hv. rewrite (IH _ (v +:+ (stripped_text e +:+ " "))) by apply getitem_setitem_eq.
      rewrite setitem_setitem, filter_cons_True by done.
      simpl. unfold chunk at 2. by rewrite app_assoc_str.
    + rewrite (IH d v Hv). rewrite filter_cons_False; [done|]. by rewrite Hp.
Qed.

(** With no open section, elements that are not headings change nothing. *)
Lemma sections_loop_dropped (elements rest : list node) (d : dict string) (current : option string) :
  Forall (λ e, is_heading e = false) elements →
  section_open current = false →
  sections_loop (elements ++ rest) d current = sections_loop rest d current.
Proof.
  intros Hall Hclosed. induction Hall as [|e elements He _ IH]; [done|].
  simpl. by rewrite He, Hclosed, andb_false_r.
Qed.

(** Entries whose heading does not come again are left alone. *)
Lemma sections_loop_preserves (elements : list node) (d d' : dict string)
    (current : option string) (k : string) :
  sections_loop elements d current = Ok d' →
  (∀ h, h ∈ elements → is_heading h = true → heading_text h ≠ k) →
  current ≠ Some k →
  getitem d' k = getitem d k.
Proof.
  revert d current. induction elements as [|e elements IH]; intros d current Hrun Hno Hcur.
  - simpl in Hrun. by injection Hrun as <-.
  - simpl in Hrun. destruct (is_heading e) eqn:He.
    + rewrite (IH _ _ Hrun).
      * apply getitem_setitem_ne. apply Hno; [by left|done].
      * intros h Hin. apply Hno. by right.
      * intros [= Heq]. by apply (Hno e); [left|..].
    + destruct (is_paragraph e && section_open current) eqn:Hp.
      * destruct current as [name|]; [|by rewrite andb_false_r in Hp].
        destruct (getitem d name) as [v|] eqn:Hv; [|done].
        rewrite (IH _ _ Hrun); [|intros h Hin; apply Hno; by right|done].
        apply getitem_setitem_ne. congruence.
      * apply (IH _ _ Hrun); [|done]. intros h Hin. apply Hno. by right.
Qed.

Lemma sections_loop_after (after : list node) (d d' : dict string) (k : string) :
  sections_loop after d (Some k) = Ok d' →
  (after = [] ∨ ∃ h' after', after = h' :: after' ∧ is_heading h' = true) →
  (∀ h', h' ∈ after → is_heading h' = true → heading_text h' ≠ k) →
  getitem d' k = getitem d k.
Proof.
  intros Hrun [->|(h' & after' & -> & Hh')] Hno.
  - simpl in Hrun. by injection Hrun as <-.
  - simpl in Hrun. rewrite Hh' in Hrun.
    assert (Hne : heading_text h' ≠ k) by (apply Hno; [by left|done]).
    rewrite (sections_loop_preserves _ _ _ _ _ Hrun).
    + by apply getitem_setitem_ne.
    + intros h Hin. apply Hno. by right.
    + congruence.
Qed.

(** C2, as stated: with the headings "History", "Works", "History" the
    mapping has two keys for three headings; the paragraph "Alpha" under the
    first "History" is not its value, and the value of "Works" ends in a
    space that joining with spaces does not produce. *)
Lemma C2_sections_counterexample :
  let d := [("History", ""); ("Works", "Beta Gamma ")] in
  sections_loop Demo.headings_and_paragraphs [] None = Ok d
  ∧ ¬ one_key_per_heading Demo.headings_and_paragraphs d
  ∧ ¬ values_space_joined Demo.headings_and_paragraphs d
  ∧ ¬ sections_as_specified Demo.headings_and_paragraphs d.
Proof.
  intros d. split; [reflexivity|].
  assert (Hvalues : ¬ values_space_joined Demo.headings_and_paragraphs d).
  { intros Hval.
    specialize (Hval [Demo.para "Lead"] (Demo.h2 "History") [Demo.para "Alpha"]
                  [Demo.h2 "Works"; Demo.para "Beta"; Demo.para "Gamma"; Demo.h3 "History"]
                  eq_refl eq_refl).
    discriminate Hval.
    - repeat constructor.
    - right. by eexists _, _. }
  split; [|split; [done|]].
  - unfold one_key_per_heading. vm_compute. discriminate.
  - by intros [_ ?].
Qed.

(** C2, amended: the loop returns a mapping with one key for every
    distinct heading text; under the text of a heading that no later
    heading repeats it holds, for the paragraphs up to the next heading
    and in their order, each trimmed text followed by one space (nothing
    when the heading text is empty); paragraphs before any heading are
    dropped. *)
Theorem C2_sections (elements : list node) :
  ∃ d : dict string,
    sections_loop elements [] None = Ok d
    ∧ NoDup (keys d)
    ∧ (∀ k, k ∈ keys d ↔ ∃ h, h ∈ elements ∧ is_heading h = true ∧ heading_text h = k)
    ∧ (∀ before h between after,
         elements = before ++ h :: between ++ after →
         is_heading h = true →
         Forall (λ e, is_heading e = false) between →
         (after = [] ∨ ∃ h' after', after = h' :: after' ∧ is_heading h' = true) →
         (∀ h', h' ∈ after → is_heading h' = true → heading_text h' ≠ heading_text h) →
         getitem d (heading_text h)
         = Some (if PyStr.truthy (heading_text h)
                 then concat_all (map chunk (filter (λ e, is_paragraph e = true) between))
                 else ""))
    ∧ (∀ before rest,
         elements = before ++ rest →
         Forall (λ e, is_heading e = false) before →
         sections_loop rest [] None = Ok d)
    ∧ (∀ doc address a,
         elements = select sel_section_elements doc →
         extract_article address doc = Ok a →
         sections a = d).
Proof.
  destruct (sections_loop_total elements [] None) as (d & Hrun & Hnd & Hkeys);
    [by intros ? [=]|apply NoDup_nil_2|].
  exists d. split; [done|]. split; [done|]. split; [|split; [|split]].
  - intros k. rewrite Hkeys. split; [intros [[]%elem_of_nil|?]|]; eauto.
  - intros before h between after -> Hh Hbetween Hafter Hno.
    destruct (sections_loop_prefix before [] None) as (d1 & c1 & _ & Hpre);
      [by intros ? [=]|].
    rewrite Hpre in Hrun. simpl in Hrun. rewrite Hh in Hrun.
    destruct (PyStr.truthy (heading_text h)) eqn:Hk.
    + rewrite (sections_loop_paragraphs _ _ _ _ "") in Hrun
        by (done || apply getitem_setitem_eq).
      rewrite setitem_setitem, app_empty_l in Hrun.
      rewrite (sections_loop_after _ _ _ _ Hrun Hafter Hno).
      apply getitem_setitem_eq.
    + rewrite sections_loop_dropped in Hrun by done.
      rewrite (sections_loop_after _ _ _ _ Hrun Hafter Hno).
      apply getitem_setitem_eq.
  - intros before rest -> Hbefore. by rewrite sections_loop_dropped in Hrun.
  - intros doc address a -> (_ & _ & _ & _ & Hsec & _)%extract_article_Ok.
    unfold extract_sections in Hsec. congruence.
Qed.

(** The extractor returns a record as soon as the page has its main
    heading: the section loop never raises. *)
Lemma extract_article_total (address : string) (doc : list node) (h : node) :
  select_one sel_first_heading doc = Some h →
  ∃ a, extract_article address doc = Ok a.
Proof.
  intros Hh. unfold extract_article, extract_title, extract_sections. rewrite Hh.
  destruct (sections_loop_total (select sel_section_elements doc) [] None)
    as (d & -> & _); [by intros ? [=]|apply NoDup_nil_2|].
  eauto.
Qed.

(** C2 on a list of demo headings and paragraphs. *)
Lemma C2_sections_witness :
  let elements := Demo.headings_and_paragraphs in
  ∃ d : dict string,
    sections_loop elements [] None = Ok d
    ∧ NoDup (keys d)
    ∧ (∀ k, k ∈ keys d ↔ ∃ h, h ∈ elements ∧ is_heading h = true ∧ heading_text h = k)
    ∧ (∀ before h between after,
         elements = before ++ h :: between ++ after →
         is_heading h = true →
         Forall (λ e, is_heading e = false) between →
         (after = [] ∨ ∃ h' after', after = h' :: after' ∧ is_heading h' = true) →
         (∀ h', h' ∈ after → is_heading h' = true → heading_text h' ≠ heading_text h) →
         getitem d (heading_text h)
         = Some (if PyStr.truthy (heading_text h)
                 then concat_all (map chunk (filter (λ e, is_paragraph e = true) between))
                 else ""))
    ∧ (∀ before rest,
         elements = before ++ rest →
         Forall (λ e, is_heading e = false) before →
         sections_loop rest [] None = Ok d)
    ∧ (∀ doc address a,
         elements = select sel_section_elements doc →
         extract_article address doc = Ok a →
         sections a = d).
Proof. exact (C2_sections Demo.headings_and_paragraphs). Defined.

(** ** C5: the summary *)

Lemma node_nested_ind (P : node → Prop) :
  (∀ s, P (Text s)) →
  (∀ name a contents, Forall P contents → P (Elem name a contents)) →
  ∀ n, P n.
Proof.
  intros Htext Helem. fix IH 1. intros [s|name a contents]; [apply Htext|].
  apply Helem. induction contents as [|c contents IHc]; constructor; [apply IH|apply IHc].
Qed.

Lemma filter_flat_map_nil {A B : Type} (P : B → Prop) `{!∀ x, Decision (P x)}
    (f : A → list B) (l : list A) :
  filter P (flat_map f l) = [] ↔ Forall (λ c, filter P (f c) = []) l.
Proof.
  induction l as [|c l IH]; simpl.
  - split; [constructor|done].
  - rewrite filter_app, app_nil, IH, Forall_cons. done.
Qed.

Lemma fmap_nil_iff {A B : Type} (f : A → B) (l : list A) : f <$> l = [] ↔ l = [].
Proof. split; [apply fmap_nil_inv|by intros ->]. Qed.

Lemma selected_by_name (name : string) (anc : list frame) (n : node) :
  selected [Simple (ByName name)] (anc, n) = named name n.
Proof. destruct n as [s|cn a contents]; [done|]. simpl. apply orb_false_r. Qed.

(** Nothing at or below a node is selected by a tag name exactly when the
    node neither is nor contains such a tag. *)
Lemma walk_none_named (name : string) (n : node) (anc : list frame) :
  filter (λ x, selected [Simple (ByName name)] x = true) (walk anc n) = []
  ↔ named name n = false ∧ contains_tag name n = false.
Proof.
  revert anc. induction n as [s|cn a contents IH] using node_nested_ind; intros anc.
  - done.
  - cbn [walk contains_tag].
    assert (Hbelow :
      filter (λ x, selected [Simple (ByName name)] x = true)
        (flat_map (walk ((cn, a) :: anc)) contents) = []
      ↔ existsb (λ c, named name c || contains_tag name c) contents = false).
    { rewrite filter_flat_map_nil. clear -IH.
      induction IH as [|c contents Hc _ IHc]; [done|].
      rewrite Forall_cons, Hc, IHc. simpl. rewrite !orb_false_iff. done. }
    destruct (named name (Elem cn a contents)) eqn:Hn.
    + rewrite filter_cons_True by (by rewrite selected_by_name). naive_solver.
    + rewrite filter_cons_False by (by rewrite selected_by_name, Hn). naive_solver.
Qed.

(** [tag.find(name)] finds nothing exactly when no such tag lies below. *)
Lemma find_None (name : string) (n : node) :
  find name n = None ↔ contains_tag name n = false.
Proof.
  destruct n as [s|cn a contents]; [done|].
  unfold find, select_one_in, select_in. cbn [contains_tag].
  rewrite head_None, fmap_nil_iff, filter_flat_map_nil.
  induction contents as [|c contents IH]; [done|].
  rewrite Forall_cons, IH, walk_none_named. simpl. rewrite !orb_false_iff. done.
Qed.

Lemma truthy_true (s : string) : PyStr.truthy s = true ↔ s ≠ "".
Proof. destruct s; simpl; [split; [done|by intros []]|by split]. Qed.

Lemma summary_candidate_true (p : node) :
  summary_candidate p = true ↔ stripped_text p ≠ "" ∧ contains_tag "img" p = false.
Proof.
  unfold summary_candidate.
  rewrite andb_true_iff, truthy_true, negb_true_iff, bool_decide_eq_false.
  rewrite <- find_None, <- not_eq_None_Some.
  destruct (find "img" p) as [img|]; split; intros [Htext Himg]; split; try done.
  - exfalso. by apply Himg.
  - intros Hne. by apply Hne.
Qed.

Lemma summary_loop_first (paragraphs : list node) :
  (∃ skipped p rest,
      paragraphs = skipped ++ p :: rest
      ∧ Forall (λ q, summary_candidate q = false) skipped
      ∧ summary_candidate p = true
      ∧ summary_loop paragraphs = stripped_text p)
  ∨ (Forall (λ q, summary_candidate q = false) paragraphs ∧ summary_loop paragraphs = "").
Proof.
  induction paragraphs as [|p paragraphs IH]; [by right|].
  simpl. destruct (summary_candidate p) eqn:Hp.
  - left. by exists [], p, paragraphs.
  - destruct IH as [(skipped & q & rest & -> & Hskip & Hq & Hsum)|[Hall Hsum]].
    + left. exists (p :: skipped), q, rest. by repeat split; [constructor|..].
    + right. by split; [constructor|].
Qed.

(** ** Runs of the scraper *)

Section Runs.
Context `{Env}.
Implicit Types (s : state) (results : list result_item).

Lemma no_file_written_refl s : no_file_written s s.
Proof. by repeat split. Qed.

Lemma no_file_written_trans s1 s2 s3 :
  no_file_written s1 s2 → no_file_written s2 s3 → no_file_written s1 s3.
Proof. intros (?&?&?&?) (?&?&?&?). repeat split; congruence. Qed.

Lemma csv_writes_snoc (tr : list event) (e : event) :
  csv_writes (tr ++ [e]) = csv_writes tr ++ option_list (csv_write e).
Proof. unfold csv_writes. rewrite omap_app. simpl. by destruct (csv_write e). Qed.

Lemma record_writes_snoc (tr : list event) (e : event) :
  record_writes (tr ++ [e]) = record_writes tr ++ option_list (record_write e).
Proof. unfold record_writes. rewrite omap_app. simpl. by destruct (record_write e). Qed.

Lemma no_file_written_emit s (e : event) :
  csv_write e = None → record_write e = None → no_file_written s (emit e s).
Proof.
  intros Hc Hr. repeat split; simpl.
  - by rewrite csv_writes_snoc, Hc, app_nil_r.
  - by rewrite record_writes_snoc, Hr, app_nil_r.
Qed.

Lemma bind_run {A B : Type} (m : M A) (f : A → M B) s :
  (m ≫= f) s
  = match m s with
    | (Ok a, s') => f a s'
    | (Raise e, s') => (Raise e, s')
    end.
Proof. reflexivity. Qed.

Lemma log_quiet (l : level) (msg : string) s :
  ∃ s', log l msg s = (Ok (), s') ∧ no_file_written s s' ∧ world s' = world s
    ∧ trace s' = trace s ++ [Log l msg].
Proof.
  eexists. split; [reflexivity|]. split; [|done]. repeat split; simpl.
  - by rewrite csv_writes_snoc, app_nil_r.
  - by rewrite record_writes_snoc, app_nil_r.
Qed.

Lemma session_get_run (address : string) s (r : outcome response) (w : World) :
  http_get address (world s) = (r, w) →
  ∃ s', session_get address s = (r, s') ∧ no_file_written s s' ∧ world s' = w
    ∧ trace s' = trace s ++ [Request address].
Proof.
  intros Hget. unfold session_get. rewrite Hget. eexists. split; [reflexivity|].
  split; [|done]. repeat split; simpl.
  - by rewrite csv_writes_snoc, app_nil_r.
  - by rewrite record_writes_snoc, app_nil_r.
Qed.

Lemma contains_wiki_truthy (u : string) :
  PyStr.contains "/wiki/" u = true → PyStr.truthy u = true.
Proof. by destruct u. Qed.

(** Searching writes no file, and an address it returns is not empty. *)
Lemma search_wikipedia_inv (k : string) s (r : outcome (option string)) s' :
  search_wikipedia k s = (r, s') →
  no_file_written s s' ∧ ∀ u, r = Ok (Some u) → PyStr.truthy u = true.
Proof.
  unfold search_wikipedia. rewrite bind_run.
  destruct (log_quiet INFO ("Searching for: " +:+ k) s) as (s1 & -> & Hq1 & _).
  rewrite bind_run.
  destruct (http_get (search_url +:+ PyStr.replace " " "+" k) (world s1)) as [r0 w] eqn:Hget.
  destruct (session_get_run _ _ _ _ Hget) as (s2 & -> & Hq2 & _).
  destruct r0 as [resp|e].
  - destruct (PyStr.contains "/wiki/" (resp_url resp)
              && negb (PyStr.contains "index.php?search=" (resp_url resp))) eqn:Hdirect.
    + rewrite bind_run.
      destruct (log_quiet INFO ("Direct match found: " +:+ resp_url resp) s2) as (s3 & -> & Hq3 & _).
      intros [= <- <-]. split; [eauto using no_file_written_trans|].
      intros u [= <-]. apply andb_true_iff in Hdirect as [Hwiki _].
      by apply contains_wiki_truthy.
    + destruct (select sel_search_results (resp_soup resp)) as [|first others].
      * rewrite bind_run.
        destruct (log_quiet WARNING ("No results found for: " +:+ k) s2) as (s3 & -> & Hq3 & _).
        intros [= <- <-]. split; [eauto using no_file_written_trans|done].
      * cbv zeta. rewrite bind_run.
        match goal with |- context [log INFO ?m s2] =>
          destruct (log_quiet INFO m s2) as (s3 & -> & Hq3 & _) end.
        intros [= <- <-]. split; [eauto using no_file_written_trans|].
        by intros u [= <-].
  - intros [= <- <-]. split; [eauto using no_file_written_trans|done].
Qed.

(** The three ways a fetch can go. *)
Lemma get_article_content_run (address : string) s (resp : response) (w : World) :
  http_get address (world s) = (Ok resp, w) →
  ∃ s1, no_file_written s s1 ∧ world s1 = w
    ∧ trace s1 = trace s ++ [Log INFO ("Fetching content from: " +:+ address); Request address]
    ∧ if decide (status_code resp ≠ 200%Z)
      then ∃ s2, get_article_content address s = (Ok None, s2)
             ∧ no_file_written s s2 ∧ world s2 = w
             ∧ trace s2 = trace s1 ++
                 [Log ERROR ("Failed to retrieve article: " +:+ PyStr.of_int (status_code resp))]
      else get_article_content address s
           = (match extract_article address (resp_soup resp) with
              | Ok a => Ok (Some a)
              | Raise e => Raise e
              end, s1).
Proof.
  intros Hget. unfold get_article_content. rewrite bind_run.
  destruct (log_quiet INFO ("Fetching content from: " +:+ address) s) as (s0 & -> & Hq0 & Hw0 & Ht0).
  rewrite bind_run. rewrite <- Hw0 in Hget.
  destruct (session_get_run _ _ _ _ Hget) as (s1 & -> & Hq1 & Hw1 & Ht1).
  exists s1. split; [eauto using no_file_written_trans|]. split; [done|].
  split; [by rewrite Ht1, Ht0, <- app_assoc|].
  destruct (decide (status_code resp ≠ 200%Z)) as [Hbad|Hgood].
  - rewrite bind_run.
    match goal with |- context [log ERROR ?m s1] =>
      destruct (log_quiet ERROR m s1) as (s2 & -> & Hq2 & Hw2 & Ht2) end.
    exists s2. split; [done|]. split; [eauto using no_file_written_trans|].
    split; [congruence|done].
  - rewrite bind_run. unfold lift.
    by destruct (extract_article address (resp_soup resp)).
Qed.

(** Fetching writes no file. *)
Lemma get_article_content_inv (address : string) s (r : outcome (option article_data)) s' :
  get_article_content address s = (r, s') → no_file_written s s'.
Proof.
  destruct (http_get address (world s)) as [[resp|e] w] eqn:Hget.
  - destruct (get_article_content_run _ _ _ _ Hget) as (s1 & Hq1 & _ & _ & Hrun).
    destruct (decide (status_code resp ≠ 200%Z)).
    + destruct Hrun as (s2 & -> & Hq2 & _). by intros [= <- <-].
    + rewrite Hrun. by intros [= <- <-].
  - unfold get_article_content. rewrite bind_run.
    destruct (log_quiet INFO ("Fetching content from: " +:+ address) s) as (s0 & -> & Hq0 & Hw0 & _).
    rewrite bind_run. rewrite <- Hw0 in Hget.
    destruct (session_get_run _ _ _ _ Hget) as (s1 & -> & Hq1 & _).
    intros [= <- <-]. eauto using no_file_written_trans.
Qed.

(** A fetch that returns a record got status 200 and extracted the record
    from the page. *)
Lemma get_article_content_Some (address : string) s (resp : response) (w : World)
    (a : article_data) s' :
  http_get address (world s) = (Ok resp, w) →
  get_article_content address s = (Ok (Some a), s') →
  status_code resp = 200%Z ∧ extract_article address (resp_soup resp) = Ok a.
Proof.
  intros Hget Hfetch.
  destruct (get_article_content_run _ _ _ _ Hget) as (s1 & _ & _ & _ & Hrun).
  destruct (decide (status_code resp ≠ 200%Z)) as [Hbad|Hgood].
  - destruct Hrun as (s2 & Hnone & _). congruence.
  - split; [by destruct (decide (status_code resp = 200%Z))|].
    rewrite Hrun in Hfetch.
    destruct (extract_article address (resp_soup resp)); congruence.
Qed.

(** ** C5: the summary of a fetched page *)

(** C5: in the record extracted from a fetched page, the summary is the
    trimmed text of the first paragraph of the content area whose trimmed
    text is not empty and which contains no image; it is the empty string
    when there is no such paragraph. *)
Theorem C5_summary (address : string) s (resp : response) (w : World)
    (a : article_data) s' :
  http_get address (world s) = (Ok resp, w) →
  get_article_content address s = (Ok (Some a), s') →
  let paragraphs := select sel_content_paragraphs (resp_soup resp) in
  let eligible p := stripped_text p ≠ "" ∧ contains_tag "img" p = false in
  (∃ skipped p rest,
      paragraphs = skipped ++ p :: rest
      ∧ Forall (λ q, ¬ eligible q) skipped
      ∧ eligible p
      ∧ summary a = stripped_text p)
  ∨ (Forall (λ q, ¬ eligible q) paragraphs ∧ summary a = "").
Proof.
  intros Hget Hfetch paragraphs eligible.
  destruct (get_article_content_Some _ _ _ _ _ _ Hget Hfetch) as [_ Hok].
  apply extract_article_Ok in Hok as (_ & _ & -> & _).
  assert (Hnot : ∀ l, Forall (λ q, summary_candidate q = false) l → Forall (λ q, ¬ eligible q) l).
  { intros l Hl. eapply Forall_impl; [exact Hl|]. intros q Hq Hel.
    apply summary_candidate_true in Hel. congruence. }
  unfold extract_summary. fold paragraphs.
  destruct (summary_loop_first paragraphs)
    as [(skipped & p & rest & Heq & Hskip & Hp & Hsum)|[Hall Hsum]].
  - left. exists skipped, p, rest.
    split; [done|]. split; [by apply Hnot|]. split; [by apply summary_candidate_true|done].
  - right. split; [by apply Hnot|done].
Qed.

Lemma write_file_run (path : string) (f : file) s :
  ∃ s', write_file path f s = (Ok (), s')
    ∧ files s' = <[path := f]> (files s) ∧ dirs s' = dirs s ∧ world s' = world s
    ∧ csv_writes (trace s') = csv_writes (trace s) ++ option_list (csv_write (WriteFile path f))
    ∧ record_writes (trace s')
      = record_writes (trace s) ++ option_list (record_write (WriteFile path f)).
Proof.
  eexists. split; [reflexivity|]. simpl.
  by rewrite csv_writes_snoc, record_writes_snoc.
Qed.

Lemma save_all_snoc (out : string) (fs : gmap string file) (items : list result_item)
    (item : result_item) :
  save_all out fs (items ++ [item])
  = <[json_path out (keyword item) := to_json item]> (save_all out fs items).
Proof. unfold save_all. by rewrite foldl_app. Qed.

Lemma save_all_app (out : string) (fs : gmap string file) (items1 items2 : list result_item) :
  save_all out fs (items1 ++ items2) = save_all out (save_all out fs items1) items2.
Proof. unfold save_all. by rewrite foldl_app. Qed.

(** What one keyword adds: nothing, or one result saved under its name. *)
Lemma scrape_one_inv (out k : string) (address : option string) results s
    (r : outcome (list result_item)) s' :
  scrape_one out k address results s = (r, s') →
  csv_writes (trace s') = csv_writes (trace s)
  ∧ ∀ results', r = Ok results' →
      ∃ new, results' = results ++ new
        ∧ keyword <$> new `sublist_of` [k]
        ∧ record_writes (trace s') = record_writes (trace s) ++ (record_file out <$> new)
        ∧ files s' = save_all out (files s) new.
Proof.
  assert (Hnone : ∀ s0, no_file_written s s0 →
    csv_writes (trace s0) = csv_writes (trace s)
    ∧ ∀ results', Ok results = Ok results' →
        ∃ new, results' = results ++ new
          ∧ keyword <$> new `sublist_of` [k]
          ∧ record_writes (trace s0) = record_writes (trace s) ++ (record_file out <$> new)
          ∧ files s0 = save_all out (files s) new).
  { intros s0 (Hf & _ & Hc & Hr). split; [done|]. intros ? [= <-].
    exists []. rewrite !app_nil_r. repeat split; [by apply sublist_nil_l|done..]. }
  unfold scrape_one. destruct address as [u|]; [|intros [= <- <-]; apply Hnone, no_file_written_refl].
  destruct (PyStr.truthy u); [|intros [= <- <-]; apply Hnone, no_file_written_refl].
  rewrite bind_run.
  destruct (get_article_content u s) as [[[a|]|e] s1] eqn:Hfetch;
    apply get_article_content_inv in Hfetch as Hq.
  - cbv zeta. rewrite bind_run.
    match goal with |- context [write_file ?p ?f s1] =>
      destruct (write_file_run p f s1) as (s2 & -> & Hf2 & _ & _ & Hc2 & Hr2) end.
    rewrite bind_run.
    match goal with |- context [log INFO ?m s2] =>
      destruct (log_quiet INFO m s2) as (s3 & -> & (Hf3 & _ & Hc3 & Hr3) & _) end.
    intros [= <- <-]. destruct Hq as (Hf1 & _ & Hc1 & Hr1).
    split; [by rewrite Hc3, Hc2, Hc1, app_nil_r|]. intros ? [= <-].
    exists [{| keyword := k; article := a |}]. split; [done|].
    split; [by apply sublist_skip, sublist_nil|].
    split; [by rewrite Hr3, Hr2, Hr1|]. by rewrite Hf3, Hf2, Hf1.
  - intros [= <- <-]. by apply Hnone.
  - intros [= <- <-]. destruct Hq as (_ & _ & Hc & _). by split.
Qed.

Lemma sleep_quiet (n : nat) s :
  ∃ s', sleep n s = (Ok (), s') ∧ no_file_written s s'
    ∧ trace s' = trace s ++ [Sleep n] ∧ world s' = pass n (world s).
Proof.
  eexists. split; [reflexivity|]. split; [|done]. repeat split; simpl.
  - by rewrite csv_writes_snoc, app_nil_r.
  - by rewrite record_writes_snoc, app_nil_r.
Qed.

(** What the loop over the keywords adds: no summary table, and one
    record file per new result, for keywords in their order. *)
Lemma scrape_loop_inv (out : string) (keywords : list string) results s
    (r : outcome (list result_item)) s' :
  scrape_loop out keywords results s = (r, s') →
  csv_writes (trace s') = csv_writes (trace s)
  ∧ ∀ results', r = Ok results' →
      ∃ new, results' = results ++ new
        ∧ keyword <$> new `sublist_of` keywords
        ∧ record_writes (trace s') = record_writes (trace s) ++ (record_file out <$> new)
        ∧ files s' = save_all out (files s) new.
Proof.
  revert results s. induction keywords as [|k keywords IH]; intros results s.
  - intros [= <- <-]. split; [done|]. intros ? [= <-]. exists [].
    by rewrite !app_nil_r.
  - cbn [scrape_loop]. rewrite bind_run.
    destruct (search_wikipedia k s) as [[address|e] s1] eqn:Hsearch;
      apply search_wikipedia_inv in Hsearch as [(Hf1 & _ & Hc1 & Hr1) _];
      [|intros [= <- <-]; by split].
    rewrite bind_run.
    destruct (scrape_one out k address results s1) as [[results1|e] s2] eqn:Hone;
      apply scrape_one_inv in Hone as [Hc2 Hnew];
      [|intros [= <- <-]; split; [congruence|done]].
    destruct (Hnew _ eq_refl) as (new1 & -> & Hsub1 & Hr2 & Hf2).
    rewrite bind_run.
    destruct (sleep_quiet 1 s2) as (s3 & -> & (Hf3 & _ & Hc3 & Hr3) & _).
    intros Hrest. apply IH in Hrest as [Hc4 Hnew4].
    split; [congruence|]. intros results' ->.
    destruct (Hnew4 _ eq_refl) as (new2 & -> & Hsub2 & Hr4 & Hf4).
    exists (new1 ++ new2). split; [by rewrite app_assoc|].
    split; [rewrite fmap_app; change (k :: keywords) with ([k] ++ keywords);
            by apply sublist_app|].
    split.
    + by rewrite Hr4, Hr3, Hr2, Hr1, fmap_app, app_assoc.
    + by rewrite Hf4, Hf3, Hf2, Hf1, save_all_app.
Qed.

(** The loop over a list of keywords is the loop over its first part, and
    then, unless that raised, the loop over the rest. *)
Lemma scrape_loop_app (out : string) (keywords1 keywords2 : list string) results s :
  scrape_loop out (keywords1 ++ keywords2) results s
  = match scrape_loop out keywords1 results s with
    | (Ok results1, s1) => scrape_loop out keywords2 results1 s1
    | (Raise e, s1) => (Raise e, s1)
    end.
Proof.
  revert results s. induction keywords1 as [|k keywords1 IH]; intros results s; [done|].
  cbn [app scrape_loop]. rewrite !bind_run.
  destruct (search_wikipedia k s) as [[address|e] s1]; [|done].
  rewrite !bind_run.
  destruct (scrape_one out k address results s1) as [[results1|e] s2]; [|done].
  rewrite !bind_run.
  destruct (sleep 1 s2) as [[[]|e] s3]; [|done]. apply IH.
Qed.

(** Paths and directories. *)

Lemma cut_app (p : string) : p = (PyPath.cut p).1 +:+ (PyPath.cut p).2.
Proof.
  induction p as [|c p IH]; [done|]. simpl.
  destruct (PyPath.cut p) as [head tail]. simpl in IH.
  destruct head as [|a head]; simpl.
  - rewrite app_empty_l in IH. subst p.
    destruct (decide (c = "/"%char)) as [->|]; simpl; by rewrite ?app_empty_l.
  - by rewrite app_cons, <- IH.
Qed.

Lemma rstrip_slashes_prefix (s : string) : ∃ r, s = PyPath.rstrip_slashes s +:+ r.
Proof.
  induction s as [|c s [r IH]]; [by exists ""|]. simpl.
  destruct (PyPath.rstrip_slashes s) as [|a t] eqn:Hs.
  - destruct (decide (c = "/"%char)).
    + eexists. by rewrite app_empty_l.
    + exists r. rewrite app_cons. f_equal. by rewrite app_empty_l in IH.
  - exists r. rewrite app_cons. by f_equal.
Qed.

(** The head of a split opens the path, and the tail closes it. *)
Lemma split_prefix (p head tail : string) :
  PyPath.split p = (head, tail) → ∃ mid, p = head +:+ mid +:+ tail.
Proof.
  unfold PyPath.split. pose proof (cut_app p) as Hcut.
  destruct (PyPath.cut p) as [h t]. simpl in Hcut. intros [= <- <-].
  destruct (PyStr.truthy h && negb (PyPath.only_slashes h)).
  - destruct (rstrip_slashes_prefix h) as [r Hr]. exists r.
    by rewrite <- app_assoc_str, <- Hr.
  - exists "". by rewrite app_empty_l.
Qed.

(** The head that [os.makedirs] makes first opens the path and is shorter
    than it by the last part at least. *)
Lemma head_tail_prefix (name head tail : string) :
  head_tail name = (head, tail) →
  ∃ rest, name = head +:+ rest ∧ PyStr.len tail ≤ PyStr.len rest.
Proof.
  unfold head_tail. destruct (PyPath.split name) as [h t] eqn:Hsplit.
  apply split_prefix in Hsplit as [mid ->]. destruct (PyStr.truthy t).
  - intros [= <- <-]. eexists. split; [reflexivity|]. rewrite len_app. lia.
  - intros [mid2 ->]%split_prefix. exists (mid2 +:+ tail +:+ mid +:+ t).
    split; [by rewrite !app_assoc_str|]. rewrite !len_app. lia.
Qed.

Lemma truthy_len (s : string) : PyStr.truthy s = true → 0 < PyStr.len s.
Proof. destruct s; [done|]. simpl. lia. Qed.

Lemma exists_at_emit (path : string) (e : event) s :
  exists_at path (emit e s) = exists_at path s.
Proof. done. Qed.

(** [os.mkdir] adds the one directory, when it adds any. *)
Lemma mkdir_run (path : string) s (r : outcome unit) s' :
  mkdir path s = (r, s') →
  world s' = world s ∧ files s' = files s ∧ log_file s' = log_file s
  ∧ trace s' = trace s
  ∧ match r with
    | Ok _ => path ≠ "" ∧ exists_at path s = false ∧ dirs s' = {[path]} ∪ dirs s
    | Raise e =>
        s' = s
        ∧ (e = FileNotFoundError ∧ path = ""
           ∨ e = FileExistsError ∧ path ≠ "" ∧ exists_at path s = true)
    end.
Proof.
  unfold mkdir. destruct (decide (path = "")) as [->|Hpath].
  - intros [= <- <-]. repeat split. by left.
  - destruct (exists_at path s) eqn:Hex; intros [= <- <-]; repeat split; [|done..].
    by right.
Qed.

Lemma mkdir_on_the_way (name : string) s (r : outcome unit) s' :
  mkdir name s = (r, s') → made_on_the_way name s s'.
Proof.
  intros (Hw & Hf & Hl & Ht & Hr)%mkdir_run. repeat (split; [done|]).
  destruct r as [[]|e].
  - destruct Hr as (Hne & _ & ->). split; [set_solver|].
    intros d [->%elem_of_singleton|Hd]%elem_of_union; [right|by left].
    split; [done|]. exists "". by rewrite app_empty_r.
  - destruct Hr as [-> _]. split; [done|]. by left.
Qed.

(** What [os.makedirs] does to the state: it adds directories on the way
    to the path and touches nothing else. *)
Lemma makedirs_from_footprint (fuel : nat) (name : string) s (r : outcome unit) s' :
  makedirs_from fuel name s = (r, s') → made_on_the_way name s s'.
Proof.
  revert name s r s'. induction fuel as [|fuel IH]; intros name s r s'.
  { cbn [makedirs_from]. destruct (head_tail name). apply mkdir_on_the_way. }
  cbn [makedirs_from]. destruct (head_tail name) as [head tail] eqn:Hsplit.
  apply head_tail_prefix in Hsplit as (rest & -> & _).
  destruct (PyStr.truthy head && PyStr.truthy tail); [|apply mkdir_on_the_way].
  rewrite bind_run. unfold path_exists.
  destruct (exists_at head s); cbn [negb]; [apply mkdir_on_the_way|].
  rewrite bind_run. unfold except_pass.
  destruct (makedirs_from fuel head s) as [r1 s1] eqn:Hhead.
  apply IH in Hhead as (Hw1 & Hf1 & Hl1 & Ht1 & Hd1 & Hnew1).
  assert (Hfirst : made_on_the_way (head +:+ rest) s s1).
  { repeat (split; [done|]). intros d [?|[? [rest' ->]]]%Hnew1; [by left|right].
    split; [done|]. exists (rest' +:+ rest). by rewrite app_assoc_str. }
  assert (Hgo : (if decide (tail = ".") then mret () else mkdir (head +:+ rest)) s1 = (r, s') →
                made_on_the_way (head +:+ rest) s s').
  { destruct (decide (tail = ".")); [by intros [= <- <-]|].
    intros (Hw & Hf & Hl & Ht & Hd & Hnew2)%mkdir_on_the_way.
    split; [congruence|]. split; [congruence|]. split; [congruence|].
    split; [congruence|]. split; [set_solver|].
    intros d [?|?]%Hnew2; [by apply Hfirst|by right]. }
  destruct r1 as [[]|e]; [exact Hgo|].
  destruct (decide (e = FileExistsError)); [exact Hgo|by intros [= <- <-]].
Qed.

(** [os.makedirs] of a path that is not empty and at which nothing exists
    returns; afterwards the path is a directory, unless its last part is
    the dot, and its head is a directory or was there before, unless the
    last part of the head is the dot. *)
Lemma makedirs_from_absent (fuel : nat) (name : string) s :
  PyStr.len name ≤ fuel → name ≠ "" → exists_at name s = false →
  ∃ s', makedirs_from fuel name s = (Ok (), s')
    ∧ ((head_tail name).2 ≠ "." → name ∈ dirs s')
    ∧ ((head_tail name).1 ≠ "" → (head_tail name).2 ≠ "" →
       (head_tail (head_tail name).1).2 ≠ "." →
       (head_tail name).1 ∈ dirs s' ∨ exists_at (head_tail name).1 s = true).
Proof.
  revert name s. induction fuel as [|fuel IH]; intros name s Hfuel Hname Habsent.
  { destruct name; [done|]. simpl in Hfuel. lia. }
  assert (Hlast : ∀ s0, exists_at name s0 = false → dirs s ⊆ dirs s0 →
    (PyStr.truthy (head_tail name).1 && PyStr.truthy (head_tail name).2 = true →
     (head_tail (head_tail name).1).2 ≠ "." →
     (head_tail name).1 ∈ dirs s0 ∨ exists_at (head_tail name).1 s = true) →
    ∃ s', mkdir name s0 = (Ok (), s')
      ∧ ((head_tail name).2 ≠ "." → name ∈ dirs s')
      ∧ ((head_tail name).1 ≠ "" → (head_tail name).2 ≠ "" →
         (head_tail (head_tail name).1).2 ≠ "." →
         (head_tail name).1 ∈ dirs s' ∨ exists_at (head_tail name).1 s = true)).
  { intros s0 Habsent0 Hd0 Hhead. unfold mkdir.
    rewrite decide_False, Habsent0 by done. eexists. split; [reflexivity|].
    split; [intros _; set_solver|]. intros H1 H2 Hdot.
    destruct Hhead as [Hin|Hwas]; [by destruct (head_tail name) as [[] []]|done| |by right].
    left. simpl. set_solver. }
  cbn [makedirs_from]. destruct (head_tail name) as [head tail] eqn:Hsplit.
  cbn [fst snd] in *.
  pose proof (head_tail_prefix _ _ _ Hsplit) as (rest & Hrest & Hlen).
  destruct (PyStr.truthy head && PyStr.truthy tail) eqn:Hboth.
  2:{ apply Hlast; [done..|]. by intros. }
  apply andb_true_iff in Hboth as [Hhead Htail].
  pose proof (truthy_len _ Htail) as Htail_len.
  assert (Hshorter : PyStr.len head < PyStr.len name).
  { rewrite Hrest, len_app. lia. }
  rewrite bind_run. unfold path_exists.
  destruct (exists_at head s) eqn:Hpresent; cbn [negb].
  { apply Hlast; [done..|]. intros _ _. by right. }
  destruct (IH head s) as (s1 & Hmade & Hin1 & _); [lia|by destruct head|done|].
  pose proof (makedirs_from_footprint _ _ _ _ _ Hmade) as (_ & Hf1 & _ & _ & Hd1 & Hnew1).
  rewrite bind_run. unfold except_pass. rewrite Hmade.
  assert (Habsent1 : exists_at name s1 = false).
  { unfold exists_at in *. rewrite bool_decide_eq_false in *. rewrite Hf1.
    intros [_ [Hd|Hother]]; [|apply Habsent; by split; [|right]].
    apply Hnew1 in Hd as [Hd|[_ [rest' Hd]]]; [apply Habsent; split; [done|by left]|].
    apply (f_equal PyStr.len) in Hd. rewrite len_app in Hd. lia. }
  destruct (decide (tail = ".")) as [->|Hdot].
  - exists s1. split; [done|]. split; [done|]. intros _ _ Hdot. left. by apply Hin1.
  - apply Hlast; [done..|]. intros _ Hdot'. left. by apply Hin1.
Qed.

Lemma csv_writes_makedirs (tr : list event) (path : string) :
  csv_writes (tr ++ [MakeDirs path]) = csv_writes tr.
Proof. by rewrite csv_writes_snoc, app_nil_r. Qed.

Lemma record_writes_makedirs (tr : list event) (path : string) :
  record_writes (tr ++ [MakeDirs path]) = record_writes tr.
Proof. by rewrite record_writes_snoc, app_nil_r. Qed.

(** Lines 159-160: [os.makedirs] is called exactly when nothing is at the
    path; the call returns unless the path is empty; directories are only
    added, on the way to the path. *)
Lemma ensure_dir_run (out : string) s :
  ∃ (r0 : outcome unit) s0, ensure_dir out s = (r0, s0)
    ∧ files s0 = files s ∧ world s0 = world s ∧ log_file s0 = log_file s
    ∧ csv_writes (trace s0) = csv_writes (trace s)
    ∧ record_writes (trace s0) = record_writes (trace s)
    ∧ trace s0 = trace s ++ (if exists_at out s then [] else [MakeDirs out])
    ∧ dirs s ⊆ dirs s0
    ∧ (∀ d, d ∈ dirs s0 → d ∈ dirs s ∨ (d ≠ "" ∧ ∃ rest, out = d +:+ rest))
    ∧ (exists_at out s = true → r0 = Ok () ∧ s0 = s)
    ∧ (out = "" → r0 = Raise FileNotFoundError ∧ dirs s0 = dirs s)
    ∧ (out ≠ "" → r0 = Ok ())
    ∧ (out ≠ "" → exists_at out s = false →
         ((head_tail out).2 ≠ "." → out ∈ dirs s0)
         ∧ ((head_tail out).1 ≠ "" → (head_tail out).2 ≠ "" →
            (head_tail (head_tail out).1).2 ≠ "." →
            (head_tail out).1 ∈ dirs s0 ∨ exists_at (head_tail out).1 s = true)).
Proof.
  unfold ensure_dir. rewrite bind_run. unfold path_exists.
  destruct (exists_at out s) eqn:Hpresent; cbn [negb].
  - exists (Ok ()), s. rewrite app_nil_r. repeat (split; [done|]).
    split; [by left|]. split; [done|]. split; [|done].
    intros ->. unfold exists_at in Hpresent. by case_bool_decide as Hex; [destruct Hex|].
  - unfold makedirs.
    destruct (makedirs_from (PyStr.len out) out (emit (MakeDirs out) s)) as [r0 s0] eqn:Hmade.
    pose proof (makedirs_from_footprint _ _ _ _ _ Hmade) as (Hw & Hf & Hl & Ht & Hd & Hnew).
    exists r0, s0. split; [done|]. split; [done|]. split; [done|]. split; [done|].
    cbn [emit trace] in Ht.
    split; [by rewrite Ht, csv_writes_makedirs|].
    split; [by rewrite Ht, record_writes_makedirs|].
    split; [done|]. split; [done|]. split; [done|]. split; [done|]. split; [|split].
    + intros ->. cbn in Hmade. by injection Hmade as <- <-.
    + intros Hout.
      destruct (makedirs_from_absent (PyStr.len out) out (emit (MakeDirs out) s))
        as (s0' & Hmade' & _); [done..|]. congruence.
    + intros Hout _.
      destruct (makedirs_from_absent (PyStr.len out) out (emit (MakeDirs out) s))
        as (s0' & Hmade' & Hin & Hhead); [done..|].
      rewrite Hmade in Hmade'. injection Hmade' as _ <-. by split.
Qed.

Lemma write_summary_run (out : string) results s :
  ∃ s', write_summary out results s = (Ok (), s') ∧ world s' = world s
    ∧ record_writes (trace s') = record_writes (trace s)
    ∧ match results with
      | [] => files s' = files s ∧ csv_writes (trace s') = csv_writes (trace s)
      | _ :: _ =>
          files s' = <[csv_path out (now (world s)) := to_csv (summary_data results) false]> (files s)
          ∧ csv_writes (trace s')
            = csv_writes (trace s)
              ++ [(csv_path out (now (world s)), to_csv (summary_data results) false)]
      end.
Proof.
  destruct results as [|item results]; [by exists s|].
  unfold write_summary. rewrite bind_run. unfold timestamp. rewrite bind_run.
  match goal with |- context [write_file ?p ?f s] =>
    destruct (write_file_run p f s) as (s1 & -> & Hf1 & _ & Hw1 & Hc1 & Hr1) end.
  match goal with |- context [log INFO ?m s1] =>
    destruct (log_quiet INFO m s1) as (s2 & -> & (Hf2 & _ & Hc2 & Hr2) & Hw2 & _) end.
  cbn in Hc1, Hr1. rewrite app_nil_r in Hr1.
  exists s2. split; [done|]. split; [congruence|]. split; [congruence|].
  split; [congruence|]. by rewrite Hc2, Hc1.
Qed.

(** The run as a whole, in terms of its loop. *)
Lemma scrape_keywords_run (keywords : list string) (out : string) s :
  ∃ (r0 : outcome unit) s0, ensure_dir out s = (r0, s0)
    ∧ files s0 = files s ∧ world s0 = world s
    ∧ csv_writes (trace s0) = csv_writes (trace s)
    ∧ record_writes (trace s0) = record_writes (trace s)
    ∧ scrape_keywords keywords out s
      = match r0 with
        | Raise e => (Raise e, s0)
        | Ok _ =>
            match scrape_loop out keywords [] s0 with
            | (Ok results, s1) =>
                match write_summary out results s1 with
                | (Ok _, s2) => (Ok results, s2)
                | (Raise e, s2) => (Raise e, s2)
                end
            | (Raise e, s1) => (Raise e, s1)
            end
        end.
Proof.
  destruct (ensure_dir_run out s) as (r0 & s0 & Hdir & Hf & Hw & _ & Hc & Hr & _).
  exists r0, s0. do 5 (split; [done|]).
  unfold scrape_keywords. rewrite bind_run, Hdir. destruct r0 as [[]|e]; [|done].
  rewrite bind_run.
  destruct (scrape_loop out keywords [] s0) as [[results|e] s1]; [|done].
  rewrite bind_run. by destruct (write_summary out results s1) as [[[]|e] s2].
Qed.

Lemma sublist_same_length {A : Type} (l1 l2 : list A) :
  l1 `sublist_of` l2 → length l2 ≤ length l1 → l1 = l2.
Proof.
  induction 1 as [|x l1 l2 _ IH|x l1 l2 Hsub _]; simpl; intros Hlen.
  - done.
  - f_equal. apply IH. lia.
  - apply sublist_length in Hsub. lia.
Qed.

Lemma last_char_app (s t : string) : t ≠ "" → last_char (s +:+ t) = last_char t.
Proof.
  intros Ht. induction s as [|c s IH]; [done|].
  rewrite app_cons. simpl. rewrite IH. destruct t; [done|]. simpl.
  by destruct (last_char t).
Qed.

Lemma json_path_not_csv_path (out k stamp : string) : json_path out k ≠ csv_path out stamp.
Proof.
  intros Heq. apply (f_equal last_char) in Heq. revert Heq.
  unfold json_path, csv_path. rewrite <- !app_assoc_str.
  by rewrite !last_char_app.
Qed.

(** ** C7: a page that cannot be fetched *)

(** C7: when the address found for a keyword answers with a status other
    than 200, the extractor logs an error and returns none; the loop then
    goes on with the remaining keywords and the same results, having
    written no file. *)
Theorem C7_fetch_failure (out k : string) (rest : list string) results s s1
    (u : string) (resp : response) (w : World) :
  search_wikipedia k s = (Ok (Some u), s1) →
  http_get u (world s1) = (Ok resp, w) →
  status_code resp ≠ 200%Z →
  ∃ s2 s3,
    get_article_content u s1 = (Ok None, s2)
    ∧ trace s2 = trace s1 ++
        [Log INFO ("Fetching content from: " +:+ u); Request u;
         Log ERROR ("Failed to retrieve article: " +:+ PyStr.of_int (status_code resp))]
    ∧ no_file_written s s3
    ∧ trace s3 = trace s2 ++ [Sleep 1]
    ∧ scrape_loop out (k :: rest) results s = scrape_loop out rest results s3.
Proof.
  intros Hsearch Hget Hstatus.
  destruct (search_wikipedia_inv _ _ _ _ Hsearch) as [Hq1 Htruthy].
  destruct (get_article_content_run _ _ _ _ Hget) as (s1' & _ & _ & Ht1 & Hrun).
  rewrite decide_True in Hrun by done.
  destruct Hrun as (s2 & Hfetch & Hq2 & _ & Ht2).
  destruct (sleep_quiet 1 s2) as (s3 & Hsleep & Hq3 & Ht3 & _).
  exists s2, s3. split; [done|].
  split; [by rewrite Ht2, Ht1, <- app_assoc|].
  split; [eauto using no_file_written_trans|]. split; [done|].
  cbn [scrape_loop]. rewrite bind_run, Hsearch, bind_run.
  unfold scrape_one. rewrite (Htruthy u eq_refl), bind_run, Hfetch.
  cbn [mret M_ret]. by rewrite bind_run, Hsleep.
Qed.

(** ** C9: a page without its main heading *)

(** C9, amended: when a keyword's page arrives with status 200 but holds no
    element with the id firstHeading, the extractor raises the attribute
    fault right after the request, and so does the whole run: the keywords
    that follow are not processed and nothing more happens. *)
Theorem C9_missing_first_heading (out : string) (before : list string) (k : string)
    (rest : list string) results s s0 sk s1 (u : string) (resp : response) (w : World) :
  ensure_dir out s = (Ok (), s0) →
  scrape_loop out before [] s0 = (Ok results, sk) →
  search_wikipedia k sk = (Ok (Some u), s1) →
  http_get u (world s1) = (Ok resp, w) →
  status_code resp = 200%Z →
  select_one sel_first_heading (resp_soup resp) = None →
  ∃ s2,
    get_article_content u s1 = (Raise AttributeError, s2)
    ∧ trace s2 = trace s1 ++ [Log INFO ("Fetching content from: " +:+ u); Request u]
    ∧ scrape_keywords (before ++ k :: rest) out s = (Raise AttributeError, s2).
Proof.
  intros Hdir Hbefore Hsearch Hget Hstatus Hheading.
  destruct (search_wikipedia_inv _ _ _ _ Hsearch) as [_ Htruthy].
  destruct (get_article_content_run _ _ _ _ Hget) as (s2 & _ & _ & Ht2 & Hrun).
  rewrite decide_False in Hrun by (by intros []).
  unfold extract_article, extract_title in Hrun. rewrite Hheading in Hrun.
  exists s2. split; [done|]. split; [done|].
  destruct (scrape_keywords_run (before ++ k :: rest) out s)
    as (r0 & s0' & Hdir' & _ & _ & _ & _ & ->).
  rewrite Hdir in Hdir'. injection Hdir' as <- <-.
  rewrite scrape_loop_app, Hbefore.
  cbn [scrape_loop]. rewrite bind_run, Hsearch, bind_run.
  unfold scrape_one. by rewrite (Htruthy u eq_refl), bind_run, Hrun.
Qed.

(** ** C8: the summary table *)

(** C8, amended: a run that returns its results has saved one record file
    per result and has written no summary table when there are no results
    and exactly one when there are some: a file named with the time stamp,
    with the header row keyword, title, url, summary, without an index
    column, and with one row per result; a run that a fault aborts has
    written no summary table. *)
Theorem C8_summary_file (keywords : list string) (out : string) s
    (r : outcome (list result_item)) s' :
  scrape_keywords keywords out s = (r, s') →
  (∀ results, r = Ok results →
     record_writes (trace s') = record_writes (trace s) ++ (record_file out <$> results)
     ∧ (results = [] → csv_writes (trace s') = csv_writes (trace s))
     ∧ (results ≠ [] →
          let table := Csv ["keyword"; "title"; "url"; "summary"]
                           (cells <$> summary_data results) in
          let path := out +:+ "/wikipedia_summary_" +:+ now (world s') +:+ ".csv" in
          csv_writes (trace s') = csv_writes (trace s) ++ [(path, table)]
          ∧ files s' !! path = Some table))
  ∧ (∀ e, r = Raise e → csv_writes (trace s') = csv_writes (trace s)).
Proof.
  destruct (scrape_keywords_run keywords out s) as (r0 & s0 & _ & _ & _ & Hc0 & Hr0 & ->).
  destruct r0 as [[]|e0]; [|by intros [= <- <-]].
  destruct (scrape_loop out keywords [] s0) as [[results|e] s1] eqn:Hloop;
    apply scrape_loop_inv in Hloop as [Hc1 Hnew].
  - destruct (Hnew _ eq_refl) as (new & Hresults & _ & Hr1 & _). simpl in Hresults. subst new.
    destruct (write_summary_run out results s1) as (s2 & -> & Hw2 & Hr2 & Hsum).
    intros [= <- <-]. split; [|done]. intros ? [= <-].
    split; [congruence|]. destruct results as [|item results].
    + destruct Hsum as [_ Hc2]. split; [congruence|done].
    + destruct Hsum as [Hf2 Hc2]. split; [done|]. intros _. cbv zeta. split.
      * rewrite Hc2, Hc1, Hc0, Hw2. reflexivity.
      * rewrite Hf2, Hw2. apply lookup_insert_eq.
  - intros [= <- <-]. split; [done|]. intros _ _. congruence.
Qed.

(** ** C10: keywords that share a file name *)

(** C10: the keywords "AI" and "A.I." differ and have the same derived
    name; and whenever two keywords with the same derived name are both
    scraped in one run, both records are written to the same path and the
    file ends up holding the record of the second keyword only. *)
Theorem C10_filename_collision :
  ("AI" ≠ "A.I." ∧ safe_filename "AI" = safe_filename "A.I.")
  ∧ ∀ (k1 k2 out : string) s s' (item1 item2 : result_item),
      safe_filename k1 = safe_filename k2 →
      scrape_keywords [k1; k2] out s = (Ok [item1; item2], s') →
      keyword item1 = k1 ∧ keyword item2 = k2
      ∧ record_writes (trace s')
        = record_writes (trace s) ++ [(json_path out k1, [item1]); (json_path out k1, [item2])]
      ∧ files s' !! json_path out k1 = Some (JsonLines [item2]).
Proof.
  split; [by split|].
  intros k1 k2 out s s' item1 item2 Hsame.
  assert (Hpath : json_path out k2 = json_path out k1).
  { unfold json_path. by rewrite Hsame. }
  destruct (scrape_keywords_run [k1; k2] out s) as (r0 & s0 & _ & _ & _ & _ & Hr0 & ->).
  destruct r0 as [[]|e0]; [|done].
  destruct (scrape_loop out [k1; k2] [] s0) as [[results|e] s1] eqn:Hloop; [|done].
  apply scrape_loop_inv in Hloop as [_ Hnew].
  destruct (Hnew _ eq_refl) as (new & Hresults & Hsub & Hr1 & Hf1). simpl in Hresults. subst new.
  destruct (write_summary_run out results s1) as (s2 & -> & _ & Hr2 & Hsum).
  intros [= -> <-].
  apply sublist_same_length in Hsub; [|done]. injection Hsub as Hk1 Hk2.
  destruct Hsum as [Hf2 _].
  split; [done|]. split; [done|]. split.
  - rewrite Hr2, Hr1, Hr0. unfold record_file. simpl. by rewrite Hk1, Hk2, Hpath.
  - rewrite Hf2, lookup_insert_ne by (symmetry; apply json_path_not_csv_path).
    rewrite Hf1. unfold save_all. simpl. rewrite Hk1, Hk2, Hpath.
    by rewrite lookup_insert_eq.
Qed.

End Runs.

(** ** The properties on the demo site *)

Section OnDemo.

#[local] Existing Instance Demo.env.

(** [os.makedirs] at work: the directories above the path are made with
    it, one call of [os.mkdir] each; a path that ends in a slash is made
    as given; at the empty path the call raises. *)
Example makedirs_makes_the_parents :
  let made := makedirs "a/b/c" Demo.start in
  made.1 = Ok ()
  ∧ dirs made.2 = {["a"; "a/b"; "a/b/c"]}
  ∧ trace made.2 = [MakeDirs "a/b/c"].
Proof. by vm_compute. Qed.

Example makedirs_trailing_slash :
  let made := makedirs "a/b/" Demo.start in
  made.1 = Ok () ∧ dirs made.2 = {["a"; "a/b/"]}.
Proof. by vm_compute. Qed.

Example makedirs_empty_path :
  (makedirs "" Demo.start).1 = Raise FileNotFoundError
  ∧ (scrape_keywords ["AI"] "" Demo.start).1 = Raise FileNotFoundError
  ∧ trace (scrape_keywords ["AI"] "" Demo.start).2 = [MakeDirs ""].
Proof. by vm_compute. Qed.

Example split_paths :
  PyPath.split "a/b/c" = ("a/b", "c")
  ∧ PyPath.split "a/b/" = ("a/b", "")
  ∧ PyPath.split "/a" = ("/", "a")
  ∧ PyPath.split "a//b" = ("a", "b")
  ∧ PyPath.split "abc" = ("", "abc")
  ∧ PyPath.split "//" = ("//", "").
Proof. by vm_compute. Qed.

(** C7 on the keyword whose page answers 404. *)
Lemma C7_fetch_failure_witness :
  let s := Demo.start in
  let u := "https://en.wikipedia.org/wiki/Gone" in
  let s1 := (search_wikipedia "Gone" s).2 in
  search_wikipedia "Gone" s = (Ok (Some u), s1)
  ∧ http_get u (world s1) = (Ok (Demo.site u), ())
  ∧ status_code (Demo.site u) ≠ 200%Z
  ∧ ∃ s2 s3,
      get_article_content u s1 = (Ok None, s2)
      ∧ trace s2 = trace s1 ++
          [Log INFO ("Fetching content from: " +:+ u); Request u;
           Log ERROR ("Failed to retrieve article: " +:+ PyStr.of_int (status_code (Demo.site u)))]
      ∧ no_file_written s s3
      ∧ trace s3 = trace s2 ++ [Sleep 1]
      ∧ scrape_loop "output" ["Gone"; "AI"] [] s = scrape_loop "output" ["AI"] [] s3.
Proof.
  intros s u s1.
  assert (Hstatus : status_code (Demo.site u) ≠ 200%Z) by (vm_compute; discriminate).
  split; [reflexivity|]. split; [reflexivity|]. split; [exact Hstatus|].
  exact (C7_fetch_failure "output" "Gone" ["AI"] [] s s1 u (Demo.site u) ()
           eq_refl eq_refl Hstatus).
Defined.

(** C9 on the keyword whose page has no main heading. *)
Lemma C9_missing_first_heading_witness :
  let s := Demo.start in
  let s0 := (ensure_dir "output" s).2 in
  let u := "https://en.wikipedia.org/wiki/Bare" in
  let s1 := (search_wikipedia "Bare" s0).2 in
  ensure_dir "output" s = (Ok (), s0)
  ∧ scrape_loop "output" [] [] s0 = (Ok [], s0)
  ∧ search_wikipedia "Bare" s0 = (Ok (Some u), s1)
  ∧ http_get u (world s1) = (Ok (Demo.site u), ())
  ∧ status_code (Demo.site u) = 200%Z
  ∧ select_one sel_first_heading (resp_soup (Demo.site u)) = None
  ∧ ∃ s2,
      get_article_content u s1 = (Raise AttributeError, s2)
      ∧ trace s2 = trace s1 ++ [Log INFO ("Fetching content from: " +:+ u); Request u]
      ∧ scrape_keywords ([] ++ "Bare" :: ["AI"]) "output" s = (Raise AttributeError, s2).
Proof.
  intros s s0 u s1. repeat (split; [reflexivity|]).
  exact (C9_missing_first_heading "output" [] "Bare" ["AI"] [] s s0 s0 s1 u (Demo.site u) ()
           eq_refl eq_refl eq_refl eq_refl eq_refl eq_refl).
Defined.

(** C9, as stated: the page of "Made" arrives with the status 201, which is
    a success, and has no main heading; the extractor logs an error and
    returns none instead of raising, and the run goes on to "AI" and
    returns its record. *)
Lemma C9_created_status_counterexample :
  let u := "https://en.wikipedia.org/wiki/Made" in
  let fetch := get_article_content u Demo.start in
  let run := scrape_keywords ["Made"; "AI"] "output" Demo.start in
  http_get u (world Demo.start) = (Ok (Demo.site u), ())
  ∧ status_code (Demo.site u) = 201%Z
  ∧ success (status_code (Demo.site u)) = true
  ∧ select_one sel_first_heading (resp_soup (Demo.site u)) = None
  ∧ fetch.1 = Ok None
  ∧ trace fetch.2
    = [Log INFO "Fetching content from: https://en.wikipedia.org/wiki/Made"; Request u;
       Log ERROR "Failed to retrieve article: 201"]
  ∧ (∃ item, run.1 = Ok [item] ∧ keyword item = "AI")
  ∧ ¬ title_fault_on_success.
Proof.
  intros u fetch run.
  assert (Hfetch : fetch.1 = Ok None) by (vm_compute; reflexivity).
  repeat (split; [reflexivity || exact Hfetch|]).
  split; [eexists; split; vm_compute; reflexivity|].
  intros Hfault.
  destruct (Hfault u Demo.start (Demo.site u) () eq_refl eq_refl eq_refl) as [s' Hraise].
  unfold fetch in Hfetch. rewrite Hraise in Hfetch. discriminate Hfetch.
Qed.

(** C5 on the demo article. *)
Lemma C5_summary_witness :
  let s := Demo.start in
  let u := "https://en.wikipedia.org/wiki/AI" in
  let fetch := get_article_content u s in
  http_get u (world s) = (Ok (Demo.site u), ())
  ∧ ∃ a, fetch = (Ok (Some a), fetch.2)
    ∧ let paragraphs := select sel_content_paragraphs (resp_soup (Demo.site u)) in
      let eligible p := stripped_text p ≠ "" ∧ contains_tag "img" p = false in
      (∃ skipped p rest,
          paragraphs = skipped ++ p :: rest
          ∧ Forall (λ q, ¬ eligible q) skipped
          ∧ eligible p
          ∧ summary a = stripped_text p)
      ∨ (Forall (λ q, ¬ eligible q) paragraphs ∧ summary a = "").
Proof.
  intros s u fetch. split; [reflexivity|]. unfold fetch.
  assert (∃ a s', get_article_content u s = (Ok (Some a), s'))
    as (a & s' & Hfetch) by (vm_compute; by eexists _, _).
  rewrite Hfetch. exists a. split; [reflexivity|].
  exact (C5_summary u s (Demo.site u) () a s' eq_refl Hfetch).
Defined.

(** C8, as stated: the run over "AI" and "Bare" saves the record of "AI",
    is then aborted by the page of "Bare", and writes no summary table
    although a record was produced. *)
Lemma C8_aborted_run_counterexample :
  let run := scrape_keywords ["AI"; "Bare"] "output" Demo.start in
  run.1 = Raise AttributeError
  ∧ (∃ item, record_writes (trace run.2) = [("output/ai.json", [item])]
       ∧ files run.2 !! "output/ai.json" = Some (JsonLines [item]))
  ∧ csv_writes (trace run.2) = []
  ∧ ¬ (csv_writes (trace run.2) ≠ [] ↔ record_writes (trace run.2) ≠ []).
Proof.
  intros run.
  assert (Hcsv : csv_writes (trace run.2) = []) by (vm_compute; reflexivity).
  split; [vm_compute; reflexivity|]. split; [|split; [exact Hcsv|]].
  - eexists. split; vm_compute; reflexivity.
  - intros [_ Hiff]. apply Hiff; [|exact Hcsv]. vm_compute. discriminate.
Qed.

(** C8 on a run with one record and one page that cannot be fetched. *)
Lemma C8_summary_file_witness :
  let run := scrape_keywords ["AI"; "Gone"] "output" Demo.start in
  scrape_keywords ["AI"; "Gone"] "output" Demo.start = (run.1, run.2)
  ∧ (∀ results, run.1 = Ok results →
       record_writes (trace run.2)
       = record_writes (trace Demo.start) ++ (record_file "output" <$> results)
       ∧ (results = [] → csv_writes (trace run.2) = csv_writes (trace Demo.start))
       ∧ (results ≠ [] →
            let table := Csv ["keyword"; "title"; "url"; "summary"]
                             (cells <$> summary_data results) in
            let path := "output" +:+ "/wikipedia_summary_" +:+ now (world run.2) +:+ ".csv" in
            csv_writes (trace run.2) = csv_writes (trace Demo.start) ++ [(path, table)]
            ∧ files run.2 !! path = Some table))
    ∧ (∀ e, run.1 = Raise e → csv_writes (trace run.2) = csv_writes (trace Demo.start)).
Proof.
  intros run.
  assert (Hrun : scrape_keywords ["AI"; "Gone"] "output" Demo.start = (run.1, run.2))
    by apply surjective_pairing.
  split; [exact Hrun|].
  exact (C8_summary_file ["AI"; "Gone"] "output" Demo.start run.1 run.2 Hrun).
Defined.

(** C10 on the run over "AI" and "A.I.". *)
Lemma C10_filename_collision_witness :
  let s := Demo.start in
  let run := scrape_keywords ["AI"; "A.I."] "output" s in
  safe_filename "AI" = safe_filename "A.I."
  ∧ ∃ item1 item2,
      run = (Ok [item1; item2], run.2)
      ∧ keyword item1 = "AI" ∧ keyword item2 = "A.I."
      ∧ record_writes (trace run.2)
        = record_writes (trace s)
          ++ [(json_path "output" "AI", [item1]); (json_path "output" "AI", [item2])]
      ∧ files run.2 !! json_path "output" "AI" = Some (JsonLines [item2]).
Proof.
  intros s run. split; [reflexivity|]. unfold run.
  assert (∃ item1 item2 s',
            scrape_keywords ["AI"; "A.I."] "output" s = (Ok [item1; item2], s'))
    as (item1 & item2 & s' & Hrun) by (vm_compute; by eexists _, _, _).
  rewrite Hrun. exists item1, item2. split; [reflexivity|].
  exact (proj2 C10_filename_collision "AI" "A.I." "output" s s' item1 item2 eq_refl Hrun).
Defined.

End OnDemo.

(* ===================================================================== *)
(** * Part III: further properties *)
(* ===================================================================== *)

(** ** More on the derived file name *)

Lemma chars_smap (f : ascii → ascii) (s : string) : chars (PyStr.smap f s) = f <$> chars s.
Proof. induction s as [|c s IH]; [done|]. simpl. by rewrite IH. Qed.

Lemma chars_sfilter (p : ascii → bool) (s : string) :
  chars (PyStr.sfilter p s) = filter (λ c, p c = true) (chars s).
Proof.
  induction s as [|c s IH]; [done|]. simpl. destruct (p c) eqn:Hp.
  - by rewrite filter_cons_True, <- IH.
  - rewrite filter_cons_False; [done|]. by rewrite Hp.
Qed.

Lemma chars_empty (s : string) : chars s = [] ↔ s = "".
Proof. by destruct s. Qed.

(** The derived name as a map over a filter (the steps of line 173). *)
Lemma safe_filename_map_filter (keyword : string) :
  safe_filename keyword
  = PyStr.smap (λ c, PyStr.lower_char (if decide (c = " "%char) then "_"%char else c))
      (PyStr.sfilter (λ c, PyStr.is_word c || PyStr.is_space c) keyword).
Proof.
  unfold safe_filename, PyStr.lower.
  change " " with (String " "%char "") at 1.
  change "_" with (String "_"%char "").
  rewrite replace_char, re_sub_class_empty, smap_smap.
  f_equal. apply sfilter_ext. intros c. unfold PyStr.not_word_not_space.
  by rewrite negb_involutive.
Qed.

(** What line 173 does to one character that it keeps. *)
Lemma kept_char (c : ascii) :
  PyStr.is_word c || PyStr.is_space c = true →
  let c' := PyStr.lower_char (if decide (c = " "%char) then "_"%char else c) in
  c' ≠ " "%char ∧ c' ≠ "/"%char ∧ c' ≠ "\"%char ∧ c' ≠ "."%char
  ∧ PyStr.in_range 65 90 c' = false.
Proof.
  destruct c as [[] [] [] [] [] [] [] []]; intros Hkept;
    try discriminate Hkept; vm_compute; repeat split; discriminate.
Qed.

(** X1: no character of a derived file name is a space, a slash, a
    backslash, a dot or one of the letters A to Z. *)
Theorem X1_safe_filename_characters (keyword : string) (c : ascii) :
  c ∈ chars (safe_filename keyword) →
  c ≠ " "%char ∧ c ≠ "/"%char ∧ c ≠ "\"%char ∧ c ≠ "."%char
  ∧ PyStr.in_range 65 90 c = false.
Proof.
  rewrite safe_filename_map_filter, chars_smap, chars_sfilter.
  intros (c0 & -> & [Hkept _]%list_elem_of_filter)%list_elem_of_fmap.
  exact (kept_char c0 Hkept).
Qed.

(** X1 on the keyword "C++ Programming!" and the character "c". *)
Lemma X1_safe_filename_characters_witness :
  let keyword := "C++ Programming!" in
  let c := "c"%char in
  c ∈ chars (safe_filename keyword)
  ∧ c ≠ " "%char ∧ c ≠ "/"%char ∧ c ≠ "\"%char ∧ c ≠ "."%char
  ∧ PyStr.in_range 65 90 c = false.
Proof.
  intros keyword c.
  assert (Hin : c ∈ chars (safe_filename keyword)) by (vm_compute; by left).
  split; [exact Hin|]. exact (X1_safe_filename_characters keyword c Hin).
Defined.

(** X3: the derived name is empty exactly when the keyword has neither a
    word character nor white space; the record file is then ".json" in the
    output directory. *)
Theorem X3_safe_filename_empty (keyword : string) :
  (safe_filename keyword = ""
   ↔ ∀ c, c ∈ chars keyword → PyStr.is_word c = false ∧ PyStr.is_space c = false)
  ∧ (safe_filename keyword = "" → ∀ out, json_path out keyword = out +:+ "/.json").
Proof.
  split; [|by intros Hempty out; unfold json_path; rewrite Hempty].
  rewrite safe_filename_map_filter.
  induction keyword as [|c k IH]; [by split; [intros _ ? ?%elem_of_nil|]|].
  simpl. destruct (PyStr.is_word c || PyStr.is_space c) eqn:Hkept.
  - split; [done|]. intros Hall. destruct (Hall c) as [Hw Hs]; [by left|].
    by rewrite Hw, Hs in Hkept.
  - rewrite IH. apply orb_false_iff in Hkept. split.
    + intros Hall c' [->|Hin]%elem_of_cons; [done|by apply Hall].
    + intros Hall c' Hin. apply Hall. by right.
Qed.

(** X3 on a keyword of punctuation only. *)
Lemma X3_safe_filename_empty_witness :
  let keyword := "?!" in
  safe_filename keyword = ""
  ∧ (safe_filename keyword = ""
     ↔ ∀ c, c ∈ chars keyword → PyStr.is_word c = false ∧ PyStr.is_space c = false)
  ∧ (safe_filename keyword = "" → ∀ out, json_path out keyword = out +:+ "/.json").
Proof.
  intros keyword. split; [reflexivity|]. exact (X3_safe_filename_empty keyword).
Defined.

(** ** Trimmed text *)

Lemma lstrip_head (s : string) :
  PyStr.lstrip s = "" ∨ ∃ c r, PyStr.lstrip s = String c r ∧ PyStr.is_space c = false.
Proof.
  induction s as [|c s IH]; [by left|]. simpl.
  destruct (PyStr.is_space c) eqn:Hc; [done|]. right. by exists c, s.
Qed.

Lemma rstrip_rstrip (s : string) : PyStr.rstrip (PyStr.rstrip s) = PyStr.rstrip s.
Proof.
  induction s as [|c s IH]; [done|]. simpl.
  destruct (PyStr.rstrip s) as [|d r] eqn:Hr.
  - destruct (PyStr.is_space c) eqn:Hc; [done|]. simpl. by rewrite Hc.
  - simpl. simpl in IH. by rewrite IH.
Qed.

Lemma rstrip_keeps_head (c : ascii) (s : string) :
  PyStr.is_space c = false → ∃ r, PyStr.rstrip (String c s) = String c r.
Proof.
  intros Hc. simpl. destruct (PyStr.rstrip s) as [|d r]; [|by eexists].
  rewrite Hc. by eexists.
Qed.

Lemma strip_trimmed (s : string) : trimmed (PyStr.strip s).
Proof.
  unfold trimmed, PyStr.strip.
  destruct (lstrip_head s) as [->|(c & r & -> & Hc)]; [done|].
  destruct (rstrip_keeps_head c r Hc) as [r' Hr]. rewrite Hr.
  simpl PyStr.lstrip. rewrite Hc, <- Hr. apply rstrip_rstrip.
Qed.

Lemma last_char_rstrip (s : string) (c : ascii) :
  last_char (PyStr.rstrip s) = Some c → PyStr.is_space c = false.
Proof.
  revert c. induction s as [|d s IH]; intros c; [done|]. simpl.
  destruct (PyStr.rstrip s) as [|e r] eqn:Hr.
  - destruct (PyStr.is_space d) eqn:Hd; [done|]. simpl. by intros [= <-].
  - intros Hlast. apply IH. simpl in *. by destruct (last_char r).
Qed.

(** A trimmed string neither starts nor ends with white space. *)
Lemma trimmed_ends (s : string) :
  trimmed s →
  (∀ c r, s = String c r → PyStr.is_space c = false)
  ∧ (∀ c, last_char s = Some c → PyStr.is_space c = false).
Proof.
  unfold trimmed, PyStr.strip. intros Hs. split.
  - intros c r ->. destruct (PyStr.is_space c) eqn:Hc; [|done].
    exfalso. simpl in Hs. rewrite Hc in Hs.
    assert (Hlen : PyStr.len (PyStr.rstrip (PyStr.lstrip r)) ≤ PyStr.len r).
    { clear. transitivity (PyStr.len (PyStr.lstrip r)).
      - generalize (PyStr.lstrip r). intros s. induction s as [|c s IH]; [done|]. simpl.
        destruct (PyStr.rstrip s); [destruct (PyStr.is_space c)|]; simpl in *; lia.
      - induction r as [|c r IH]; [done|]. simpl. destruct (PyStr.is_space c); simpl; lia. }
    rewrite Hs in Hlen. simpl in Hlen. lia.
  - intros c Hlast. rewrite <- Hs in Hlast. by apply last_char_rstrip in Hlast.
Qed.

(** ** More on the fields of a record *)

Lemma Forall_setitem {V : Type} (P : string * V → Prop) (d : dict V) (k : string) (v : V) :
  Forall P d → P (k, v) → Forall P (setitem d k v).
Proof.
  intros Hd Hkv. induction Hd as [|[k' v'] d Hhead Htail IH]; simpl.
  - by constructor.
  - destruct (decide (k' = k)) as [->|Hne]; by constructor.
Qed.

Lemma keys_setitem {V : Type} (d : dict V) (k : string) (v : V) :
  keys (setitem d k v) = if decide (k ∈ keys d) then keys d else keys d ++ [k].
Proof.
  unfold keys. induction d as [|[k' v'] d IH]; [done|]. cbn [setitem].
  destruct (decide (k' = k)) as [->|Hne]; rewrite !fmap_cons; cbn [fst].
  - rewrite decide_True; [done|by left].
  - rewrite IH. destruct (decide (k ∈ d.*1)) as [Hin|Hnin].
    + rewrite decide_True; [done|by right].
    + rewrite decide_False; [done|]. intros [?|?]%elem_of_cons; congruence.
Qed.

Lemma summary_loop_trimmed (paragraphs : list node) : trimmed (summary_loop paragraphs).
Proof.
  induction paragraphs as [|p paragraphs IH]; [done|]. simpl.
  destruct (summary_candidate p); [apply strip_trimmed|done].
Qed.

Lemma infobox_loop_trimmed (rows : list node) (d : dict string) :
  Forall (λ kv, trimmed kv.1 ∧ trimmed kv.2) d →
  Forall (λ kv, trimmed kv.1 ∧ trimmed kv.2) (infobox_loop rows d).
Proof.
  revert d. induction rows as [|row rows IH]; intros d Hd; simpl; [done|].
  destruct (row_cells row) as [[header data]|]; [|by apply IH].
  apply IH, Forall_setitem; [done|]. split; apply strip_trimmed.
Qed.

(** X4: in every record the extractor returns, the title, the summary, the
    keys and values of the infobox, the section names, the references and
    the link texts are trimmed: stripping them again changes nothing. *)
Theorem X4_record_texts_trimmed (address : string) (doc : list node) (a : article_data) :
  extract_article address doc = Ok a →
  trimmed (title a)
  ∧ trimmed (summary a)
  ∧ Forall (λ kv, trimmed kv.1 ∧ trimmed kv.2) (infobox a)
  ∧ Forall trimmed (keys (sections a))
  ∧ Forall trimmed (references a)
  ∧ Forall (λ l, trimmed (link_text l)) (links a).
Proof.
  intros (Htitle & _ & -> & -> & Hsec & -> & -> & _)%extract_article_Ok.
  split; [|split; [|split; [|split; [|split]]]].
  - unfold extract_title in Htitle.
    destruct (select_one sel_first_heading doc); [|done].
    injection Htitle as <-. apply strip_trimmed.
  - apply summary_loop_trimmed.
  - unfold extract_infobox. destruct (select_one sel_infobox doc); [|constructor].
    apply infobox_loop_trimmed. constructor.
  - unfold extract_sections in Hsec.
    destruct (sections_loop_total (select sel_section_elements doc) [] None)
      as (d & Hrun & _ & Hkeys); [by intros ? [=]|apply NoDup_nil_2|].
    rewrite Hrun in Hsec. injection Hsec as <-.
    apply Forall_forall. intros k [[]%elem_of_nil|(h & _ & _ & <-)]%Hkeys.
    apply strip_trimmed.
  - unfold extract_references. apply Forall_fmap, Forall_forall. intros n _.
    apply strip_trimmed.
  - unfold extract_links. apply Forall_forall.
    intros l (n & _ & Hl)%list_elem_of_omap. unfold link_of in Hl.
    destruct (_ && _); [|done]. injection Hl as <-. apply strip_trimmed.
Qed.

(** X4 on the demo page. *)
Lemma X4_record_texts_trimmed_witness :
  let address := "https://en.wikipedia.org/wiki/AI" in
  let doc := Demo.page (Some " AI ") Demo.body in
  ∃ a, extract_article address doc = Ok a
    ∧ trimmed (title a)
    ∧ trimmed (summary a)
    ∧ Forall (λ kv, trimmed kv.1 ∧ trimmed kv.2) (infobox a)
    ∧ Forall trimmed (keys (sections a))
    ∧ Forall trimmed (references a)
    ∧ Forall (λ l, trimmed (link_text l)) (links a).
Proof.
  intros address doc.
  assert (∃ a, extract_article address doc = Ok a) as [a Ha]
    by (vm_compute; by eexists).
  exists a. split; [exact Ha|]. exact (X4_record_texts_trimmed address doc a Ha).
Defined.

Lemma sections_loop_values (elements : list node) (d d' : dict string)
    (current : option string) :
  sections_loop elements d current = Ok d' →
  Forall (λ kv, kv.2 = "" ∨ last_char kv.2 = Some " "%char) d →
  Forall (λ kv, kv.2 = "" ∨ last_char kv.2 = Some " "%char) d'.
Proof.
  revert d current. induction elements as [|e elements IH]; intros d current Hrun Hd.
  - simpl in Hrun. by injection Hrun as <-.
  - simpl in Hrun. destruct (is_heading e).
    + eapply IH; [exact Hrun|]. apply Forall_setitem; [done|by left].
    + destruct (is_paragraph e && section_open current); [|by eapply IH].
      destruct current as [name|]; [|by eapply IH].
      destruct (getitem d name) as [v|]; [|done].
      eapply IH; [exact Hrun|]. apply Forall_setitem; [done|]. right. simpl.
      by rewrite <- app_assoc_str, last_char_app.
Qed.

(** X5: the text of a section is not trimmed: in every record it is empty
    or ends with a space. *)
Theorem X5_section_text_ends_with_space (address : string) (doc : list node)
    (a : article_data) :
  extract_article address doc = Ok a →
  Forall (λ kv, kv.2 = "" ∨ last_char kv.2 = Some " "%char) (sections a).
Proof.
  intros (_ & _ & _ & _ & Hsec & _)%extract_article_Ok.
  unfold extract_sections in Hsec. eapply sections_loop_values; [exact Hsec|constructor].
Qed.

(** X5 on the demo page. *)
Lemma X5_section_text_ends_with_space_witness :
  let address := "https://en.wikipedia.org/wiki/AI" in
  let doc := Demo.page (Some " AI ") Demo.body in
  ∃ a, extract_article address doc = Ok a
    ∧ Forall (λ kv, kv.2 = "" ∨ last_char kv.2 = Some " "%char) (sections a).
Proof.
  intros address doc.
  assert (∃ a, extract_article address doc = Ok a) as [a Ha]
    by (vm_compute; by eexists).
  exists a. split; [exact Ha|]. exact (X5_section_text_ends_with_space address doc a Ha).
Defined.

(** ** The order of the keys *)

Lemma filter_all {A : Type} (P : A → Prop) `{!∀ x, Decision (P x)} (l : list A) :
  (∀ x, P x) → filter P l = l.
Proof.
  intros HP. induction l as [|x l IH]; [done|]. by rewrite filter_cons_True, IH.
Qed.

Lemma first_occurrences_elem_of (l : list string) (x : string) :
  x ∈ first_occurrences l ↔ x ∈ l.
Proof.
  induction l as [|y l IH]; [done|]. simpl.
  rewrite !elem_of_cons, list_elem_of_filter, IH.
  destruct (decide (x = y)); naive_solver.
Qed.

Lemma first_occurrences_NoDup (l : list string) : NoDup (first_occurrences l).
Proof.
  induction l as [|y l IH]; simpl; [constructor|].
  apply NoDup_cons. split; [|by apply NoDup_filter].
  by intros [? _]%list_elem_of_filter.
Qed.

Lemma keys_then_first_occurrences (ks : list string) (x : string) (l : list string) :
  let ks' := if decide (x ∈ ks) then ks else ks ++ [x] in
  ks' ++ filter (λ y, y ∉ ks') l
  = ks ++ filter (λ y, y ∉ ks) (x :: filter (λ y, y ≠ x) l).
Proof.
  cbv zeta. destruct (decide (x ∈ ks)) as [Hin|Hnin].
  - rewrite filter_cons_False by (by intros ?). f_equal.
    rewrite list_filter_filter. apply list_filter_iff. intros y.
    split; [intros Hy; split; [done|congruence]|by intros [? _]].
  - rewrite filter_cons_True by done. rewrite <- app_assoc. simpl. do 2 f_equal.
    rewrite list_filter_filter. apply list_filter_iff. intros y.
    rewrite not_elem_of_app, list_elem_of_singleton. done.
Qed.

Lemma infobox_loop_keys_order (rows : list node) (d : dict string) :
  keys (infobox_loop rows d)
  = keys d ++ filter (λ y, y ∉ keys d) (first_occurrences (omap row_entry rows).*1).
Proof.
  revert d. induction rows as [|row rows IH]; intros d.
  - simpl. by rewrite app_nil_r.
  - cbn [infobox_loop omap list_omap]. unfold row_entry at 1.
    destruct (row_cells row) as [[header data]|]; [|apply IH].
    rewrite IH, keys_setitem, fmap_cons. cbn [fst first_occurrences].
    apply keys_then_first_occurrences.
Qed.

Lemma sections_loop_keys_order (elements : list node) (d d' : dict string)
    (current : option string) :
  open_key_present d current →
  sections_loop elements d current = Ok d' →
  keys d' = keys d ++ filter (λ y, y ∉ keys d)
              (first_occurrences (heading_text <$> filter (λ e, is_heading e = true) elements)).
Proof.
  revert d current. induction elements as [|e elements IH]; intros d current Hopen Hrun.
  - simpl in Hrun. injection Hrun as <-. simpl. by rewrite app_nil_r.
  - simpl in Hrun. destruct (is_heading e) eqn:He.
    + rewrite filter_cons_True, fmap_cons by done. cbn [first_occurrences].
      rewrite (IH _ _ (open_key_heading _ _) Hrun), keys_setitem.
      apply keys_then_first_occurrences.
    + rewrite filter_cons_False by (by rewrite He).
      destruct (is_paragraph e && section_open current) eqn:Hp; [|by eapply IH].
      apply andb_true_iff in Hp as [_ (name & -> & _)%section_open_Some].
      destruct (Hopen name eq_refl) as [v Hv]. rewrite Hv in Hrun.
      rewrite (IH _ _ (open_key_paragraph _ _ _) Hrun), keys_setitem.
      rewrite decide_True; [done|]. apply getitem_is_Some. eauto.
Qed.

(** X6: whatever elements the section loop goes through, the names of the
    sections it returns are the distinct texts of the headings among them,
    in the order in which these headings first occur: a heading that
    repeats an earlier text keeps the place of the first. *)
Theorem X6_section_names_in_document_order (elements : list node) (d : dict string) :
  sections_loop elements [] None = Ok d →
  keys d
  = first_occurrences (heading_text <$> filter (λ e, is_heading e = true) elements).
Proof.
  intros Hrun.
  rewrite (sections_loop_keys_order _ _ _ _ (λ k (H : None = Some k), ltac:(done)) Hrun).
  simpl. apply filter_all. intros y. apply not_elem_of_nil.
Qed.

(** X6 on the demo headings "History", "Works", "History". *)
Lemma X6_section_names_in_document_order_witness :
  let elements := Demo.headings_and_paragraphs in
  let d := [("History", ""); ("Works", "Beta Gamma ")] in
  sections_loop elements [] None = Ok d
  ∧ keys d
    = first_occurrences (heading_text <$> filter (λ e, is_heading e = true) elements).
Proof.
  intros elements d. split; [reflexivity|].
  exact (X6_section_names_in_document_order elements d eq_refl).
Defined.

(** X7: the keys of the infobox of a record are the distinct header texts
    of the rows with both cells, in the order in which they first occur. *)
Theorem X7_infobox_keys_in_row_order (address : string) (doc : list node)
    (a : article_data) (table : node) :
  extract_article address doc = Ok a →
  select_one sel_infobox doc = Some table →
  keys (infobox a)
  = first_occurrences (omap row_entry (select_in [Simple (ByName "tr")] table)).*1.
Proof.
  intros (_ & _ & _ & -> & _)%extract_article_Ok Htable.
  unfold extract_infobox. rewrite Htable, infobox_loop_keys_order.
  simpl. apply filter_all. intros y. apply not_elem_of_nil.
Qed.

(** X7 on the demo page. *)
Lemma X7_infobox_keys_in_row_order_witness :
  let address := "https://en.wikipedia.org/wiki/AI" in
  let doc := Demo.page (Some " AI ") Demo.body in
  ∃ a, extract_article address doc = Ok a
    ∧ select_one sel_infobox doc = Some Demo.infobox_table
    ∧ keys (infobox a)
      = first_occurrences
          (omap row_entry (select_in [Simple (ByName "tr")] Demo.infobox_table)).*1.
Proof.
  intros address doc.
  assert (∃ a, extract_article address doc = Ok a) as [a Ha]
    by (vm_compute; by eexists).
  exists a. split; [exact Ha|]. split; [reflexivity|].
  exact (X7_infobox_keys_in_row_order address doc a Demo.infobox_table Ha eq_refl).
Defined.

(** ** Edit markers *)

Lemma selected_simple (s : simple) (anc : list frame) (name : string) (a : attrs)
    (contents : list node) :
  selected [Simple s] (anc, Elem name a contents) = matches_simple s (name, a).
Proof. simpl. apply orb_false_r. Qed.

Lemma without_contents_nil (s : simple) (anc : list frame) (contents : list node) :
  Forall (λ c, ∀ anc', unmarked s c →
            filter (λ x, selected [Simple s] x = true) (walk anc' (without s c)) = [])
         contents →
  filter (λ x, selected [Simple s] x = true)
    (flat_map (walk anc)
       (flat_map (λ c, match c with
                       | Elem cn ca _ => if matches_simple s (cn, ca) then [] else [without s c]
                       | Text _ => [c]
                       end) contents)) = [].
Proof.
  induction 1 as [|c contents Hc _ IH]; [done|].
  cbn [flat_map]. rewrite flat_map_app, filter_app, IH, app_nil_r.
  destruct c as [t|cn ca cc]; [done|].
  destruct (matches_simple s (cn, ca)) eqn:Hm; [done|].
  cbn [flat_map]. rewrite app_nil_r. by apply Hc.
Qed.

(** Nothing marked is left at or below an unmarked node once the marked
    ones below it are removed. *)
Lemma without_leaves_none (s : simple) (n : node) (anc : list frame) :
  unmarked s n →
  filter (λ x, selected [Simple s] x = true) (walk anc (without s n)) = [].
Proof.
  revert anc. induction n as [t|name a contents IH] using node_nested_ind; intros anc Hn.
  - done.
  - cbn [without walk]. rewrite filter_cons_False by (by rewrite selected_simple, Hn).
    by apply without_contents_nil.
Qed.

Lemma without_contents_same (s : simple) (anc : list frame) (contents : list node) :
  Forall (λ c, ∀ anc', filter (λ x, selected [Simple s] x = true) (walk anc' c) = [] →
            without s c = c) contents →
  Forall (λ c, filter (λ x, selected [Simple s] x = true) (walk anc c) = []) contents →
  flat_map (λ c, match c with
                 | Elem cn ca _ => if matches_simple s (cn, ca) then [] else [without s c]
                 | Text _ => [c]
                 end) contents = contents.
Proof.
  induction 1 as [|c contents Hc _ IHc]; [done|].
  intros [Hnc Hrest]%Forall_cons. cbn [flat_map].
  rewrite (IHc Hrest). destruct c as [t|cn ca cc]; [done|].
  assert (Hm : matches_simple s (cn, ca) = false).
  { cbn [walk] in Hnc. rewrite <- (selected_simple s anc cn ca cc).
    destruct (selected [Simple s] (anc, Elem cn ca cc)) eqn:Hs; [|done].
    rewrite filter_cons_True in Hnc by exact Hs. discriminate Hnc. }
  rewrite Hm. by rewrite (Hc _ Hnc).
Qed.

(** Removing the marked nodes below a node changes nothing when nothing at
    or below it is marked. *)
Lemma without_unmarked (s : simple) (n : node) (anc : list frame) :
  filter (λ x, selected [Simple s] x = true) (walk anc n) = [] → without s n = n.
Proof.
  revert anc. induction n as [t|name a contents IH] using node_nested_ind; intros anc Hnone.
  - done.
  - cbn [without walk] in *.
    destruct (selected [Simple s] (anc, Elem name a contents)) eqn:Hsel;
      [by rewrite filter_cons_True in Hnone|].
    rewrite filter_cons_False in Hnone by (by rewrite Hsel).
    apply filter_flat_map_nil in Hnone. f_equal.
    by apply (without_contents_same s ((name, a) :: anc)).
Qed.

(** X8: once the loop over a heading's edit markers has run, no edit
    marker is left below the heading, and the heading keeps its attributes;
    a heading without edit markers is left as it is, and its section name
    is its trimmed text. *)
Theorem X8_edit_markers_removed (h : node) :
  select_in [Simple editsection] (without editsection h) = []
  ∧ node_attrs (without editsection h) = node_attrs h
  ∧ is_heading (without editsection h) = is_heading h
  ∧ (select_in [Simple editsection] h = [] →
       without editsection h = h ∧ heading_text h = stripped_text h).
Proof.
  destruct h as [t|name a contents]; [done|].
  split; [|split; [done|split; [done|]]].
  - cbn [without select_in]. apply fmap_nil_iff, without_contents_nil.
    apply Forall_forall. intros c _ anc'. apply without_leaves_none.
  - intros Hnone. unfold select_in in Hnone.
    apply fmap_nil_iff, filter_flat_map_nil in Hnone.
    assert (Hsame : without editsection (Elem name a contents) = Elem name a contents).
    { cbn [without]. f_equal. apply (without_contents_same _ [(name, a)]); [|done].
      apply Forall_forall. intros c _ anc'. apply without_unmarked. }
    split; [done|]. unfold heading_text. by rewrite Hsame.
Qed.

(** X8 on a heading without edit markers. *)
Lemma X8_edit_markers_removed_witness :
  let h := Elem "h2" [("id", "History")] [Text " History "] in
  select_in [Simple editsection] h = []
  ∧ select_in [Simple editsection] (without editsection h) = []
  ∧ node_attrs (without editsection h) = node_attrs h
  ∧ is_heading (without editsection h) = is_heading h
  ∧ (select_in [Simple editsection] h = [] →
       without editsection h = h ∧ heading_text h = stripped_text h).
Proof.
  intros h. split; [reflexivity|]. exact (X8_edit_markers_removed h).
Defined.

(** ** Links *)

Lemma omap_link_of (anchors : list node) :
  omap link_of anchors
  = (λ a, {| link_text := stripped_text a;
             link_url := "https://en.wikipedia.org"
                         +:+ get_default (node_attrs a) "href" "" |})
    <$> filter (λ a, internal_link a = true) anchors.
Proof.
  induction anchors as [|a anchors IH]; [done|].
  cbn [omap list_omap]. unfold link_of at 1. fold (internal_link a).
  destruct (internal_link a) eqn:Ha.
  - rewrite filter_cons_True by done. by rewrite fmap_cons, <- IH.
  - rewrite filter_cons_False by (by rewrite Ha). exact IH.
Qed.

(** X9: the links of a document are, in document order and with
    repetitions, those of the anchors of the content area whose target
    starts with "/wiki/" and holds no colon; every emitted address is
    "https://en.wikipedia.org/wiki/" followed by a rest without colon. *)
Theorem X9_links_are_internal (doc : list node) :
  let anchors := select sel_content_links doc in
  extract_links doc
  = (λ a, {| link_text := stripped_text a;
             link_url := "https://en.wikipedia.org"
                         +:+ get_default (node_attrs a) "href" "" |})
    <$> filter (λ a, internal_link a = true) anchors
  ∧ Forall (λ l, ∃ rest, link_url l = "https://en.wikipedia.org/wiki/" +:+ rest
                   ∧ PyStr.contains ":" rest = false) (extract_links doc).
Proof.
  intros anchors. unfold extract_links. fold anchors.
  assert (Hlinks := omap_link_of anchors).
  split; [exact Hlinks|].
  rewrite Hlinks. apply Forall_fmap, Forall_forall.
  intros a [Ha _]%list_elem_of_filter. unfold internal_link in Ha. cbv zeta in Ha.
  apply andb_true_iff in Ha as [[rest Hrest]%startswith_split Hcolon].
  exists rest. cbn [link_url]. rewrite Hrest in *. split; [reflexivity|].
  apply negb_true_iff in Hcolon. exact Hcolon.
Qed.

(** ** The summary shown *)

(** X10: a summary in the summary table has at most 203 characters, and
    exactly 203 when the summary of the record has more than 200. *)
Theorem X10_summary_cell_length (results : list result_item) (row : summary_row) :
  row ∈ summary_data results →
  PyStr.len (row_summary row) ≤ 203
  ∧ ∃ item, item ∈ results ∧ row = summary_row_of item
      ∧ (200 < PyStr.len (summary (article item)) → PyStr.len (row_summary row) = 203).
Proof.
  intros (item & -> & Hitem)%list_elem_of_fmap.
  assert (Hlong : 200 < PyStr.len (summary (article item)) →
                  PyStr.len (truncated_summary (summary (article item))) = 203).
  { intros Hlen. unfold truncated_summary. rewrite decide_True by done.
    destruct (slice_to_split 200 (summary (article item))) as [Hfirst _]; [lia|].
    rewrite len_app, Hfirst. reflexivity. }
  split; [|by exists item].
  cbn [row_summary summary_row_of].
  destruct (decide (200 < PyStr.len (summary (article item)))) as [Hlen|Hlen].
  - rewrite Hlong by done. lia.
  - unfold truncated_summary. rewrite decide_False by done. lia.
Qed.

(** X10 on a summary of 210 characters. *)
Lemma X10_summary_cell_length_witness :
  let results := [Demo.short_item; Demo.long_item] in
  let row := summary_row_of Demo.long_item in
  row ∈ summary_data results
  ∧ PyStr.len (row_summary row) ≤ 203
  ∧ ∃ item, item ∈ results ∧ row = summary_row_of item
      ∧ (200 < PyStr.len (summary (article item)) → PyStr.len (row_summary row) = 203).
Proof.
  intros results row.
  assert (Hin : row ∈ summary_data results) by (right; left).
  split; [exact Hin|]. exact (X10_summary_cell_length results row Hin).
Defined.

(** ** More on runs: requests, pauses, directories *)

Section MoreRuns.
Context `{Env}.
Implicit Types (s : state) (results : list result_item).

Lemma only_requests_refl s : only_requests s s [].
Proof. split; [apply no_file_written_refl|]. by rewrite app_nil_r. Qed.

Lemma only_requests_trans s1 s2 s3 (asked1 asked2 : list string) :
  only_requests s1 s2 asked1 → only_requests s2 s3 asked2 →
  only_requests s1 s3 (asked1 ++ asked2).
Proof.
  intros (Hq1 & Hr1 & Hs1 & Hm1) (Hq2 & Hr2 & Hs2 & Hm2).
  split; [by eapply no_file_written_trans|].
  split; [by rewrite Hr2, Hr1, app_assoc|]. split; congruence.
Qed.

Lemma only_requests_log (l : level) (msg : string) s :
  ∃ s', log l msg s = (Ok (), s') ∧ only_requests s s' [] ∧ world s' = world s
    ∧ trace s' = trace s ++ [Log l msg].
Proof.
  destruct (log_quiet l msg s) as (s' & Hlog & Hq & Hw & Ht).
  exists s'. split; [done|]. split; [|done].
  split; [done|]. unfold requests, sleeps, made_dirs.
  by rewrite Ht, !omap_app, !app_nil_r.
Qed.

Lemma only_requests_get (address : string) s (r : outcome response) (w : World) :
  http_get address (world s) = (r, w) →
  ∃ s', session_get address s = (r, s') ∧ only_requests s s' [address] ∧ world s' = w
    ∧ trace s' = trace s ++ [Request address].
Proof.
  intros Hget. destruct (session_get_run _ _ _ _ Hget) as (s' & Hrun & Hq & Hw & Ht).
  exists s'. split; [done|]. split; [|done].
  split; [done|]. unfold requests, sleeps, made_dirs.
  by rewrite Ht, !omap_app, !app_nil_r.
Qed.

Lemma search_term_address (keyword : string) :
  search_url +:+ PyStr.replace " " "+" keyword = search_address keyword.
Proof.
  unfold search_address. f_equal.
  change " " with (String " "%char ""). change "+" with (String "+"%char "").
  apply replace_char.
Qed.

(** The search of one keyword: its one request, and its three results. *)
Lemma search_wikipedia_run (k : string) s (r0 : outcome response) (w : World) :
  http_get (search_address k) (world s) = (r0, w) →
  ∃ s', only_requests s s' [search_address k] ∧ world s' = w
    ∧ search_wikipedia k s
      = (match r0 with
         | Raise e => Raise e
         | Ok resp =>
             if direct_match resp then Ok (Some (resp_url resp))
             else match select sel_search_results (resp_soup resp) with
                  | first :: _ =>
                      Ok (Some ("https://en.wikipedia.org"
                                +:+ format_opt (get (node_attrs first) "href")))
                  | [] => Ok None
                  end
         end, s')
    ∧ ∃ logged, trace s' = trace s ++ Log INFO ("Searching for: " +:+ k)
                             :: Request (search_address k) :: logged
        ∧ match r0 with
          | Raise _ => logged = []
          | Ok resp =>
              if direct_match resp
              then logged = [Log INFO ("Direct match found: " +:+ resp_url resp)]
              else match select sel_search_results (resp_soup resp) with
                   | first :: _ =>
                       logged = [Log INFO ("Best match found: https://en.wikipedia.org"
                                           +:+ format_opt (get (node_attrs first) "href"))]
                   | [] => logged = [Log WARNING ("No results found for: " +:+ k)]
                   end
          end.
Proof.
  intros Hget. unfold search_wikipedia. rewrite bind_run.
  destruct (only_requests_log INFO ("Searching for: " +:+ k) s) as (s1 & -> & Hq1 & Hw1 & Ht1).
  rewrite bind_run, search_term_address. rewrite <- Hw1 in Hget.
  destruct (only_requests_get _ _ _ _ Hget) as (s2 & -> & Hq2 & Hw2 & Ht2).
  assert (Hq12 := only_requests_trans _ _ _ _ _ Hq1 Hq2). simpl in Hq12.
  assert (Ht12 : trace s2 = trace s ++ [Log INFO ("Searching for: " +:+ k);
                                         Request (search_address k)]).
  { by rewrite Ht2, Ht1, <- app_assoc. }
  destruct r0 as [resp|e].
  - fold (direct_match resp). destruct (direct_match resp).
    + rewrite bind_run.
      destruct (only_requests_log INFO ("Direct match found: " +:+ resp_url resp) s2)
        as (s3 & -> & Hq3 & Hw3 & Ht3).
      exists s3. split; [apply (only_requests_trans _ _ _ _ _ Hq12 Hq3)|].
      split; [congruence|]. split; [done|]. eexists. split; [|reflexivity].
      by rewrite Ht3, Ht12, <- app_assoc.
    + destruct (select sel_search_results (resp_soup resp)) as [|first others].
      * rewrite bind_run.
        destruct (only_requests_log WARNING ("No results found for: " +:+ k) s2)
          as (s3 & -> & Hq3 & Hw3 & Ht3).
        exists s3. split; [apply (only_requests_trans _ _ _ _ _ Hq12 Hq3)|].
        split; [congruence|]. split; [done|]. eexists. split; [|reflexivity].
        by rewrite Ht3, Ht12, <- app_assoc.
      * cbv zeta. rewrite bind_run.
        match goal with |- context [log INFO ?m s2] =>
          destruct (only_requests_log INFO m s2) as (s3 & -> & Hq3 & Hw3 & Ht3) end.
        exists s3. split; [apply (only_requests_trans _ _ _ _ _ Hq12 Hq3)|].
        split; [congruence|]. split; [done|]. eexists. split; [|reflexivity].
        by rewrite Ht3, Ht12, <- app_assoc.
  - exists s2. split; [done|]. split; [done|]. split; [done|].
    exists []. by rewrite Ht12.
Qed.

(** The log file along a computation. *)

Lemma log_appended_refl s : log_appended s s.
Proof. exists []. by rewrite !app_nil_r. Qed.

Lemma log_appended_trans s1 s2 s3 :
  log_appended s1 s2 → log_appended s2 s3 → log_appended s1 s3.
Proof.
  intros (new1 & Ht1 & Hl1) (new2 & Ht2 & Hl2). exists (new1 ++ new2).
  unfold log_lines in *. rewrite omap_app, !app_assoc. split; congruence.
Qed.

Lemma bind_logs {A B : Type} (m : M A) (f : A → M B) s :
  (∀ s0, log_appended s0 (m s0).2) → (∀ a s0, log_appended s0 (f a s0).2) →
  log_appended s ((m ≫= f) s).2.
Proof.
  intros Hm Hf. rewrite bind_run. specialize (Hm s).
  destruct (m s) as [[a|e] s1]; simpl in Hm; [|done].
  eapply log_appended_trans; [exact Hm|apply Hf].
Qed.

Lemma log_logs (l : level) (msg : string) s : log_appended s (log l msg s).2.
Proof. by exists [Log l msg]. Qed.

Lemma session_get_logs (address : string) s : log_appended s (session_get address s).2.
Proof.
  unfold session_get. destruct (http_get address (world s)) as [r w].
  exists [Request address]. simpl. by rewrite app_nil_r.
Qed.


Lemma sleep_logs (n : nat) s : log_appended s (sleep n s).2.
Proof. exists [Sleep n]. simpl. by rewrite app_nil_r. Qed.


Lemma search_wikipedia_logs (k : string) s : log_appended s (search_wikipedia k s).2.
Proof.
  unfold search_wikipedia.
  apply bind_logs; [intros ?; apply log_logs|intros _ ?].
  apply bind_logs; [intros ?; apply session_get_logs|intros resp ?].
  destruct (PyStr.contains "/wiki/" (resp_url resp)
            && negb (PyStr.contains "index.php?search=" (resp_url resp))).
  - apply bind_logs; [intros ?; apply log_logs|intros _ ?]. apply log_appended_refl.
  - destruct (select sel_search_results (resp_soup resp)) as [|first others].
    + apply bind_logs; [intros ?; apply log_logs|intros _ ?]. apply log_appended_refl.
    + cbv zeta. apply bind_logs; [intros ?; apply log_logs|intros _ ?].
      apply log_appended_refl.
Qed.







(** X11: whatever comes back, [search_wikipedia] makes exactly one
    request, to the search address followed by the keyword with every
    space turned into "+" and nothing else encoded; all else it does is
    log, once before the request and at most once after it, and each of
    these records is appended to the log file; it saves nothing, makes no
    directory and does not pause. *)
Theorem X11_search_makes_one_request (k : string) s (r : outcome (option string)) s' :
  search_wikipedia k s = (r, s') →
  ∃ after,
    trace s'
    = trace s
      ++ Log INFO ("Searching for: " +:+ k)
      :: Request ("https://en.wikipedia.org/w/index.php?search="
                  +:+ PyStr.smap (λ c, if decide (c = " "%char) then "+"%char else c) k)
      :: after
    ∧ length after ≤ 1
    ∧ Forall (λ e, is_log e = true) after
    ∧ log_file s' = log_file s ++ (INFO, "Searching for: " +:+ k) :: log_lines after
    ∧ files s' = files s
    ∧ dirs s' = dirs s.
Proof.
  intros Hrun. pose proof (search_wikipedia_logs k s) as (new & Htrace & Hlog).
  destruct (http_get (search_address k) (world s)) as [r0 w] eqn:Hget.
  destruct (search_wikipedia_run k s r0 w Hget)
    as (s1 & ((Hf & Hd & _) & _) & _ & Hrun' & after & Ht & Hafter).
  rewrite Hrun in Htrace, Hlog, Hrun'. cbn [snd] in Htrace, Hlog.
  injection Hrun' as _ <-. rewrite Ht in Htrace. apply app_inv_head in Htrace as <-.
  exists after. split; [exact Ht|].
  assert (Hshape : length after ≤ 1 ∧ Forall (λ e, is_log e = true) after).
  { destruct r0 as [resp|e]; [|subst after; split; [simpl; lia|constructor]].
    destruct (direct_match resp); [subst after; split; [simpl; lia|by repeat constructor]|].
    destruct (select sel_search_results (resp_soup resp));
      subst after; (split; [simpl; lia|by repeat constructor]). }
  destruct Hshape as [Hlen Hlogs]. by repeat split.
Qed.

(** X12: a keyword whose search is not redirected to an article and whose
    results page has no result link yields no address: a warning is
    logged, the log file grows by the two records of the search, the
    keyword costs one request and one pause, nothing is saved and no
    directory made, and the loop goes on with the remaining keywords and
    the same results. *)
Theorem X12_unresolved_keyword_is_skipped (out k : string) (rest : list string) results s
    (resp : response) (w : World) :
  http_get (search_address k) (world s) = (Ok resp, w) →
  direct_match resp = false →
  select sel_search_results (resp_soup resp) = [] →
  ∃ s1 s2,
    search_wikipedia k s = (Ok None, s1)
    ∧ trace s1 = trace s ++
        [Log INFO ("Searching for: " +:+ k); Request (search_address k);
         Log WARNING ("No results found for: " +:+ k)]
    ∧ trace s2 = trace s1 ++ [Sleep 1]
    ∧ log_file s2 = log_file s ++
        [(INFO, "Searching for: " +:+ k); (WARNING, "No results found for: " +:+ k)]
    ∧ files s2 = files s
    ∧ dirs s2 = dirs s
    ∧ scrape_loop out (k :: rest) results s = scrape_loop out rest results s2.
Proof.
  intros Hget Hdirect Hnone.
  destruct (search_wikipedia_run k s _ w Hget)
    as (s1 & ((Hf1 & Hd1 & _) & _) & _ & Hsearch & logged & Ht1 & Hlogged).
  rewrite Hdirect, Hnone in Hsearch, Hlogged. subst logged.
  pose proof (search_wikipedia_logs k s) as (new & Htrace & Hlog).
  rewrite Hsearch in Htrace, Hlog. cbn [snd] in Htrace, Hlog.
  rewrite Ht1 in Htrace. apply app_inv_head in Htrace as <-.
  destruct (sleep_quiet 1 s1) as (s2 & Hsleep & (Hf2 & Hd2 & _) & Ht2 & _).
  exists s1, s2. split; [done|]. split; [done|]. split; [done|].
  split.
  { pose proof (sleep_logs 1 s1) as (new2 & Htrace2 & Hlog2).
    rewrite Hsleep in Htrace2, Hlog2. cbn [snd] in Htrace2, Hlog2.
    rewrite Ht2 in Htrace2. apply app_inv_head in Htrace2 as <-.
    rewrite Hlog2, Hlog. cbn. by rewrite app_nil_r. }
  split; [congruence|]. split; [congruence|].
  cbn [scrape_loop]. rewrite bind_run, Hsearch, bind_run.
  cbn [scrape_one mret M_ret]. by rewrite bind_run, Hsleep.
Qed.

(** X13: when the search is not redirected, only the first result link
    counts, and its target is appended to "https://en.wikipedia.org"
    unchecked: a link without a target gives the address
    "https://en.wikipedia.orgNone". *)
Theorem X13_first_result_link (k : string) s (resp : response) (w : World)
    (first : node) (others : list node) :
  http_get (search_address k) (world s) = (Ok resp, w) →
  direct_match resp = false →
  select sel_search_results (resp_soup resp) = first :: others →
  ∃ s',
    (∀ href, get (node_attrs first) "href" = Some href →
       search_wikipedia k s = (Ok (Some ("https://en.wikipedia.org" +:+ href)), s'))
    ∧ (get (node_attrs first) "href" = None →
         search_wikipedia k s = (Ok (Some "https://en.wikipedia.orgNone"), s')).
Proof.
  intros Hget Hdirect Hfirst.
  destruct (search_wikipedia_run k s _ w Hget) as (s1 & _ & _ & Hsearch & _).
  rewrite Hdirect, Hfirst in Hsearch. exists s1.
  split; [intros href Hhref|intros Hhref]; by rewrite Hhref in Hsearch.
Qed.

(** Fetching a page makes one request and writes no file, however it ends. *)
Lemma get_article_content_requests (u : string) s (r : outcome (option article_data)) s' :
  get_article_content u s = (r, s') → only_requests s s' [u].
Proof.
  unfold get_article_content. rewrite bind_run.
  destruct (only_requests_log INFO ("Fetching content from: " +:+ u) s)
    as (s0 & -> & Hq0 & Hw0 & _).
  rewrite bind_run.
  destruct (http_get u (world s0)) as [r0 w] eqn:Hget.
  destruct (only_requests_get _ _ _ _ Hget) as (s1 & -> & Hq1 & _).
  assert (Hq01 := only_requests_trans _ _ _ _ _ Hq0 Hq1). simpl in Hq01.
  destruct r0 as [resp|e]; [|by intros [= <- <-]].
  destruct (decide (status_code resp ≠ 200%Z)).
  - rewrite bind_run.
    match goal with |- context [log ERROR ?m s1] =>
      destruct (only_requests_log ERROR m s1) as (s2 & -> & Hq2 & _) end.
    intros [= <- <-]. apply (only_requests_trans _ _ _ _ _ Hq01 Hq2).
  - rewrite bind_run. unfold lift.
    destruct (extract_article u (resp_soup resp)); by intros [= <- <-].
Qed.

(** X14: a page that arrives with status 200 and has a main heading always
    yields a record; its address is the one that was asked for, not the
    final address of the response, its title is the trimmed text of the
    first element with the id firstHeading; the fetch is two events, a log
    line and the request, and writes no file. *)
Theorem X14_fetch_returns_record (address : string) s (resp : response) (w : World)
    (h : node) :
  http_get address (world s) = (Ok resp, w) →
  status_code resp = 200%Z →
  select_one sel_first_heading (resp_soup resp) = Some h →
  ∃ a s',
    get_article_content address s = (Ok (Some a), s')
    ∧ url a = address
    ∧ title a = stripped_text h
    ∧ trace s' = trace s ++ [Log INFO ("Fetching content from: " +:+ address); Request address]
    ∧ no_file_written s s'.
Proof.
  intros Hget Hstatus Hh.
  destruct (get_article_content_run _ _ _ _ Hget) as (s1 & Hq & _ & Ht & Hrun).
  rewrite decide_False in Hrun by (by intros []).
  destruct (extract_article_total address (resp_soup resp) h Hh) as [a Ha].
  rewrite Ha in Hrun. exists a, s1. split; [done|].
  apply extract_article_Ok in Ha as (Htitle & Hurl & _).
  split; [done|]. split; [|done].
  unfold extract_title in Htitle. rewrite Hh in Htitle. by injection Htitle.
Qed.

(** What one keyword does once its address is known, however it ends: at
    most the fetch of the address, no pause, no directory, and no file
    touched but the record file of the keyword. *)
Lemma scrape_one_footprint (out k : string) (address : option string) results s
    (r : outcome (list result_item)) s' :
  scrape_one out k address results s = (r, s') →
  sleeps (trace s') = sleeps (trace s)
  ∧ made_dirs (trace s') = made_dirs (trace s)
  ∧ dirs s' = dirs s
  ∧ (∀ p, p ≠ json_path out k → files s' !! p = files s !! p)
  ∧ ∃ fetched, requests (trace s') = requests (trace s) ++ fetched
      ∧ length fetched ≤ 1
      ∧ ∀ results', r = Ok results' →
          ∃ new, results' = results ++ new ∧ length new ≤ length fetched.
Proof.
  assert (Hnone : ∀ s0 fetched, only_requests s s0 fetched → length fetched ≤ 1 →
    sleeps (trace s0) = sleeps (trace s)
    ∧ made_dirs (trace s0) = made_dirs (trace s)
    ∧ dirs s0 = dirs s
    ∧ (∀ p, p ≠ json_path out k → files s0 !! p = files s !! p)
    ∧ ∃ fetched, requests (trace s0) = requests (trace s) ++ fetched
        ∧ length fetched ≤ 1
        ∧ ∀ results', Ok results = Ok results' →
            ∃ new, results' = results ++ new ∧ length new ≤ length fetched).
  { intros s0 fetched ((Hf & Hd & _) & Hr & Hs & Hm) Hlen.
    repeat (split; [done|]). split; [by intros p _; rewrite Hf|].
    exists fetched. split; [done|]. split; [done|]. intros ? [= <-].
    exists []. rewrite app_nil_r. split; [done|simpl; lia]. }
  unfold scrape_one.
  destruct address as [u|];
    [|intros [= <- <-]; apply (Hnone s []); [apply only_requests_refl|simpl; lia]].
  destruct (PyStr.truthy u);
    [|intros [= <- <-]; apply (Hnone s []); [apply only_requests_refl|simpl; lia]].
  rewrite bind_run.
  destruct (get_article_content u s) as [[[a|]|e] s1] eqn:Hfetch;
    apply get_article_content_requests in Hfetch as Hq.
  - cbv zeta. rewrite bind_run. unfold write_file at 1. rewrite bind_run.
    match goal with |- context [log INFO ?m ?s2] =>
      destruct (only_requests_log INFO m s2)
        as (s3 & -> & ((Hf3 & Hd3 & _) & Hr3 & Hs3 & Hm3) & _) end.
    intros [= <- <-]. destruct Hq as ((Hf1 & Hd1 & _) & Hr1 & Hs1 & Hm1).
    unfold requests, sleeps, made_dirs in *. cbn [trace files dirs emit] in *.
    rewrite omap_app, !app_nil_r in Hr3. rewrite omap_app, app_nil_r in Hs3.
    rewrite omap_app, app_nil_r in Hm3.
    split; [congruence|]. split; [congruence|]. split; [congruence|].
    split; [intros p Hp; by rewrite Hf3, lookup_insert_ne, Hf1|].
    exists [u]. split; [congruence|]. split; [done|]. intros ? [= <-].
    by exists [{| keyword := k; article := a |}].
  - intros [= <- <-]. by apply (Hnone s1 [u]).
  - intros [= <- <-]. destruct Hq as ((Hf & Hd & _) & Hr & Hs & Hm).
    repeat (split; [done|]). split; [by intros p _; rewrite Hf|].
    exists [u]. by repeat split.
Qed.

(** What the loop over the keywords does, however it ends. *)
Lemma scrape_loop_footprint (out : string) (keywords : list string) results s
    (r : outcome (list result_item)) s' :
  scrape_loop out keywords results s = (r, s') →
  made_dirs (trace s') = made_dirs (trace s)
  ∧ dirs s' = dirs s
  ∧ (∀ p, (∀ k, k ∈ keywords → p ≠ json_path out k) → files s' !! p = files s !! p)
  ∧ ∃ pauses asked,
      sleeps (trace s') = sleeps (trace s) ++ replicate pauses 1
      ∧ requests (trace s') = requests (trace s) ++ asked
      ∧ pauses ≤ length keywords
      ∧ length asked ≤ 2 * length keywords
      ∧ ∀ results', r = Ok results' →
          pauses = length keywords
          ∧ ∃ new, results' = results ++ new
              ∧ length keywords + length new ≤ length asked.
Proof.
  revert results s. induction keywords as [|k keywords IH]; intros results s.
  - intros [= <- <-]. split; [done|]. split; [done|]. split; [done|]. exists 0, [].
    rewrite !app_nil_r. split; [done|]. split; [done|]. split; [done|].
    split; [simpl; lia|]. intros ? [= <-].
    split; [done|]. exists []. by rewrite app_nil_r.
  - cbn [scrape_loop]. rewrite bind_run.
    destruct (http_get (search_address k) (world s)) as [r0 w] eqn:Hget.
    destruct (search_wikipedia_run k s r0 w Hget)
      as (s1 & ((Hf1 & Hd1 & _) & Hr1 & Hs1 & Hm1) & _ & -> & _).
    match goal with |- context [match ?x with Ok a => _ | Raise e => _ end] =>
      destruct x as [address|e] eqn:Hfound end.
    2:{ intros [= <- <-]. split; [done|]. split; [done|].
        split; [by intros p _; rewrite Hf1|].
        exists 0, [search_address k]. rewrite app_nil_r. simpl.
        split; [done|]. split; [done|]. split; [lia|]. split; [lia|]. done. }
    rewrite bind_run.
    destruct (scrape_one out k address results s1) as [r1 s2] eqn:Hone.
    apply scrape_one_footprint in Hone
      as (Hs2 & Hm2 & Hd2 & Hf2 & fetched & Hr2 & Hlen2 & Hnew2).
    destruct r1 as [results1|e].
    2:{ intros [= <- <-]. split; [congruence|]. split; [congruence|].
        split; [intros p Hp; rewrite Hf2, Hf1; [done|apply Hp; by left]|].
        exists 0, (search_address k :: fetched). rewrite app_nil_r.
        split; [congruence|]. split; [by rewrite Hr2, Hr1, <- app_assoc|].
        simpl. split; [lia|]. split; [lia|]. done. }
    destruct (Hnew2 _ eq_refl) as (new1 & -> & Hlen1).
    rewrite bind_run.
    destruct (sleep_quiet 1 s2) as (s3 & -> & (Hf3 & Hd3 & _) & Ht3 & _).
    intros Hrest. apply IH in Hrest
      as (Hm4 & Hd4 & Hf4 & pauses & asked & Hs4 & Hr4 & Hp4 & Ha4 & Hok4).
    assert (Hs3 : sleeps (trace s3) = sleeps (trace s2) ++ [1]).
    { unfold sleeps. by rewrite Ht3, omap_app. }
    assert (Hr3 : requests (trace s3) = requests (trace s2)).
    { unfold requests. by rewrite Ht3, omap_app, app_nil_r. }
    assert (Hm3 : made_dirs (trace s3) = made_dirs (trace s2)).
    { unfold made_dirs. by rewrite Ht3, omap_app, app_nil_r. }
    split; [congruence|]. split; [congruence|].
    split.
    { intros p Hp. rewrite Hf4, Hf3, Hf2, Hf1; [done|apply Hp; by left|].
      intros k' Hk'. apply Hp. by right. }
    exists (S pauses), (search_address k :: fetched ++ asked).
    split; [by rewrite Hs4, Hs3, Hs2, Hs1, <- app_assoc|].
    split; [by rewrite Hr4, Hr3, Hr2, Hr1, <- !app_assoc|].
    simpl. rewrite length_app. split; [lia|]. split; [lia|].
    intros results' ->. destruct (Hok4 _ eq_refl) as (-> & new2 & -> & Hlen4).
    split; [done|]. exists (new1 ++ new2). rewrite app_assoc. split; [done|].
    rewrite length_app. lia.
Qed.

(** The stages of a run. *)
Lemma scrape_keywords_stages (keywords : list string) (out : string) s
    (r : outcome (list result_item)) s' :
  scrape_keywords keywords out s = (r, s') →
  ∃ (r0 : outcome unit) s0,
    ensure_dir out s = (r0, s0)
    ∧ match r0 with
      | Raise e => r = Raise e ∧ s' = s0
      | Ok _ =>
          ∃ r1 s1,
            scrape_loop out keywords [] s0 = (r1, s1)
            ∧ match r1 with
              | Raise e => r = Raise e ∧ s' = s1
              | Ok results => r = Ok results ∧ write_summary out results s1 = (Ok (), s')
              end
      end.
Proof.
  destruct (scrape_keywords_run keywords out s) as (r0 & s0 & Hdir & _ & _ & _ & _ & ->).
  intros Hrun. exists r0, s0. split; [done|].
  destruct r0 as [[]|e0]; [|by injection Hrun as <- <-].
  revert Hrun. destruct (scrape_loop out keywords [] s0) as [[results|e] s1] eqn:Hloop.
  - destruct (write_summary_run out results s1) as (s2 & Hsum & _). rewrite Hsum.
    intros [= <- <-]. by exists (Ok results), s1.
  - intros [= <- <-]. by exists (Raise e), s1.
Qed.

(** A run that returns has gone through its three stages. *)
Lemma scrape_keywords_returned (keywords : list string) (out : string) s results s' :
  scrape_keywords keywords out s = (Ok results, s') →
  ∃ s0 s1,
    ensure_dir out s = (Ok (), s0)
    ∧ scrape_loop out keywords [] s0 = (Ok results, s1)
    ∧ write_summary out results s1 = (Ok (), s').
Proof.
  intros (r0 & s0 & Hdir & Hrest)%scrape_keywords_stages.
  destruct r0 as [[]|e0]; [|by destruct Hrest].
  destruct Hrest as (r1 & s1 & Hloop & Hend).
  destruct r1 as [results1|e]; [|by destruct Hend].
  destruct Hend as [[= <-] Hsum]. by exists s0, s1.
Qed.

Lemma ensure_dir_footprint (out : string) s (r0 : outcome unit) s0 :
  ensure_dir out s = (r0, s0) →
  files s0 = files s ∧ world s0 = world s
  ∧ requests (trace s0) = requests (trace s)
  ∧ sleeps (trace s0) = sleeps (trace s)
  ∧ made_dirs (trace s0) = made_dirs (trace s) ++ (if exists_at out s then [] else [out]).
Proof.
  intros Hdir.
  destruct (ensure_dir_run out s) as (r0' & s0' & Hdir' & Hf & Hw & _ & _ & _ & Ht & _).
  rewrite Hdir in Hdir'. injection Hdir' as <- <-.
  split; [done|]. split; [done|]. unfold requests, sleeps, made_dirs.
  rewrite Ht, !omap_app. destruct (exists_at out s); simpl; by rewrite ?app_nil_r.
Qed.

Lemma write_summary_footprint (out : string) results s s' :
  write_summary out results s = (Ok (), s') →
  world s' = world s ∧ dirs s' = dirs s
  ∧ requests (trace s') = requests (trace s)
  ∧ sleeps (trace s') = sleeps (trace s)
  ∧ made_dirs (trace s') = made_dirs (trace s)
  ∧ (∀ p, p ≠ csv_path out (now (world s)) → files s' !! p = files s !! p)
  ∧ (results = [] → files s' = files s).
Proof.
  destruct results as [|item results]; [by intros [= <-]|].
  unfold write_summary. rewrite bind_run. unfold timestamp. rewrite bind_run.
  unfold write_file, log. intros [= <-]. cbn.
  unfold requests, sleeps, made_dirs. rewrite !omap_app, !app_nil_r.
  repeat (split; [done|]). split; [|done]. intros p Hp. by rewrite lookup_insert_ne.
Qed.

(** X15: a run that returns pauses exactly once per keyword, one second
    each, and makes between one and two requests per keyword, at least two
    for every keyword that gave a result. *)
Theorem X15_one_pause_per_keyword (keywords : list string) (out : string) s results s' :
  scrape_keywords keywords out s = (Ok results, s') →
  sleeps (trace s') = sleeps (trace s) ++ replicate (length keywords) 1
  ∧ ∃ asked, requests (trace s') = requests (trace s) ++ asked
      ∧ length keywords + length results ≤ length asked ≤ 2 * length keywords.
Proof.
  intros (s0 & s1 & Hdir & Hloop & Hsum)%scrape_keywords_returned.
  apply ensure_dir_footprint in Hdir as (_ & _ & Hr0 & Hs0 & _).
  apply scrape_loop_footprint in Hloop
    as (_ & _ & _ & pauses & asked & Hs1 & Hr1 & _ & Hasked & Hok).
  apply write_summary_footprint in Hsum as (_ & _ & Hr2 & Hs2 & _).
  destruct (Hok _ eq_refl) as (-> & new & Hnew & Hlen). simpl in Hnew. subst new.
  split; [congruence|]. exists asked. split; [congruence|lia].
Qed.




Lemma app_cancel_r (s1 s2 t : string) : s1 +:+ t = s2 +:+ t → s1 = s2.
Proof.
  revert s2. induction s1 as [|c s1 IH]; intros [|d s2] Heq; [done|..].
  - apply (f_equal PyStr.len) in Heq. rewrite app_empty_l, len_app in Heq.
    simpl in Heq. lia.
  - apply (f_equal PyStr.len) in Heq. rewrite app_empty_l, len_app in Heq.
    simpl in Heq. lia.
  - rewrite !app_cons in Heq. injection Heq as -> Heq. f_equal. by apply IH.
Qed.

(** Two keywords have the same record file exactly when they have the
    same derived name. *)
Lemma json_path_eq (out k1 k2 : string) :
  json_path out k1 = json_path out k2 ↔ safe_filename k1 = safe_filename k2.
Proof.
  unfold json_path. split; [|by intros ->].
  intros Heq. apply String.app_inj in Heq. apply (String.app_inj "/") in Heq.
  by apply app_cancel_r in Heq.
Qed.

Lemma save_all_last (out : string) (fs : gmap string file)
    (before : list result_item) (item : result_item) (after : list result_item) :
  (∀ i, i ∈ after → safe_filename (keyword i) ≠ safe_filename (keyword item)) →
  save_all out fs (before ++ item :: after) !! json_path out (keyword item)
  = Some (JsonLines [item]).
Proof.
  induction after as [|x after IH] using rev_ind; intros Hlater.
  - rewrite save_all_snoc. apply lookup_insert_eq.
  - rewrite app_comm_cons, app_assoc, save_all_snoc, lookup_insert_ne.
    + apply IH. intros i Hi. apply Hlater, elem_of_app. by left.
    + rewrite json_path_eq. apply Hlater, elem_of_app. right. by left.
Qed.

(** X18: after a run that returns, the record file of a result holds that
    result and nothing else, unless a later result has the same derived
    name. *)
Theorem X18_record_file_holds_result (keywords : list string) (out : string) s s'
    (before : list result_item) (item : result_item) (after : list result_item) :
  scrape_keywords keywords out s = (Ok (before ++ item :: after), s') →
  (∀ i, i ∈ after → safe_filename (keyword i) ≠ safe_filename (keyword item)) →
  files s' !! (out +:+ "/" +:+ safe_filename (keyword item) +:+ ".json")
  = Some (JsonLines [item]).
Proof.
  intros (s0 & s1 & Hdir & Hloop & Hsum)%scrape_keywords_returned Hlater.
  apply scrape_loop_inv in Hloop as [_ Hnew].
  destruct (Hnew _ eq_refl) as (new & Hresults & _ & _ & Hf1). simpl in Hresults. subst new.
  apply write_summary_footprint in Hsum as (_ & _ & _ & _ & _ & Hf2 & _).
  change (out +:+ "/" +:+ safe_filename (keyword item) +:+ ".json")
    with (json_path out (keyword item)).
  rewrite Hf2 by apply json_path_not_csv_path.
  rewrite Hf1. by apply save_all_last.
Qed.

(** X19: the keywords of the results of a run that returns form a
    sublist of the keywords given: the results follow the order of the
    keywords, with at most one result per keyword. *)
Theorem X19_results_follow_keywords (keywords : list string) (out : string) s results s' :
  scrape_keywords keywords out s = (Ok results, s') →
  keyword <$> results `sublist_of` keywords
  ∧ length results ≤ length keywords.
Proof.
  intros (s0 & s1 & Hdir & Hloop & Hsum)%scrape_keywords_returned.
  apply scrape_loop_inv in Hloop as [_ Hnew].
  destruct (Hnew _ eq_refl) as (new & Hresults & Hsub & _). simpl in Hresults. subst new.
  split; [done|]. apply sublist_length in Hsub. by rewrite length_fmap in Hsub.
Qed.

(** The record files of a list of results are pairwise distinct exactly
    when the derived names of their keywords are. *)
Lemma record_paths_NoDup (out : string) results :
  NoDup (record_file out <$> results).*1
  ↔ NoDup (safe_filename <$> (keyword <$> results)).
Proof.
  induction results as [|item results IH]; [by split; constructor|].
  rewrite !fmap_cons, !NoDup_cons, IH. cbn [record_file fst].
  assert (Hin : json_path out (keyword item) ∈ (record_file out <$> results).*1
                ↔ safe_filename (keyword item) ∈ safe_filename <$> (keyword <$> results)).
  { rewrite <- !list_fmap_compose, !list_elem_of_fmap.
    split; intros (i & Heq & Hi); exists i; (split; [|done]); simpl in *.
    - by apply json_path_eq in Heq.
    - by apply json_path_eq. }
  by rewrite Hin.
Qed.

(** X20: when the program ends normally, the line it prints gives the
    number of results, which is the number of times the run has written a
    record file, one write per result and in their order, and is at most the
    number of keywords; these writes go to pairwise distinct files exactly
    when the derived names of the results' keywords are pairwise distinct,
    so the record files can be fewer than the number printed; when the run
    raises, so does the program, and nothing is printed. *)
Theorem X20_main_reports_count (keywords : list string) (out : string) s
    (r : outcome string) s' :
  main keywords out s = (r, s') →
  match r with
  | Ok line =>
      ∃ results,
        scrape_keywords keywords out s = (Ok results, s')
        ∧ line = "Scraped " +:+ PyStr.of_int (Z.of_nat (length results))
                 +:+ " articles successfully!"
        ∧ record_writes (trace s')
          = record_writes (trace s) ++ (record_file out <$> results)
        ∧ (NoDup (record_file out <$> results).*1
           ↔ NoDup (safe_filename <$> (keyword <$> results)))
        ∧ length results ≤ length keywords
  | Raise e => scrape_keywords keywords out s = (Raise e, s')
  end.
Proof.
  unfold main. rewrite bind_run.
  destruct (scrape_keywords keywords out s) as [[results|e] s1] eqn:Hrun;
    [|by intros [= <- <-]].
  intros [= <- <-]. exists results. split; [done|]. split; [done|].
  apply scrape_keywords_returned in Hrun as (s0 & s2 & Hdir & Hloop & Hsum).
  destruct (ensure_dir_run out s) as (r0 & s0' & Hdir' & _ & _ & _ & _ & Hr0 & _).
  rewrite Hdir in Hdir'. injection Hdir' as <- <-.
  apply scrape_loop_inv in Hloop as [_ Hnew].
  destruct (Hnew _ eq_refl) as (new & Hresults & Hsub & Hr1 & _). simpl in Hresults. subst new.
  destruct (write_summary_run out results s2) as (s3 & Hsum' & _ & Hr2 & _).
  rewrite Hsum in Hsum'. injection Hsum' as <-.
  split; [by rewrite Hr2, Hr1, Hr0|]. split; [apply record_paths_NoDup|].
  apply sublist_length in Hsub. by rewrite length_fmap in Hsub.
Qed.

(** X21: when the request of a search fails, the failure ends the run at
    once: the request is the last event, the keywords that follow are not
    searched, and no summary table is written. *)
Theorem X21_failed_request_aborts (out : string) (before : list string) (k : string)
    (rest : list string) results s s0 sk (e : exn) (w : World) :
  ensure_dir out s = (Ok (), s0) →
  scrape_loop out before [] s0 = (Ok results, sk) →
  http_get (search_address k) (world sk) = (Raise e, w) →
  ∃ s',
    scrape_keywords (before ++ k :: rest) out s = (Raise e, s')
    ∧ trace s' = trace sk ++ [Log INFO ("Searching for: " +:+ k); Request (search_address k)]
    ∧ csv_writes (trace s') = csv_writes (trace s).
Proof.
  intros Hdir Hbefore Hget.
  destruct (search_wikipedia_run k sk _ w Hget)
    as (s1 & ((_ & _ & Hc1 & _) & _) & _ & Hsearch & logged & Ht1 & ->).
  exists s1.
  destruct (scrape_keywords_run (before ++ k :: rest) out s)
    as (r0 & s0' & Hdir' & _ & _ & Hc0 & _ & ->).
  rewrite Hdir in Hdir'. injection Hdir' as <- <-.
  rewrite scrape_loop_app, Hbefore. cbn [scrape_loop]. rewrite bind_run, Hsearch.
  split; [done|]. split; [done|].
  apply scrape_loop_inv in Hbefore as [Hcb _]. congruence.
Qed.

(** A loop in which no keyword finds an address. *)
Lemma scrape_loop_nothing_found (out : string) (keywords : list string) results s :
  searches_fail keywords (world s) →
  ∃ s', scrape_loop out keywords results s = (Ok results, s')
    ∧ no_file_written s s'
    ∧ requests (trace s') = requests (trace s) ++ (search_address <$> keywords)
    ∧ sleeps (trace s') = sleeps (trace s) ++ replicate (length keywords) 1.
Proof.
  revert s. induction keywords as [|k keywords IH]; intros s Hnone.
  - exists s. split; [done|]. split; [apply no_file_written_refl|]. by rewrite !app_nil_r.
  - destruct Hnone as (resp & w & Hget & Hdirect & Hlinks & Hrest).
    destruct (search_wikipedia_run k s _ w Hget)
      as (s1 & (Hq1 & Hr1 & Hs1 & _) & Hw1 & Hsearch & _).
    rewrite Hdirect, Hlinks in Hsearch.
    destruct (sleep_quiet 1 s1) as (s2 & Hsleep & Hq2 & Ht2 & Hw2).
    destruct (IH s2) as (s3 & Hloop & Hq3 & Hr3 & Hs3); [by rewrite Hw2, Hw1|].
    exists s3. split.
    + cbn [scrape_loop]. rewrite bind_run, Hsearch, bind_run.
      cbn [scrape_one mret M_ret]. by rewrite bind_run, Hsleep.
    + split; [eauto using no_file_written_trans|]. split.
      * rewrite Hr3. unfold requests at 1. rewrite Ht2, omap_app, app_nil_r.
        fold (requests (trace s1)). by rewrite Hr1, <- app_assoc.
      * rewrite Hs3. unfold sleeps at 1. rewrite Ht2, omap_app.
        fold (sleeps (trace s1)). by rewrite Hs1, <- app_assoc.
Qed.

(** X22: in a run that has got past its output directory and in which no
    keyword resolves, each search being made in the world as the run has
    left it by then, the run returns no result, makes exactly one request
    per keyword, the searches in the order of the keywords, pauses once per
    keyword, and saves neither a record file nor a summary table. *)
Theorem X22_nothing_found (keywords : list string) (out : string) s s0 :
  ensure_dir out s = (Ok (), s0) →
  searches_fail keywords (world s0) →
  ∃ s',
    scrape_keywords keywords out s = (Ok [], s')
    ∧ files s' = files s
    ∧ csv_writes (trace s') = csv_writes (trace s)
    ∧ record_writes (trace s') = record_writes (trace s)
    ∧ requests (trace s') = requests (trace s) ++ (search_address <$> keywords)
    ∧ sleeps (trace s') = sleeps (trace s) ++ replicate (length keywords) 1.
Proof.
  intros Hdir Hnone.
  destruct (scrape_keywords_run keywords out s)
    as (r0 & s0' & Hdir' & Hf0 & Hw0 & Hc0 & Hr0 & Hrun).
  rewrite Hdir in Hdir'. injection Hdir' as <- <-.
  apply ensure_dir_footprint in Hdir as (_ & _ & Hq0 & Hp0 & _).
  destruct (scrape_loop_nothing_found out keywords [] s0 Hnone)
    as (s1 & Hloop & (Hf1 & _ & Hc1 & Hr1) & Hq1 & Hp1).
  rewrite Hloop in Hrun. cbn in Hrun.
  exists s1. split; [done|]. repeat split; congruence.
Qed.

End MoreRuns.

(** ** Further properties on the demo site *)

Section MoreOnDemo.

#[local] Existing Instance Demo.env.

(** X11 on the search for "New York". *)
Lemma X11_search_makes_one_request_witness :
  let s := Demo.start in
  let k := "New York" in
  let run := search_wikipedia k s in
  search_wikipedia k s = (run.1, run.2)
  ∧ ∃ after,
      trace run.2
      = trace s
        ++ Log INFO ("Searching for: " +:+ k)
        :: Request ("https://en.wikipedia.org/w/index.php?search="
                    +:+ PyStr.smap (λ c, if decide (c = " "%char) then "+"%char else c) k)
        :: after
      ∧ length after ≤ 1
      ∧ Forall (λ e, is_log e = true) after
      ∧ log_file run.2 = log_file s ++ (INFO, "Searching for: " +:+ k) :: log_lines after
      ∧ files run.2 = files s
      ∧ dirs run.2 = dirs s.
Proof.
  intros s k run.
  assert (Hrun : search_wikipedia k s = (run.1, run.2)) by apply surjective_pairing.
  split; [exact Hrun|].
  exact (X11_search_makes_one_request k s run.1 run.2 Hrun).
Defined.

(** X12 on a keyword the demo site does not know. *)
Lemma X12_unresolved_keyword_is_skipped_witness :
  let s := Demo.start in
  let resp := Demo.site (search_address "zzz") in
  http_get (search_address "zzz") (world s) = (Ok resp, ())
  ∧ direct_match resp = false
  ∧ select sel_search_results (resp_soup resp) = []
  ∧ ∃ s1 s2,
      search_wikipedia "zzz" s = (Ok None, s1)
      ∧ trace s1 = trace s ++
          [Log INFO ("Searching for: " +:+ "zzz"); Request (search_address "zzz");
           Log WARNING ("No results found for: " +:+ "zzz")]
      ∧ trace s2 = trace s1 ++ [Sleep 1]
      ∧ log_file s2 = log_file s ++
          [(INFO, "Searching for: " +:+ "zzz"); (WARNING, "No results found for: " +:+ "zzz")]
      ∧ files s2 = files s
      ∧ dirs s2 = dirs s
      ∧ scrape_loop "output" ["zzz"; "AI"] [] s = scrape_loop "output" ["AI"] [] s2.
Proof.
  intros s resp. repeat (split; [reflexivity|]).
  exact (X12_unresolved_keyword_is_skipped "output" "zzz" ["AI"] [] s resp ()
           eq_refl eq_refl eq_refl).
Defined.

(** X13 on the keyword whose search shows a results page. *)
Lemma X13_first_result_link_witness :
  let s := Demo.start in
  let k := "Turing machine man" in
  let resp := Demo.site (search_address k) in
  let first := Elem "a" [("href", "/wiki/Alan_Turing")] [Text "Alan Turing"] in
  http_get (search_address k) (world s) = (Ok resp, ())
  ∧ direct_match resp = false
  ∧ select sel_search_results (resp_soup resp) = first :: []
  ∧ ∃ s',
      (∀ href, get (node_attrs first) "href" = Some href →
         search_wikipedia k s = (Ok (Some ("https://en.wikipedia.org" +:+ href)), s'))
      ∧ (get (node_attrs first) "href" = None →
           search_wikipedia k s = (Ok (Some "https://en.wikipedia.orgNone"), s')).
Proof.
  intros s k resp first. repeat (split; [reflexivity|]).
  exact (X13_first_result_link k s resp () first [] eq_refl eq_refl eq_refl).
Defined.

(** X14 on the demo article. *)
Lemma X14_fetch_returns_record_witness :
  let s := Demo.start in
  let address := "https://en.wikipedia.org/wiki/AI" in
  let resp := Demo.site address in
  let h := Elem "h1" [("id", "firstHeading")] [Text " AI "] in
  http_get address (world s) = (Ok resp, ())
  ∧ status_code resp = 200%Z
  ∧ select_one sel_first_heading (resp_soup resp) = Some h
  ∧ ∃ a s',
      get_article_content address s = (Ok (Some a), s')
      ∧ url a = address
      ∧ title a = stripped_text h
      ∧ trace s' = trace s ++ [Log INFO ("Fetching content from: " +:+ address);
                               Request address]
      ∧ no_file_written s s'.
Proof.
  intros s address resp h. repeat (split; [reflexivity|]).
  exact (X14_fetch_returns_record address s resp () h eq_refl eq_refl eq_refl).
Defined.

(** X15 on a run with one result, one failed fetch and one keyword not found. *)
Lemma X15_one_pause_per_keyword_witness :
  let s := Demo.start in
  let keywords := ["AI"; "Gone"; "zzz"] in
  ∃ results s',
    scrape_keywords keywords "output" s = (Ok results, s')
    ∧ sleeps (trace s') = sleeps (trace s) ++ replicate (length keywords) 1
    ∧ ∃ asked, requests (trace s') = requests (trace s) ++ asked
        ∧ length keywords + length results ≤ length asked ≤ 2 * length keywords.
Proof.
  intros s keywords.
  assert (∃ results s', scrape_keywords keywords "output" s = (Ok results, s'))
    as (results & s' & Hrun) by (vm_compute; eexists _, _; reflexivity).
  exists results, s'. split; [exact Hrun|].
  exact (X15_one_pause_per_keyword keywords "output" s results s' Hrun).
Defined.



(** X18 on a run with two results of different names. *)
Lemma X18_record_file_holds_result_witness :
  let s := Demo.start in
  let keywords := ["AI"; "Turing machine man"] in
  ∃ item after s',
    scrape_keywords keywords "output" s = (Ok ([] ++ item :: after), s')
    ∧ (∀ i, i ∈ after → safe_filename (keyword i) ≠ safe_filename (keyword item))
    ∧ files s' !! ("output" +:+ "/" +:+ safe_filename (keyword item) +:+ ".json")
      = Some (JsonLines [item]).
Proof.
  intros s keywords.
  assert (∃ item1 item2 s',
            scrape_keywords keywords "output" s = (Ok ([] ++ item1 :: [item2]), s')
            ∧ keyword item1 = "AI" ∧ keyword item2 = "Turing machine man")
    as (item1 & item2 & s' & Hrun & Hk1 & Hk2)
    by (vm_compute; eexists _, _, _; split; [reflexivity|split; reflexivity]).
  assert (Hlater : ∀ i, i ∈ [item2] →
                     safe_filename (keyword i) ≠ safe_filename (keyword item1)).
  { intros i ->%list_elem_of_singleton. rewrite Hk1, Hk2. vm_compute. discriminate. }
  exists item1, [item2], s'. split; [exact Hrun|]. split; [exact Hlater|].
  exact (X18_record_file_holds_result keywords "output" s s' [] item1 [item2] Hrun Hlater).
Defined.

(** X19 on a run in which the middle keyword gives no result. *)
Lemma X19_results_follow_keywords_witness :
  let s := Demo.start in
  let keywords := ["AI"; "Gone"; "A.I."] in
  ∃ results s',
    scrape_keywords keywords "output" s = (Ok results, s')
    ∧ keyword <$> results `sublist_of` keywords
    ∧ length results ≤ length keywords.
Proof.
  intros s keywords.
  assert (∃ results s', scrape_keywords keywords "output" s = (Ok results, s'))
    as (results & s' & Hrun) by (vm_compute; eexists _, _; reflexivity).
  exists results, s'. split; [exact Hrun|].
  exact (X19_results_follow_keywords keywords "output" s results s' Hrun).
Defined.

(** X20 on the run over "AI" and "A.I.", which prints 2 and leaves one
    record file. *)
Lemma X20_main_reports_count_witness :
  let s := Demo.start in
  let keywords := ["AI"; "A.I."] in
  let run := main keywords "output" s in
  main keywords "output" s = (run.1, run.2)
  ∧ run.1 = Ok "Scraped 2 articles successfully!"
  ∧ match run.1 with
    | Ok line =>
        ∃ results,
          scrape_keywords keywords "output" s = (Ok results, run.2)
          ∧ line = "Scraped " +:+ PyStr.of_int (Z.of_nat (length results))
                   +:+ " articles successfully!"
          ∧ record_writes (trace run.2)
            = record_writes (trace s) ++ (record_file "output" <$> results)
          ∧ (NoDup (record_file "output" <$> results).*1
             ↔ NoDup (safe_filename <$> (keyword <$> results)))
          ∧ length results ≤ length keywords
    | Raise e => scrape_keywords keywords "output" s = (Raise e, run.2)
    end.
Proof.
  intros s keywords run.
  assert (Hrun : main keywords "output" s = (run.1, run.2)) by apply surjective_pairing.
  split; [exact Hrun|]. split; [vm_compute; reflexivity|].
  exact (X20_main_reports_count keywords "output" s run.1 run.2 Hrun).
Defined.

(** X21 on a site whose search fails. *)
Lemma X21_failed_request_aborts_witness :
  let down : Env :=
    {| World := unit;
       http_get := λ _ w, (Raise RequestException, w);
       now := λ _, "20240101_120000";
       pass := λ _ w, w |} in
  let s : @state down :=
    {| world := (); files := ∅; dirs := ∅; log_file := []; trace := [] |} in
  let s0 := (@ensure_dir down "output" s).2 in
  @ensure_dir down "output" s = (Ok (), s0)
  ∧ @scrape_loop down "output" [] [] s0 = (Ok [], s0)
  ∧ @http_get down (search_address "AI") (world s0) = (Raise RequestException, ())
  ∧ ∃ s',
      @scrape_keywords down ([] ++ "AI" :: ["A.I."]) "output" s
      = (Raise RequestException, s')
      ∧ trace s' = trace s0 ++ [Log INFO ("Searching for: " +:+ "AI");
                                Request (search_address "AI")]
      ∧ csv_writes (trace s') = csv_writes (trace s).
Proof.
  intros down s s0. repeat (split; [reflexivity|]).
  exact (@X21_failed_request_aborts down "output" [] "AI" ["A.I."] [] s s0 s0
           RequestException () eq_refl eq_refl eq_refl).
Defined.

(** X22 on two keywords the demo site does not know. *)
Lemma X22_nothing_found_witness :
  let s := Demo.start in
  let keywords := ["zzz"; "qqq"] in
  let s0 := (ensure_dir "output" s).2 in
  ensure_dir "output" s = (Ok (), s0)
  ∧ searches_fail keywords (world s0)
  ∧ ∃ s',
      scrape_keywords keywords "output" s = (Ok [], s')
      ∧ files s' = files s
      ∧ csv_writes (trace s') = csv_writes (trace s)
      ∧ record_writes (trace s') = record_writes (trace s)
      ∧ requests (trace s') = requests (trace s) ++ (search_address <$> keywords)
      ∧ sleeps (trace s') = sleeps (trace s) ++ replicate (length keywords) 1.
Proof.
  intros s keywords s0.
  assert (Hdir : ensure_dir "output" s = (Ok (), s0)) by reflexivity.
  assert (Hnone : searches_fail keywords (world s0)).
  { do 2 (eexists _, _; split; [reflexivity|split; [reflexivity|split; [reflexivity|]]]).
    exact I. }
  split; [exact Hdir|]. split; [exact Hnone|].
  exact (X22_nothing_found keywords "output" s s0 Hdir Hnone).
Defined.

End MoreOnDemo.
